(** * no-csam-bot: detection pipeline and offense escalation

    A shallow embedding of the TypeScript sources

      - src/detection/hashMatcher.ts
      - src/detection/apiDetector.ts
      - src/detection/detectionPipeline.ts
      - worker/index.ts
      - src/bot/handlers/banManager.ts and timeoutManager.ts
      - src/bot/events/messageCreate.ts
      - src/bot/handlers/moderatorAlert.ts
      - src/utils/logger.ts and src/config/config.ts

    and the properties of the detection and escalation engine.

    Conventions.

    - A JavaScript number that is finite is a rational number, and the
      comparison operators on finite numbers agree with the order of the
      rationals; [number] adds the two non-finite values the code can
      produce ([NaN] from 0/0, [Infinity] from n/0).  Confidence scores come
      out of JSON documents and the thresholds out of decimal numerals in
      the environment; they are finite, so they are plain [Q].
    - Strings are [string]; the perceptual hashes are hexadecimal text.
    - The Prisma tables are in-memory collections: the user table a
      [gmap] keyed by the user id, the ban / timeout / detection /
      moderatorReview tables lists whose index is the record id.  A table
      operation raises only where Prisma does by its contract ([update] of
      a record that does not exist).
    - Calls to the chat platform and to the classifier are recorded in
      an event log; whether such a call throws is given by the environment.
    - Log output and the timing fields ([processingTimeMs],
      [totalProcessingTimeMs]) are left out. *)

From Stdlib Require Import QArith Ascii.
From stdpp Require Import base option list strings gmap pretty relations.

Local Open Scope Q_scope.

(** ** JavaScript numbers *)

Inductive number : Type :=
| Num (q : Q)
| Infinity
| NaN.

(** [n / d] for two non-negative integers. *)
Definition js_div (n d : nat) : number :=
  match d with
  | O => match n with O => NaN | S _ => Infinity end
  | S _ => Num (Z.of_nat n # Pos.of_nat d)
  end.

(** [x >= y] for a number on the left and a finite literal on the right. *)
Definition num_geb (x : number) (y : Q) : bool :=
  match x with
  | Num q => Qle_bool y q
  | Infinity => true
  | NaN => false
  end.

(** [x === y] on numbers: [NaN] is equal to nothing, itself included. *)
Definition num_eq (x y : number) : Prop :=
  match x, y with
  | Num a, Num b => a == b
  | Infinity, Infinity => True
  | _, _ => False
  end.

(** [a > b], [a >= b], [a < b] on finite numbers. *)
Definition Qgtb (a b : Q) : bool := negb (Qle_bool a b).
Definition Qgeb (a b : Q) : bool := Qle_bool b a.
Definition Qltb (a b : Q) : bool := negb (Qle_bool b a).

(** ** src/detection/hashMatcher.ts *)

Module HashMatcher.

Inductive Severity := low | medium | high.

(** A row of the [hashDatabase] table. *)
Record HashDatabase := {
  hd_hash : string;
  hd_severity : Severity;
  hd_active : bool
}.

Record HashMatchResult := {
  matched : bool;
  hash : string;
  matchedHash : option string;
  similarity : option number
}.

(** [hash1[i] === hash2[i]]: two code units, or [undefined] past the end. *)
Definition char_eqb (a b : option Ascii.ascii) : bool :=
  bool_decide (a = b).

(** The body of the [for (let i = 0; i < hash1.length; i++)] loop. *)
Definition match_step (hash1 hash2 : string) (matches i : nat) : nat :=
  if char_eqb (String.get i hash1) (String.get i hash2)
  then S matches else matches.

Definition count_matches (hash1 hash2 : string) : nat :=
  fold_left (match_step hash1 hash2) (seq 0 (String.length hash1)) 0%nat.

Definition calculateHammingDistance (hash1 hash2 : string) : number :=
  if bool_decide (String.length hash1 ≠ String.length hash2) then Num 0
  else js_div (count_matches hash1 hash2) (String.length hash1).

(** [prisma.hashDatabase.findMany({ where: { active: true } })] *)
Definition findMany_active (table : list HashDatabase) : list HashDatabase :=
  filter (fun r => hd_active r = true) table.

(** The [for (const knownHash of knownHashes)] loop with its early return. *)
Fixpoint match_loop (hash : string) (knownHashes : list HashDatabase)
  : HashMatchResult :=
  match knownHashes with
  | [] => {| matched := false; hash := hash;
             matchedHash := None; similarity := None |}
  | knownHash :: rest =>
      let similarity := calculateHammingDistance hash (hd_hash knownHash) in
      if num_geb similarity (95 # 100)
      then {| matched := true; hash := hash;
              matchedHash := Some (hd_hash knownHash);
              similarity := Some similarity |}
      else match_loop hash rest
  end.

(** [checkHashMatch], given the outcome of [computePerceptualHash]
    ([None] when hashing throws, which [checkHashMatch] rethrows). *)
Definition checkHashMatch (computed : option string)
    (table : list HashDatabase) : option HashMatchResult :=
  match computed with
  | None => None
  | Some hash => Some (match_loop hash (findMany_active table))
  end.

End HashMatcher.

(** ** src/config/config.ts (the [detection] block) *)

Record Sightengine := { apiUser : string; apiSecret : string }.

Record DetectionConfig := {
  workerUrl : option string;
  workerApiKey : option string;
  sightengine : option Sightengine;
  detectionThreshold : Q;
  reviewThreshold : Q;
  maxConcurrentScans : nat;
  imageMaxSizeMB : nat
}.

(** Truthiness of an optional string: [undefined] and [''] are falsy. *)
Definition truthy (s : option string) : bool :=
  match s with
  | Some s => negb (bool_decide (s = ""%string))
  | None => false
  end.

(** What a request to an outside service comes to: an answer with its
    body (for axios, a 2xx response), or a thrown error (network error,
    status outside 2xx, timeout) of which the code reads [error.message]. *)
Inductive HttpOutcome (A : Type) : Type :=
| Responded (data : A)
| Threw (message : string).
Arguments Responded {A} data.
Arguments Threw {A} message.

(** ** worker/index.ts *)

Module Worker.

Record DetectionResponse := {
  detected : bool;
  confidence : Q;
  provider : string;
  labels : option (list (option string));
  error : option string
}.

(** One entry of the model's answer, [{ label, score }]. *)
Record Classification := { label : option string; score : Q }.

Definition lower_ascii (c : Ascii.ascii) : Ascii.ascii :=
  let n := Ascii.nat_of_ascii c in
  if (Nat.leb 65 n && Nat.leb n 90)%bool
  then Ascii.ascii_of_nat (n + 32) else c.

Fixpoint toLowerCase (s : string) : string :=
  match s with
  | EmptyString => EmptyString
  | String c r => String (lower_ascii c) (toLowerCase r)
  end.

Fixpoint includes (hay needle : string) : bool :=
  (String.prefix needle hay ||
   match hay with
   | EmptyString => false
   | String _ r => includes r needle
   end)%bool.

(** [r.label?.toLowerCase().includes(w)]; [undefined] is falsy. *)
Definition label_has (r : Classification) (w : string) : bool :=
  match label r with
  | Some l => includes (toLowerCase l) w
  | None => false
  end.

Definition is_nsfw (r : Classification) : bool :=
  (label_has r "nsfw" || label_has r "nude" || label_has r "adult")%bool.

Record Env := {
  image_ok : bool;                                (* [imageResponse.ok] *)
  ai_reply : HttpOutcome (list Classification)    (* [aiResponse] *)
}.

Definition failed (message : string) : DetectionResponse :=
  {| detected := false; confidence := 0; provider := "cloudflare-worker";
     labels := None; error := Some message |}.

Definition detectImage (env : Env) : DetectionResponse :=
  if negb (image_ok env) then failed "Failed to fetch image"
  else match ai_reply env with
       | Threw message => failed message
       | Responded result =>
           let nsfwLabels := List.filter is_nsfw result in
           let nsfwScore :=
             match nsfwLabels with
             | r :: _ => score r
             | [] => 0
             end in
           {| detected := Qgtb nsfwScore (85 # 100);
              confidence := nsfwScore;
              provider := "cloudflare-worker";
              labels := Some (map label result);
              error := None |}
       end.

End Worker.

(** ** src/detection/apiDetector.ts *)

Module ApiDetector.

Record APIDetectionResult := {
  detected : bool;
  confidence : Q;
  provider : string;
  labels : option (list (option string));
  error : option string
}.

(** The fields of the Sightengine answer the code reads. *)
Record SightengineData := {
  sexual_activity : option Q;      (* [data.nudity?.sexual_activity] *)
  sexual_display : option Q;       (* [data.nudity?.sexual_display] *)
  offensive_prob : option Q        (* [data.offensive?.prob] *)
}.

(** Outbound requests, in the order they are made. *)
Inductive Call := CallWorker | CallSightengine.

(** What comes back from the two addresses when a request is made: the
    body of the answer of whichever service listens at [WORKER_URL], and
    of the Sightengine API, or the error axios throws. *)
Record Providers := {
  worker_reply : HttpOutcome Worker.DetectionResponse;
  sightengine_reply : HttpOutcome SightengineData
}.

(** [a || b] where [a] is an optional number: [undefined] and [0] are
    falsy. *)
Definition num_or (a : option Q) (b : Q) : Q :=
  match a with
  | Some q => if Qeq_bool q 0 then b else q
  | None => b
  end.

Definition Math_max (a b : Q) : Q := if Qle_bool a b then b else a.

Definition failed (provider message : string) : APIDetectionResult :=
  {| detected := false; confidence := 0; provider := provider;
     labels := None; error := Some message |}.

Definition detectWithCloudflareWorker (cfg : DetectionConfig)
    (p : Providers) : APIDetectionResult * list Call :=
  if (negb (truthy (workerUrl cfg)) || negb (truthy (workerApiKey cfg)))%bool
  then (failed "cloudflare-worker"
          "Cloudflare Worker URL or API key not configured", [])
  else match worker_reply p with
       | Responded result =>
           ({| detected := Worker.detected result;
               confidence := Worker.confidence result;
               provider := "cloudflare-worker";
               labels := Worker.labels result;
               error := None |}, [CallWorker])
       | Threw message => (failed "cloudflare-worker" message, [CallWorker])
       end.

Definition detectWithSightengine (cfg : DetectionConfig)
    (p : Providers) : APIDetectionResult * list Call :=
  match sightengine cfg with
  | None => (failed "sightengine" "Sightengine API not configured", [])
  | Some _ =>
      match sightengine_reply p with
      | Responded data =>
          let nudityScore :=
            num_or (sexual_activity data) (num_or (sexual_display data) 0) in
          let offensiveScore := num_or (offensive_prob data) 0 in
          let confidence := Math_max nudityScore offensiveScore in
          ({| detected := Qgtb confidence (detectionThreshold cfg);
              confidence := confidence;
              provider := "sightengine";
              labels := Some [];
              error := None |}, [CallSightengine])
      | Threw message => (failed "sightengine" message, [CallSightengine])
      end
  end.

Definition detectWithAPI (cfg : DetectionConfig)
    (p : Providers) : APIDetectionResult * list Call :=
  if truthy (workerUrl cfg) then detectWithCloudflareWorker cfg p
  else match sightengine cfg with
       | Some _ => detectWithSightengine cfg p
       | None => (failed "none" "No API provider configured", [])
       end.

End ApiDetector.

(** ** src/detection/detectionPipeline.ts: [scanImage] *)

Module DetectionPipeline.

Record DetectionResult := {
  flagged : bool;
  confidence : Q;
  method : string;
  requiresReview : bool;
  hash : string;
  hashMatch : option HashMatcher.HashMatchResult;
  apiDetection : option ApiDetector.APIDetectionResult
}.

(** Everything one scan reads from outside. *)
Record ScanEnv := {
  computed : option string;                 (* [computePerceptualHash] *)
  table : list HashMatcher.HashDatabase;    (* the [hashDatabase] table *)
  cfg : DetectionConfig;
  providers : ApiDetector.Providers
}.

(** [scanImage]: [None] when it throws; the list is the classifier
    requests made on the way. *)
Definition scanImage (env : ScanEnv)
  : option DetectionResult * list ApiDetector.Call :=
  match HashMatcher.checkHashMatch (computed env) (table env) with
  | None => (None, [])
  | Some hashResult =>
      if HashMatcher.matched hashResult
      then (Some {| flagged := true;
                    confidence := 1;
                    method := "hash_match";
                    requiresReview := false;
                    hash := HashMatcher.hash hashResult;
                    hashMatch := Some hashResult;
                    apiDetection := None |}, [])
      else
        let '(apiResult, calls) :=
          ApiDetector.detectWithAPI (cfg env) (providers env) in
        let flagged := ApiDetector.detected apiResult in
        let confidence := ApiDetector.confidence apiResult in
        let requiresReview :=
          (Qgeb confidence (reviewThreshold (cfg env)) &&
           Qltb confidence (detectionThreshold (cfg env)))%bool in
        (Some {| flagged := flagged;
                 confidence := confidence;
                 method := ApiDetector.provider apiResult;
                 requiresReview := requiresReview;
                 hash := HashMatcher.hash hashResult;
                 hashMatch := Some hashResult;
                 apiDetection := Some apiResult |}, calls)
  end.

End DetectionPipeline.

(** ** The persistent store and the chat platform *)

(** Rows of the Prisma tables, with the fields the handlers read or write.
    The primary key of a ban, timeout, detection or review row is its
    position in the table. *)

Record User := {
  username : string;
  discriminator : string;
  offenseCount : nat;
  globallyBanned : bool
}.

Inductive BanType := ban_server | global_pending | ban_global | ban_global_rejected.

#[global] Instance BanType_eq_dec : EqDecision BanType.
Proof. solve_decision. Defined.

Record Ban := {
  ban_userId : string;
  ban_guildId : string;
  ban_level : nat;
  ban_reason : string;
  banType : BanType;
  ban_active : bool
}.

Inductive TimeoutType :=
  timeout_server | pending_review | global_approved | global_rejected.

#[global] Instance TimeoutType_eq_dec : EqDecision TimeoutType.
Proof. solve_decision. Defined.

Record Timeout := {
  to_userId : string;
  to_guildId : string;
  to_level : nat;
  to_reason : string;
  timeoutType : TimeoutType;
  to_active : bool;
  expiresAt : Z
}.

Inductive ActionTaken :=
| action_pending
| action_none
| action_deleted
| action_deleted_and_banned_level (level : nat).

Record Detection := {
  det_userId : string;
  det_guildId : string;
  det_messageId : string;
  det_imageHash : string;
  det_method : string;
  det_confidenceScore : Q;
  det_flagged : bool;
  actionTaken : ActionTaken
}.

Inductive ReviewStatus := review_pending | review_approved | review_rejected.

Record ModeratorReview := { detectionId : nat; status : ReviewStatus }.

Record GuildConfig := {
  detectionEnabled : bool;
  autoDelete : bool;
  autoBan : bool;
  alertChannelId : option string;
  moderatorRoleIds : string
}.

Record BotConfig := {
  moderationServerId : option string;
  moderationChannelId : option string
}.

(** Requests to the chat platform that went through, in order. *)
Inductive Event :=
| MembersBan (guildId userId : string)
| MemberTimeout (guildId userId : string) (ms : Z)
| ChannelSend (guildId channelId : string) (title : string)
| MessageDelete (messageId : string)
| MessageReact (messageId : string)
| UserSend (userId : string).

(** Requests to the chat platform that were made, whether or not they
    went through. *)
Inductive Attempt :=
| TryBan (guildId userId : string).

Record World := {
  users : gmap string User;
  bans : list Ban;
  timeouts : list Timeout;
  detections : list Detection;
  reviews : list ModeratorReview;
  guildTable : gmap string GuildConfig;
  botConfig : option BotConfig;
  events : list Event;
  attempts : list Attempt
}.

Definition set_users (f : gmap string User -> gmap string User) (w : World) :=
  {| users := f (users w); bans := bans w; timeouts := timeouts w;
     detections := detections w; reviews := reviews w;
     guildTable := guildTable w; botConfig := botConfig w;
     events := events w; attempts := attempts w |}.

Definition set_bans (f : list Ban -> list Ban) (w : World) :=
  {| users := users w; bans := f (bans w); timeouts := timeouts w;
     detections := detections w; reviews := reviews w;
     guildTable := guildTable w; botConfig := botConfig w;
     events := events w; attempts := attempts w |}.

Definition set_timeouts (f : list Timeout -> list Timeout) (w : World) :=
  {| users := users w; bans := bans w; timeouts := f (timeouts w);
     detections := detections w; reviews := reviews w;
     guildTable := guildTable w; botConfig := botConfig w;
     events := events w; attempts := attempts w |}.

Definition set_detections (f : list Detection -> list Detection) (w : World) :=
  {| users := users w; bans := bans w; timeouts := timeouts w;
     detections := f (detections w); reviews := reviews w;
     guildTable := guildTable w; botConfig := botConfig w;
     events := events w; attempts := attempts w |}.

Definition set_reviews
    (f : list ModeratorReview -> list ModeratorReview) (w : World) :=
  {| users := users w; bans := bans w; timeouts := timeouts w;
     detections := detections w; reviews := f (reviews w);
     guildTable := guildTable w; botConfig := botConfig w;
     events := events w; attempts := attempts w |}.

Definition set_events (f : list Event -> list Event) (w : World) :=
  {| users := users w; bans := bans w; timeouts := timeouts w;
     detections := detections w; reviews := reviews w;
     guildTable := guildTable w; botConfig := botConfig w;
     events := f (events w); attempts := attempts w |}.

Definition set_attempts (f : list Attempt -> list Attempt) (w : World) :=
  {| users := users w; bans := bans w; timeouts := timeouts w;
     detections := detections w; reviews := reviews w;
     guildTable := guildTable w; botConfig := botConfig w;
     events := events w; attempts := f (attempts w) |}.

(** The objects of the chat platform's client library the handlers hold.
    A method that can throw is given by the message it throws, if any. *)

Record Channel := {
  channel_id : string;
  isTextBased : bool;
  send : option string                 (* [channel.send(..)] throws? *)
}.

Record Guild := {
  guild_id : string;
  guild_name : string;
  members_ban : string -> option string;      (* [members.ban(userId)] *)
  members_fetch : string -> HttpOutcome bool; (* [members.fetch(userId)]:
                                                 whether a member came back *)
  member_timeout : string -> option string;   (* [member.timeout(..)] *)
  channels_cache : list Channel
}.

Record Client := {
  guilds_cache : list Guild;                       (* [client.guilds.cache] *)
  guilds_fetch : string -> HttpOutcome string;     (* name of the guild *)
  users_fetch : string -> option string
}.

(** [client.guilds.cache.get(guildId)] *)
Definition guilds_get (client : Client) (guildId : string) : option Guild :=
  List.find (fun g => bool_decide (guild_id g = guildId)) (guilds_cache client).

(** [guild.channels.cache.get(channelId)] *)
Definition channels_get (g : Guild) (channelId : string) : option Channel :=
  List.find (fun c => bool_decide (channel_id c = channelId)) (channels_cache g).

(** ** Handlers: state, and exceptions that leave the state written so far *)

Inductive Result (A : Type) : Type :=
| Ok (a : A)
| Raise (message : string).
Arguments Ok {A} a.
Arguments Raise {A} message.

Definition M (A : Type) : Type := World -> Result A * World.

Definition ret {A} (a : A) : M A := fun w => (Ok a, w).

Definition bind {A B} (m : M A) (k : A -> M B) : M B :=
  fun w => match m w with
           | (Ok a, w') => k a w'
           | (Raise e, w') => (Raise e, w')
           end.

Definition throw {A} (message : string) : M A := fun w => (Raise message, w).

(** [try { m } catch (error) { h(error.message) }] *)
Definition try_catch {A} (m : M A) (h : string -> M A) : M A :=
  fun w => match m w with
           | (Ok a, w') => (Ok a, w')
           | (Raise e, w') => h e w'
           end.

Definition get : M World := fun w => (Ok w, w).
Definition modify (f : World -> World) : M unit := fun w => (Ok tt, f w).

Declare Scope handler_scope.
Delimit Scope handler_scope with handler.
Notation "'let*' x ':=' m 'in' k" := (bind m (fun x => k))
  (at level 10, x pattern, m at level 100, k at level 200) : handler_scope.
Notation "m ';;' k" := (bind m (fun _ => k))
  (at level 100, k at level 200, right associativity) : handler_scope.

Definition emit (e : Event) : M unit := modify (set_events (fun l => l ++ [e])).

(** A platform call that throws [message] or goes through and is logged. *)
Definition platform (err : option string) (e : Event) : M unit :=
  match err with
  | Some message => throw message
  | None => emit e
  end.

(** [guild.members.ban(userId, ..)] *)
Definition guild_ban (g : Guild) (userId : string) : M unit :=
  (modify (set_attempts (fun l => l ++ [TryBan (guild_id g) userId])) ;;
   platform (members_ban g userId) (MembersBan (guild_id g) userId))%handler.

(** [prisma.user.update({ where: { id }, data })]: throws when there is no
    such row. *)
Definition user_update (userId : string) (f : User -> User) : M User :=
  (let* w := get in
   match users w !! userId with
   | None => throw "Record to update not found."
   | Some u => modify (set_users (insert userId (f u))) ;; ret (f u)
   end)%handler.

(** ** src/bot/handlers/banManager.ts *)

Module BanManager.

Record BanResult := {
  success : bool;
  level : nat;
  requiresModeratorReview : bool;
  message : string
}.

Definition executeServerBan (userId guildId reason : string)
    (client : Client) : M BanResult :=
  try_catch
    (match guilds_get client guildId with
     | None =>
         ret {| success := false; level := 1;
                requiresModeratorReview := false;
                message := "Guild not found" |}
     | Some guild =>
         guild_ban guild userId ;;
         modify (set_bans (fun t => t ++
           [{| ban_userId := userId; ban_guildId := guildId;
               ban_level := 1; ban_reason := reason;
               banType := ban_server; ban_active := true |}])) ;;
         ret {| success := true; level := 1;
                requiresModeratorReview := false;
                message := "User banned from server (first offense)" |}
     end)%handler
    (fun error_message =>
       ret {| success := false; level := 1;
              requiresModeratorReview := false;
              message := "Ban failed: " ++ error_message |}).

Definition queueForGlobalBan (userId guildId reason : string)
  : M BanResult :=
  try_catch
    (modify (set_bans (fun t => t ++
       [{| ban_userId := userId; ban_guildId := guildId;
           ban_level := 2; ban_reason := reason;
           banType := global_pending; ban_active := false |}])) ;;
     ret {| success := true; level := 2;
            requiresModeratorReview := true;
            message :=
              "User queued for global ban (requires moderator approval)" |}
    )%handler
    throw.

Definition handleUserOffense (userId guildId reason : string)
    (client : Client) : M BanResult :=
  try_catch
    (let* w := get in
     (match users w !! userId with
      | Some _ => ret tt
      | None =>
          modify (set_users (insert userId
            {| username := "Unknown"; discriminator := "0000";
               offenseCount := 0; globallyBanned := false |}))
      end) ;;
     let* user := user_update userId (fun u =>
       {| username := username u; discriminator := discriminator u;
          offenseCount := offenseCount u + 1;
          globallyBanned := globallyBanned u |}) in
     if Nat.eqb (offenseCount user) 1
     then executeServerBan userId guildId reason client
     else queueForGlobalBan userId guildId reason)%handler
    throw.

(** The [for (const guild of guilds)] loop of [approveGlobalBan], each
    iteration in its own [try]/[catch]; the result is [bannedCount]. *)
Fixpoint ban_everywhere (guilds : list Guild) (userId : string)
    (bannedCount : nat) : M nat :=
  match guilds with
  | [] => ret bannedCount
  | guild :: rest =>
      (let* n := try_catch
                   (guild_ban guild userId ;; ret (S bannedCount))
                   (fun _ => ret bannedCount) in
       ban_everywhere rest userId n)%handler
  end.

Definition approveGlobalBan (banId : nat) (moderatorId : string)
    (client : Client) : M bool :=
  try_catch
    (let* w := get in
     match bans w !! banId with
     | None => ret false
     | Some ban =>
         if negb (bool_decide (banType ban = global_pending)) then ret false
         else
           modify (set_bans (alter (fun b =>
             {| ban_userId := ban_userId b; ban_guildId := ban_guildId b;
                ban_level := ban_level b; ban_reason := ban_reason b;
                banType := ban_global; ban_active := true |}) banId)) ;;
           user_update (ban_userId ban) (fun u =>
             {| username := username u; discriminator := discriminator u;
                offenseCount := offenseCount u;
                globallyBanned := true |}) ;;
           ban_everywhere (guilds_cache client) (ban_userId ban) 0 ;;
           ret true
     end)%handler
    (fun _ => ret false).

(** [prisma.ban.update({ where: { id: banId }, data })]: throws when the
    row does not exist. *)
Definition rejectGlobalBan (banId : nat) (moderatorId notes : string)
  : M bool :=
  try_catch
    (let* w := get in
     match bans w !! banId with
     | None => throw "Record to update not found."
     | Some _ =>
         modify (set_bans (alter (fun b =>
           {| ban_userId := ban_userId b; ban_guildId := ban_guildId b;
              ban_level := ban_level b; ban_reason := ban_reason b;
              banType := ban_global_rejected; ban_active := false |}) banId)) ;;
         ret true
     end)%handler
    (fun _ => ret false).

Definition checkAndEnforceGlobalBan (userId : string) (guild : Guild)
  : M bool :=
  try_catch
    (let* w := get in
     match users w !! userId with
     | Some user =>
         if globallyBanned user
         then guild_ban guild userId ;; ret true
         else ret false
     | None => ret false
     end)%handler
    (fun _ => ret false).

End BanManager.

(** ** src/bot/handlers/timeoutManager.ts *)

Module TimeoutManager.

Definition ONE_WEEK_MS : Z := 7 * 24 * 60 * 60 * 1000.

Record TimeoutResult := {
  success : bool;
  level : nat;
  requiresModeratorReview : bool;
  message : string
}.

(** The moderation channel, when it is configured, cached and text-based:
    the three early returns of [notifyModerationServer], and the
    [if (config && ..)] / [if (modChannel && ..)] of approve and reject. *)
Definition moderation_channel (client : Client) (w : World)
  : option (string * Channel) :=
  match botConfig w with
  | None => None
  | Some config =>
      match moderationServerId config, moderationChannelId config with
      | Some serverId, Some channelId =>
          if (truthy (Some serverId) && truthy (Some channelId))%bool then
            match guilds_get client serverId with
            | None => None
            | Some modGuild =>
                match channels_get modGuild channelId with
                | Some modChannel =>
                    if isTextBased modChannel
                    then Some (serverId, modChannel) else None
                | None => None
                end
            end
          else None
      | _, _ => None
      end
  end.

Definition channel_send (serverId : string) (c : Channel) (title : string)
  : M unit :=
  platform (send c) (ChannelSend serverId (channel_id c) title).

Definition notifyModerationServer (client : Client) (level : nat)
    (userId : string) : M unit :=
  try_catch
    (let* w := get in
     match moderation_channel client w with
     | None => ret tt
     | Some (serverId, modChannel) =>
         (match users_fetch client userId with
          | Some e => throw e
          | None => ret tt
          end) ;;
         channel_send serverId modChannel
           ("Detection Alert - Level " ++ pretty level)
     end)%handler
    (fun _ => ret tt).

Definition executeServerTimeout (userId guildId reason : string)
    (client : Client) (now : Z) : M TimeoutResult :=
  try_catch
    (match guilds_get client guildId with
     | None =>
         ret {| success := false; level := 1;
                requiresModeratorReview := false;
                message := "Guild not found" |}
     | Some guild =>
         let* member :=
           match members_fetch guild userId with
           | Threw e => throw e
           | Responded member => ret member
           end in
         if negb member
         then ret {| success := false; level := 1;
                     requiresModeratorReview := false;
                     message := "Member not found" |}
         else
           platform (member_timeout guild userId)
             (MemberTimeout guildId userId ONE_WEEK_MS) ;;
           let expiresAt := (now + ONE_WEEK_MS)%Z in
           modify (set_timeouts (fun t => t ++
             [{| to_userId := userId; to_guildId := guildId;
                 to_level := 1; to_reason := reason;
                 timeoutType := timeout_server; to_active := true;
                 expiresAt := expiresAt |}])) ;;
           notifyModerationServer client 1 userId ;;
           ret {| success := true; level := 1;
                  requiresModeratorReview := false;
                  message := "User timed out for 1 week (first offense)" |}
     end)%handler
    (fun error_message =>
       ret {| success := false; level := 1;
              requiresModeratorReview := false;
              message := "Timeout failed: " ++ error_message |}).

(** [discordClient] is [(global as any).discordClient]. *)
Definition queueForReview (userId guildId reason : string)
    (discordClient : option Client) (now : Z) : M TimeoutResult :=
  try_catch
    (let expiresAt := (now + ONE_WEEK_MS)%Z in
     modify (set_timeouts (fun t => t ++
       [{| to_userId := userId; to_guildId := guildId;
           to_level := 2; to_reason := reason;
           timeoutType := pending_review; to_active := false;
           expiresAt := expiresAt |}])) ;;
     (match discordClient with
      | Some client =>
          match guilds_fetch client guildId with
          | Threw e => throw e
          | Responded _ => notifyModerationServer client 2 userId
          end
      | None => ret tt
      end) ;;
     ret {| success := true; level := 2;
            requiresModeratorReview := true;
            message :=
              "User queued for moderator review (second offense on different server)" |}
    )%handler
    throw.

Definition handleUserOffense (userId guildId reason : string)
    (client : Client) (discordClient : option Client) (now : Z)
  : M TimeoutResult :=
  try_catch
    (let* w := get in
     (match users w !! userId with
      | Some _ => ret tt
      | None =>
          modify (set_users (insert userId
            {| username := "Unknown"; discriminator := "0000";
               offenseCount := 0; globallyBanned := false |}))
      end) ;;
     let* user := user_update userId (fun u =>
       {| username := username u; discriminator := discriminator u;
          offenseCount := offenseCount u + 1;
          globallyBanned := globallyBanned u |}) in
     if Nat.eqb (offenseCount user) 1
     then executeServerTimeout userId guildId reason client now
     else queueForReview userId guildId reason discordClient now)%handler
    throw.

(** [prisma.timeout.updateMany({ where: { userId, timeoutType:
    'pending_review' }, data })] *)
Definition updateMany_pending (userId : string) (t : TimeoutType)
    (a : bool) (table : list Timeout) : list Timeout :=
  map (fun r =>
         if (bool_decide (to_userId r = userId) &&
             bool_decide (timeoutType r = pending_review))%bool
         then {| to_userId := to_userId r; to_guildId := to_guildId r;
                 to_level := to_level r; to_reason := to_reason r;
                 timeoutType := t; to_active := a;
                 expiresAt := expiresAt r |}
         else r) table.

Fixpoint ban_everywhere (guilds : list Guild) (userId : string)
    (bannedCount : nat) : M nat :=
  match guilds with
  | [] => ret bannedCount
  | guild :: rest =>
      (let* n := try_catch
                   (guild_ban guild userId ;; ret (S bannedCount))
                   (fun _ => ret bannedCount) in
       ban_everywhere rest userId n)%handler
  end.

(** The closing notice of approve and reject, not in a [try] of its own. *)
Definition closing_notice (client : Client) (title : string) : M unit :=
  (let* w := get in
   match moderation_channel client w with
   | Some (serverId, modChannel) => channel_send serverId modChannel title
   | None => ret tt
   end)%handler.

Definition approveGlobalBan (userId moderatorId : string) (client : Client)
  : M bool :=
  try_catch
    (user_update userId (fun u =>
       {| username := username u; discriminator := discriminator u;
          offenseCount := offenseCount u; globallyBanned := true |}) ;;
     modify (set_timeouts (updateMany_pending userId global_approved true)) ;;
     ban_everywhere (guilds_cache client) userId 0 ;;
     closing_notice client "Global Ban Approved" ;;
     ret true)%handler
    (fun _ => ret false).

Definition rejectGlobalBan (userId moderatorId notes : string)
    (client : Client) : M bool :=
  try_catch
    (modify (set_timeouts (updateMany_pending userId global_rejected false)) ;;
     closing_notice client "Global Ban Rejected" ;;
     ret true)%handler
    (fun _ => ret false).

End TimeoutManager.

(** ** src/bot/handlers/moderatorAlert.ts *)

Module ModeratorAlert.

(** The alert channel of a guild, when one is configured and cached. *)
Definition alert_channel (guild : Guild) (w : World) : option Channel :=
  match guildTable w !! guild_id guild with
  | None => None
  | Some guildConfig =>
      match alertChannelId guildConfig with
      | Some channelId =>
          if truthy (Some channelId) then channels_get guild channelId
          else None
      | None => None
      end
  end.

Definition channel_send (guild : Guild) (c : Channel) (title : string)
  : M unit :=
  platform (send c) (ChannelSend (guild_id guild) (channel_id c) title).

Definition alertModerators (guild : Guild)
    (detection : DetectionPipeline.DetectionResult) : M unit :=
  try_catch
    (let* w := get in
     match alert_channel guild w with
     | None => ret tt
     | Some alertChannel =>
         channel_send guild alertChannel "Content Detection Alert" ;;
         if (DetectionPipeline.flagged detection &&
             negb (DetectionPipeline.requiresReview detection))%bool
         then channel_send guild alertChannel
                "Immediate action taken on detected content."
         else if DetectionPipeline.requiresReview detection
         then channel_send guild alertChannel
                "Content flagged for review - please check the dashboard."
         else ret tt
     end)%handler
    (fun _ => ret tt).

Definition sendDMAlert (userId : string) (user_send : option string)
  : M unit :=
  try_catch (platform user_send (UserSend userId)) (fun _ => ret tt).

Definition notifyModeratorOfPendingReview (guild : Guild)
    (detectionId : nat) (userId : string) : M unit :=
  try_catch
    (let* w := get in
     match alert_channel guild w with
     | None => ret tt
     | Some alertChannel => channel_send guild alertChannel "Review Required"
     end)%handler
    (fun _ => ret tt).

End ModeratorAlert.

(** ** src/bot/events/messageCreate.ts *)

Module MessageCreate.

(** The message object: its identifiers and the two requests the handlers
    make on it, each with the error it throws, if any. *)
Record Message := {
  message_id : string;
  author_id : string;
  guild : Guild;                            (* [message.guild!] *)
  message_delete : option string;
  message_react : option string;
  author_send : option string
}.

Section Handlers.

(** [(x).toFixed(2)], used only inside the ban reason. *)
Variable toFixed2 : Q -> string.

(** [prisma.detection.updateMany({ where: { messageId }, data:
    { actionTaken } })] *)
Definition updateMany_action (messageId : string) (a : ActionTaken)
    (table : list Detection) : list Detection :=
  map (fun d =>
         if bool_decide (det_messageId d = messageId)
         then {| det_userId := det_userId d; det_guildId := det_guildId d;
                 det_messageId := det_messageId d;
                 det_imageHash := det_imageHash d;
                 det_method := det_method d;
                 det_confidenceScore := det_confidenceScore d;
                 det_flagged := det_flagged d;
                 actionTaken := a |}
         else d) table.

(** [prisma.detection.findFirst({ where: { messageId }, orderBy:
    { createdAt: 'desc' } })]: the id of the newest matching row. *)
Definition findFirst_newest (messageId : string) (table : list Detection)
  : option nat :=
  List.find
    (fun i => match table !! i with
              | Some d => bool_decide (det_messageId d = messageId)
              | None => false
              end)
    (rev (seq 0 (length table))).

Definition handleFlaggedContent (message : Message)
    (detection : DetectionPipeline.DetectionResult)
    (guildConfig : GuildConfig) (client : Client) : M unit :=
  try_catch
    ((if autoDelete guildConfig
      then platform (message_delete message)
             (MessageDelete (message_id message))
      else ret tt) ;;
     modify (set_detections
       (updateMany_action (message_id message) action_deleted)) ;;
     (if autoBan guildConfig
      then
        let* banResult :=
          BanManager.handleUserOffense (author_id message)
            (guild_id (guild message))
            ("CSAM detection: " ++ DetectionPipeline.method detection ++
             " (confidence: " ++
             toFixed2 (DetectionPipeline.confidence detection * 100) ++ "%)")
            client in
        modify (set_detections
          (updateMany_action (message_id message)
             (action_deleted_and_banned_level (BanManager.level banResult))))
      else ret tt) ;;
     ModeratorAlert.alertModerators (guild message) detection ;;
     ModeratorAlert.sendDMAlert (author_id message) (author_send message)
    )%handler
    (fun _ => ret tt).

Definition handleReviewRequired (message : Message)
    (detection : DetectionPipeline.DetectionResult) : M unit :=
  try_catch
    (platform (message_react message) (MessageReact (message_id message)) ;;
     let* w := get in
     match findFirst_newest (message_id message) (detections w) with
     | Some id =>
         modify (set_reviews (fun t => t ++
           [{| detectionId := id; status := review_pending |}])) ;;
         ModeratorAlert.notifyModeratorOfPendingReview (guild message) id
           (author_id message)
     | None => ret tt
     end)%handler
    (fun _ => ret tt).

(** [scan] is what [await scanImageQueued(imageUrl)] comes to. *)
Definition processImageAttachment (message : Message)
    (scan : HttpOutcome DetectionPipeline.DetectionResult)
    (guildConfig : GuildConfig) (client : Client) : M unit :=
  try_catch
    (let* detection :=
       match scan with
       | Responded d => ret d
       | Threw e => throw e
       end in
     modify (set_detections (fun t => t ++
       [{| det_userId := author_id message;
           det_guildId := guild_id (guild message);
           det_messageId := message_id message;
           det_imageHash := DetectionPipeline.hash detection;
           det_method := DetectionPipeline.method detection;
           det_confidenceScore := DetectionPipeline.confidence detection;
           det_flagged := DetectionPipeline.flagged detection;
           actionTaken :=
             if DetectionPipeline.flagged detection
             then action_pending else action_none |}])) ;;
     if (DetectionPipeline.flagged detection &&
         negb (DetectionPipeline.requiresReview detection))%bool
     then handleFlaggedContent message detection guildConfig client
     else if DetectionPipeline.requiresReview detection
     then handleReviewRequired message detection
     else ret tt)%handler
    (fun _ => ret tt).

End Handlers.

End MessageCreate.

(** ** src/detection/detectionPipeline.ts: [DetectionQueue] *)

Module DetectionQueue.

Section Queue.

(** A queued request: [{ imageUrl, imageBuffer, resolve, reject }]. *)
Variable QueueItem : Type.

Record state := {
  queue : list QueueItem;
  processing : Z
}.

(** [processNext] up to its first [await]: the item let in, if any. *)
Definition processNext (maxConcurrentScans : nat) (s : state)
  : state * option QueueItem :=
  if ((Z.of_nat maxConcurrentScans <=? processing s)%Z ||
      Nat.eqb (length (queue s)) 0)%bool
  then (s, None)
  else match queue s with
       | [] => (s, None)
       | item :: rest =>
           ({| queue := rest; processing := (processing s + 1)%Z |},
            Some item)
       end.

(** [add]: [this.queue.push(..); this.processNext()]. *)
Definition add (maxConcurrentScans : nat) (item : QueueItem) (s : state)
  : state * option QueueItem :=
  processNext maxConcurrentScans
    {| queue := queue s ++ [item]; processing := processing s |}.

(** The [finally] block: [this.processing--; this.processNext()]. *)
Definition settle (maxConcurrentScans : nat) (s : state)
  : state * option QueueItem :=
  processNext maxConcurrentScans
    {| queue := queue s; processing := (processing s - 1)%Z |}.

(** The queue together with the scans that are executing (the suspended
    bodies of [processNext]) and the history of submissions and
    admissions. *)
Record system := {
  q : state;
  executing : list QueueItem;
  submitted : list QueueItem;
  admissions : list QueueItem
}.

Definition initial : system :=
  {| q := {| queue := []; processing := 0 |};
     executing := []; submitted := []; admissions := [] |}.

Definition start_scan (r : state * option QueueItem)
    (executing submitted admissions : list QueueItem) : system :=
  {| q := fst r;
     executing := executing ++ option_list (snd r);
     submitted := submitted;
     admissions := admissions ++ option_list (snd r) |}.

(** One turn of the event loop: a caller submits a request, or one of the
    executing scans settles (resolves or rejects), in any order. *)
Inductive step (maxConcurrentScans : nat) : system -> system -> Prop :=
| step_add (item : QueueItem) (sys : system) :
    step maxConcurrentScans sys
      (start_scan (add maxConcurrentScans item (q sys))
         (executing sys) (submitted sys ++ [item]) (admissions sys))
| step_settle (i : nat) (item : QueueItem) (sys : system) :
    executing sys !! i = Some item ->
    step maxConcurrentScans sys
      (start_scan (settle maxConcurrentScans (q sys))
         (delete i (executing sys)) (submitted sys) (admissions sys)).

Definition reachable (maxConcurrentScans : nat) (sys : system) : Prop :=
  rtc (step maxConcurrentScans) initial sys.

End Queue.

End DetectionQueue.

(** ** src/detection/hashMatcher.ts: maintenance of the block list *)

Module HashStore.

(** [addKnownHash]: one more active row.  The columns [hashType] and
    [source] that it also writes are read nowhere. *)
Definition addKnownHash (hash source : string)
    (severity : HashMatcher.Severity)
    (table : list HashMatcher.HashDatabase) : list HashMatcher.HashDatabase :=
  table ++ [{| HashMatcher.hd_hash := hash;
               HashMatcher.hd_severity := severity;
               HashMatcher.hd_active := true |}].

(** [removeHash]: [updateMany({ where: { hash }, data: { active: false } })]. *)
Definition removeHash (hash : string)
    (table : list HashMatcher.HashDatabase) : list HashMatcher.HashDatabase :=
  map (fun r =>
         if bool_decide (HashMatcher.hd_hash r = hash)
         then {| HashMatcher.hd_hash := HashMatcher.hd_hash r;
                 HashMatcher.hd_severity := HashMatcher.hd_severity r;
                 HashMatcher.hd_active := false |}
         else r) table.

End HashStore.

(** ** src/utils/logger.ts: [maskUserId] *)

Module Logger.

(** [s.substring(n)]: what is left after the first [n] code units. *)
Fixpoint substring_from (n : nat) (s : string) : string :=
  match n, s with
  | O, _ => s
  | S n', EmptyString => EmptyString
  | S n', String _ r => substring_from n' r
  end.

Definition maskUserId (userId : string) : string :=
  if Nat.ltb (String.length userId) 8 then "***"
  else String.substring 0 4 userId ++ "***"
       ++ substring_from (String.length userId - 4) userId.

End Logger.

(** ** src/config/config.ts: reading and validating the environment *)

Module Config.

(** [env] is [process.env]. *)
Definition getEnvVar (env : gmap string string) (key : string)
    (defaultValue : option string) : Result string :=
  let value := env !! key in
  if (negb (truthy value) && negb (truthy defaultValue))%bool
  then Raise ("Missing required environment variable: " ++ key)
  else Ok (if truthy value then default "" value
           else default "" defaultValue).

Definition getOptionalEnvVar (env : gmap string string) (key : string)
  : option string := env !! key.

(** The fields of [config] that [validateConfig] reads. *)
Record AppConfig := {
  discord_token : string;
  jwtSecret : string;
  encryptionKey : string;
  detection : DetectionConfig
}.

Definition validateConfig (config : AppConfig) : Result unit :=
  if negb (truthy (Some (discord_token config)))
  then Raise "Discord bot token is required"
  else if Nat.ltb (String.length (jwtSecret config)) 32
  then Raise "JWT secret must be at least 32 characters long"
  else if Nat.ltb (String.length (encryptionKey config)) 32
  then Raise "Encryption key must be at least 32 characters long"
  else Ok tt.

End Config.

(** ** worker/index.ts: the [fetch] handler *)

Module WorkerHandler.

Record Request := {
  method : string;
  x_api_key : option string;              (* [headers.get('X-API-Key')] *)
  body : HttpOutcome (option string)      (* [request.json()], its [imageUrl] *)
}.

Inductive Body :=
| no_body
| error_body (error : string) (message : option string)
| detection_body (result : Worker.DetectionResponse).

Record Response := { status : nat; payload : Body }.

(** [API_KEY] is [env.API_KEY]; [network] is what the image host and the
    model answer when [detectImage] is run on a URL. *)
Definition fetch (request : Request) (API_KEY : string)
    (network : string -> Worker.Env) : Response :=
  if bool_decide (method request = "OPTIONS"%string)
  then {| status := 200; payload := no_body |}
  else if negb (bool_decide (method request = "POST"%string))
  then {| status := 405; payload := error_body "Method not allowed" None |}
  else if (negb (truthy (x_api_key request)) ||
           negb (bool_decide (x_api_key request = Some API_KEY)))%bool
  then {| status := 401; payload := error_body "Unauthorized" None |}
  else match body request with
       | Threw message =>
           {| status := 500;
              payload := error_body "Internal server error" (Some message) |}
       | Responded imageUrl =>
           if negb (truthy imageUrl)
           then {| status := 400;
                   payload := error_body "imageUrl is required" None |}
           else {| status := 200;
                   payload := detection_body
                     (Worker.detectImage (network (default "" imageUrl))) |}
       end.

End WorkerHandler.

(** ** src/bot/events/messageCreate.ts: [handleMessageCreate] *)

Module MessageEvents.

Definition SUPPORTED_IMAGE_TYPES : list string :=
  ["image/jpeg"; "image/png"; "image/gif"; "image/webp"]%string.

Record Attachment := {
  url : string;
  contentType : option string
}.

(** The message as the gateway delivers it: [message] holds what the
    handlers below use, with [message.guild] in it when [has_guild]. *)
Record Incoming := {
  author_bot : bool;
  has_guild : bool;
  message : MessageCreate.Message;
  attachments : list Attachment
}.

(** [SUPPORTED_IMAGE_TYPES.some(type => contentType?.startsWith(type))] *)
Definition is_supported (a : Attachment) : bool :=
  match contentType a with
  | Some ct => existsb (fun type => String.prefix type ct) SUPPORTED_IMAGE_TYPES
  | None => false
  end.

Section Handler.

Variable toFixed2 : Q -> string.

(** What [scanImageQueued] comes to for the image at a URL. *)
Variable scan : string -> HttpOutcome DetectionPipeline.DetectionResult.

(** The [for (const attachment of imageAttachments.values())] loop.  What
    a request on the message comes to is read from the same [message] at
    every attachment. *)
Fixpoint process_all (message : MessageCreate.Message)
    (imageAttachments : list Attachment) (guildConfig : GuildConfig)
    (client : Client) : M unit :=
  match imageAttachments with
  | [] => ret tt
  | attachment :: rest =>
      (try_catch
         (MessageCreate.processImageAttachment toFixed2 message
            (scan (url attachment)) guildConfig client)
         (fun _ => ret tt) ;;
       process_all message rest guildConfig client)%handler
  end.

Definition handleMessageCreate (incoming : Incoming) (client : Client)
  : M unit :=
  if author_bot incoming then ret tt
  else if negb (has_guild incoming) then ret tt
  else
    (let* w := get in
     match guildTable w !! guild_id (MessageCreate.guild (message incoming)) with
     | None => ret tt
     | Some guildConfig =>
         if negb (detectionEnabled guildConfig) then ret tt
         else
           let imageAttachments :=
             List.filter is_supported (attachments incoming) in
           if Nat.eqb (length imageAttachments) 0 then ret tt
           else process_all (message incoming) imageAttachments
                  guildConfig client
     end)%handler.

End Handler.

End MessageEvents.

(** ** Concrete configurations and inputs used in the examples below *)

Module Scenario.

Definition no_reply {A} : HttpOutcome A := Threw "not called".

(** The defaults of config.ts, with Sightengine as the only provider. *)
Definition cfg_sightengine (dt rt : Q) : DetectionConfig :=
  {| workerUrl := None; workerApiKey := None;
     sightengine := Some {| apiUser := "user"; apiSecret := "secret" |};
     detectionThreshold := dt; reviewThreshold := rt;
     maxConcurrentScans := 2; imageMaxSizeMB := 10 |}.

(** The same with the Cloudflare worker configured. *)
Definition cfg_worker (dt rt : Q) : DetectionConfig :=
  {| workerUrl := Some "https://no-csam-detector.example.workers.dev";
     workerApiKey := Some "key";
     sightengine := None;
     detectionThreshold := dt; reviewThreshold := rt;
     maxConcurrentScans := 2; imageMaxSizeMB := 10 |}.

Definition sightengine_says (c : Q) : ApiDetector.Providers :=
  {| ApiDetector.worker_reply := no_reply;
     ApiDetector.sightengine_reply :=
       Responded {| ApiDetector.sexual_activity := None;
                    ApiDetector.sexual_display := None;
                    ApiDetector.offensive_prob := Some c |} |}.

(** The service at [WORKER_URL] answers 200 with the body
    [{ detected, confidence, provider: 'cloudflare-worker', labels:
    ['NSFW'] }]. *)
Definition worker_answers (detected : bool) (confidence : Q)
  : ApiDetector.Providers :=
  {| ApiDetector.worker_reply :=
       Responded {| Worker.detected := detected;
                    Worker.confidence := confidence;
                    Worker.provider := "cloudflare-worker";
                    Worker.labels := Some [Some "NSFW"%string];
                    Worker.error := None |};
     ApiDetector.sightengine_reply := no_reply |}.

Definition worker_throws (message : string) : ApiDetector.Providers :=
  {| ApiDetector.worker_reply := Threw message;
     ApiDetector.sightengine_reply := no_reply |}.

(** A scan of an image whose hash is [h], against a block list. *)
Definition scan_of (h : string) (table : list HashMatcher.HashDatabase)
    (cfg : DetectionConfig) (p : ApiDetector.Providers)
  : DetectionPipeline.ScanEnv :=
  {| DetectionPipeline.computed := Some h;
     DetectionPipeline.table := table;
     DetectionPipeline.cfg := cfg;
     DetectionPipeline.providers := p |}.

Definition known (h : string) (active : bool) : HashMatcher.HashDatabase :=
  {| HashMatcher.hd_hash := h; HashMatcher.hd_severity := HashMatcher.high;
     HashMatcher.hd_active := active |}.

(** A guild whose ban requests fail with [ban_error], if given, with one
    text channel. *)
Definition guild_of (id : string) (ban_error : option string) : Guild :=
  {| guild_id := id; guild_name := id;
     members_ban := fun _ => ban_error;
     members_fetch := fun _ => Responded true;
     member_timeout := fun _ => None;
     channels_cache :=
       [ {| channel_id := "alerts"; isTextBased := true; send := None |} ] |}.

Definition client_of (guilds : list Guild) : Client :=
  {| guilds_cache := guilds;
     guilds_fetch := fun id => Responded id;
     users_fetch := fun _ => None |}.

(** The bot serving three guilds; in the second one it may not ban. *)
Definition three_guilds : Client :=
  client_of [ guild_of "g1" None;
              guild_of "g2" (Some "Missing Permissions"%string);
              guild_of "g3" None ].

(** The same bot when the channel "alerts" of "g1" refuses its posts. *)
Definition three_guilds_muted : Client :=
  client_of [ {| guild_id := "g1"; guild_name := "g1";
                 members_ban := fun _ => None;
                 members_fetch := fun _ => Responded true;
                 member_timeout := fun _ => None;
                 channels_cache :=
                   [ {| channel_id := "alerts"; isTextBased := true;
                        send := Some "Missing Access"%string |} ] |};
              guild_of "g2" (Some "Missing Permissions"%string);
              guild_of "g3" None ].

Definition empty_world : World :=
  {| users := ∅; bans := []; timeouts := []; detections := [];
     reviews := []; guildTable := ∅; botConfig := None;
     events := []; attempts := [] |}.

(** A world in which the moderation channel is configured. *)
Definition moderated_world : World :=
  {| users := ∅; bans := []; timeouts := []; detections := [];
     reviews := [];
     guildTable :=
       {[ "g1"%string :=
            {| detectionEnabled := true; autoDelete := true; autoBan := true;
               alertChannelId := Some "alerts"%string;
               moderatorRoleIds := "" |} ]};
     botConfig := Some {| moderationServerId := Some "g1"%string;
                          moderationChannelId := Some "alerts"%string |};
     events := []; attempts := [] |}.

(** A user with two offenses on record: the local sanction of the first
    and the pending record of the second, in both managers' tables. *)
Definition offender : User :=
  {| username := "Unknown"; discriminator := "0000";
     offenseCount := 2; globallyBanned := false |}.

Definition offender_world : World :=
  {| users := {[ "u"%string := offender ]};
     bans :=
       [ {| ban_userId := "u"; ban_guildId := "g1"; ban_level := 1;
            ban_reason := "CSAM detection"; banType := ban_server;
            ban_active := true |};
         {| ban_userId := "u"; ban_guildId := "g3"; ban_level := 2;
            ban_reason := "CSAM detection"; banType := global_pending;
            ban_active := false |} ];
     timeouts :=
       [ {| to_userId := "u"; to_guildId := "g1"; to_level := 1;
            to_reason := "CSAM detection"; timeoutType := timeout_server;
            to_active := true; expiresAt := 604800000 |};
         {| to_userId := "u"; to_guildId := "g3"; to_level := 2;
            to_reason := "CSAM detection"; timeoutType := pending_review;
            to_active := false; expiresAt := 604800001 |} ];
     detections := []; reviews := [];
     guildTable := ∅;
     botConfig := Some {| moderationServerId := Some "g1"%string;
                          moderationChannelId := Some "alerts"%string |};
     events := []; attempts := [] |}.

(** A row of the detection table for a flagged image of user "u". *)
Definition detection_row (messageId : string) (a : ActionTaken) : Detection :=
  {| det_userId := "u"; det_guildId := "g1"; det_messageId := messageId;
     det_imageHash := "a3f0"; det_method := "cloudflare-worker";
     det_confidenceScore := 90 # 100; det_flagged := true;
     actionTaken := a |}.

(** The offender's world with two detection rows: that of an earlier
    message "m0", handled at the first offense, and that of message "m1",
    just written. *)
Definition recorded_world : World :=
  set_detections
    (fun _ => [ detection_row "m0" (action_deleted_and_banned_level 1);
                detection_row "m1" action_pending ])
    offender_world.

(** A message with one image, posted by user "u" in guild "g1". *)
Definition message_in_g1 : MessageCreate.Message :=
  {| MessageCreate.message_id := "m1";
     MessageCreate.author_id := "u";
     MessageCreate.guild := guild_of "g1" None;
     MessageCreate.message_delete := None;
     MessageCreate.message_react := None;
     MessageCreate.author_send := None |}.

(** The same message when the bot may not add reactions to it. *)
Definition message_no_reaction : MessageCreate.Message :=
  {| MessageCreate.message_id := "m1";
     MessageCreate.author_id := "u";
     MessageCreate.guild := guild_of "g1" None;
     MessageCreate.message_delete := None;
     MessageCreate.message_react := Some "Missing Permissions"%string;
     MessageCreate.author_send := None |}.

(** A world in which guild "g1" has its row but no alert channel set. *)
Definition unalerted_world : World :=
  {| users := ∅; bans := []; timeouts := []; detections := [];
     reviews := [];
     guildTable :=
       {[ "g1"%string :=
            {| detectionEnabled := true; autoDelete := true; autoBan := true;
               alertChannelId := None; moderatorRoleIds := "" |} ]};
     botConfig := None;
     events := []; attempts := [] |}.

Definition guild_defaults : GuildConfig :=
  {| detectionEnabled := true; autoDelete := true; autoBan := true;
     alertChannelId := Some "alerts"%string; moderatorRoleIds := "" |}.

(** A classifier result with the two flags as given. *)
Definition detection_with (flagged requiresReview : bool)
  : DetectionPipeline.DetectionResult :=
  {| DetectionPipeline.flagged := flagged;
     DetectionPipeline.confidence := 90 # 100;
     DetectionPipeline.method := "cloudflare-worker";
     DetectionPipeline.requiresReview := requiresReview;
     DetectionPipeline.hash := "a3f0";
     DetectionPipeline.hashMatch := None;
     DetectionPipeline.apiDetection := None |}.

End Scenario.

(** ** Notions used in the statements *)

Module Terms.

(** The known hash [r] reaches the matching threshold against [h]. *)
Definition reaches (h : string) (r : HashMatcher.HashDatabase) : bool :=
  num_geb (HashMatcher.calculateHammingDistance h (HashMatcher.hd_hash r))
          (95 # 100).

(** The match result that reports the known hash [k]. *)
Definition reported (h : string) (k : HashMatcher.HashDatabase)
  : HashMatcher.HashMatchResult :=
  {| HashMatcher.matched := true;
     HashMatcher.hash := h;
     HashMatcher.matchedHash := Some (HashMatcher.hd_hash k);
     HashMatcher.similarity :=
       Some (HashMatcher.calculateHammingDistance h (HashMatcher.hd_hash k)) |}.

(** The provider that [detectWithAPI] selects fails with [message]: it is
    selected but not fully configured, its request throws (network error,
    status outside 2xx, timeout; [message] is the thrown error's
    message, whatever it is), or no provider is configured at all. *)
Inductive provider_fails (cfg : DetectionConfig) (p : ApiDetector.Providers)
  : string -> string -> Prop :=
| worker_key_missing :
    truthy (workerUrl cfg) = true ->
    truthy (workerApiKey cfg) = false ->
    provider_fails cfg p "cloudflare-worker"
      "Cloudflare Worker URL or API key not configured"
| worker_threw message :
    truthy (workerUrl cfg) = true ->
    truthy (workerApiKey cfg) = true ->
    ApiDetector.worker_reply p = Threw message ->
    provider_fails cfg p "cloudflare-worker" message
| sightengine_threw s message :
    truthy (workerUrl cfg) = false ->
    sightengine cfg = Some s ->
    ApiDetector.sightengine_reply p = Threw message ->
    provider_fails cfg p "sightengine" message
| none_configured :
    truthy (workerUrl cfg) = false ->
    sightengine cfg = None ->
    provider_fails cfg p "none" "No API provider configured".

(** The scan found no hash match and went on to the classifier. *)
Definition no_hash_match (env : DetectionPipeline.ScanEnv) : Prop :=
  exists hm,
    HashMatcher.checkHashMatch (DetectionPipeline.computed env)
      (DetectionPipeline.table env) = Some hm /\
    HashMatcher.matched hm = false.

(** The invariant of the scan scheduler. *)
Definition scheduler_inv {QueueItem : Type} (N : nat)
    (sys : DetectionQueue.system QueueItem) : Prop :=
  (length (DetectionQueue.executing _ sys) <= N)%nat /\
  DetectionQueue.processing _ (DetectionQueue.q _ sys)
    = Z.of_nat (length (DetectionQueue.executing _ sys)) /\
  DetectionQueue.submitted _ sys
    = DetectionQueue.admissions _ sys
      ++ DetectionQueue.queue _ (DetectionQueue.q _ sys).

(** The offense count on record for a user, 0 when there is no row. *)
Definition current_offenses (w : World) (userId : string) : nat :=
  match users w !! userId with
  | Some u => offenseCount u
  | None => 0
  end.

(** The ban requests of a fan-out over [guilds], and those among them that
    go through. *)
Definition ban_attempts (guilds : list Guild) (userId : string)
  : list Attempt :=
  map (fun g => TryBan (guild_id g) userId) guilds.

Definition bans_done (guilds : list Guild) (userId : string) : list Event :=
  omap (fun g => match members_ban g userId with
                 | None => Some (MembersBan (guild_id g) userId)
                 | Some _ => None
                 end) guilds.

(** The closing notice of [TimeoutManager]'s approve and reject: what it
    adds to the log, and whether it throws. *)
Definition notice_events (client : Client) (w : World) (title : string)
  : list Event :=
  match TimeoutManager.moderation_channel client w with
  | Some (serverId, c) =>
      match send c with
      | None => [ChannelSend serverId (channel_id c) title]
      | Some _ => []
      end
  | None => []
  end.

Definition notice_throws (client : Client) (w : World) : bool :=
  match TimeoutManager.moderation_channel client w with
  | Some (_, c) => bool_decide (send c ≠ None)
  | None => false
  end.

(** The pending-review notice of [ModeratorAlert]. *)
Definition review_notice (guild : Guild) (w : World) : list Event :=
  match ModeratorAlert.alert_channel guild w with
  | Some c =>
      match send c with
      | None => [ChannelSend (guild_id guild) (channel_id c) "Review Required"]
      | Some _ => []
      end
  | None => []
  end.

(** The event is a sanction or a deletion. *)
Definition is_sanction (e : Event) : bool :=
  match e with
  | MembersBan _ _ | MemberTimeout _ _ _ | MessageDelete _ => true
  | _ => false
  end.

(** The detection row [d] with its [actionTaken] set to [a]. *)
Definition marked (a : ActionTaken) (d : Detection) : Detection :=
  {| det_userId := det_userId d; det_guildId := det_guildId d;
     det_messageId := det_messageId d; det_imageHash := det_imageHash d;
     det_method := det_method d;
     det_confidenceScore := det_confidenceScore d;
     det_flagged := det_flagged d; actionTaken := a |}.

Definition approved (b : Ban) : Ban :=
  {| ban_userId := ban_userId b; ban_guildId := ban_guildId b;
     ban_level := ban_level b; ban_reason := ban_reason b;
     banType := ban_global; ban_active := true |}.

Definition rejected (b : Ban) : Ban :=
  {| ban_userId := ban_userId b; ban_guildId := ban_guildId b;
     ban_level := ban_level b; ban_reason := ban_reason b;
     banType := ban_global_rejected; ban_active := false |}.

Definition globally_banned (u : User) : User :=
  {| username := username u; discriminator := discriminator u;
     offenseCount := offenseCount u; globallyBanned := true |}.

Definition rejected_timeout (t : Timeout) : Timeout :=
  {| to_userId := to_userId t; to_guildId := to_guildId t;
     to_level := to_level t; to_reason := to_reason t;
     timeoutType := global_rejected; to_active := false;
     expiresAt := expiresAt t |}.

Definition approved_timeout (t : Timeout) : Timeout :=
  {| to_userId := to_userId t; to_guildId := to_guildId t;
     to_level := to_level t; to_reason := to_reason t;
     timeoutType := global_approved; to_active := true;
     expiresAt := expiresAt t |}.

End Terms.

(** * Properties *)

(** ** Comparisons *)

Lemma Qgtb_lt a b : Qgtb a b = true <-> b < a.
Proof.
  unfold Qgtb. rewrite negb_true_iff, <- not_true_iff_false, Qle_bool_iff.
  split; [apply Qnot_le_lt | apply Qlt_not_le].
Qed.

Lemma Qgeb_le a b : Qgeb a b = true <-> b <= a.
Proof. unfold Qgeb. apply Qle_bool_iff. Qed.

Lemma Qltb_lt a b : Qltb a b = true <-> a < b.
Proof.
  unfold Qltb. rewrite negb_true_iff, <- not_true_iff_false, Qle_bool_iff.
  split; [apply Qnot_le_lt | apply Qlt_not_le].
Qed.

Lemma Qgtb_false_le a b : Qgtb a b = false <-> a <= b.
Proof. unfold Qgtb. rewrite negb_false_iff. apply Qle_bool_iff. Qed.

Lemma Qltb_false_le a b : Qltb a b = false <-> b <= a.
Proof. unfold Qltb. rewrite negb_false_iff. apply Qle_bool_iff. Qed.

Lemma Qgeb_false_lt a b : Qgeb a b = false <-> a < b.
Proof.
  unfold Qgeb. rewrite <- not_true_iff_false, Qle_bool_iff.
  split; [apply Qnot_le_lt | apply Qlt_not_le].
Qed.

(** ** Hash similarity *)

Section HashSimilarity.

Import HashMatcher.

Lemma match_step_sym h1 h2 m i : match_step h1 h2 m i = match_step h2 h1 m i.
Proof.
  unfold match_step, char_eqb.
  destruct (decide (String.get i h1 = String.get i h2)) as [E | N].
  - rewrite !bool_decide_eq_true_2; auto.
  - rewrite !bool_decide_eq_false_2; auto.
Qed.

Lemma fold_match_step_sym h1 h2 (l : list nat) (m : nat) :
  fold_left (match_step h1 h2) l m = fold_left (match_step h2 h1) l m.
Proof.
  revert m. induction l as [| i l IH]; intros m; simpl; [reflexivity |].
  rewrite match_step_sym. apply IH.
Qed.

Lemma fold_match_step_refl h (l : list nat) (m : nat) :
  fold_left (match_step h h) l m = (m + length l)%nat.
Proof.
  revert m. induction l as [| i l IH]; intros m; simpl; [lia |].
  unfold match_step at 2, char_eqb. rewrite bool_decide_eq_true_2 by reflexivity.
  rewrite IH. lia.
Qed.

Lemma count_matches_refl h : count_matches h h = String.length h.
Proof.
  unfold count_matches. rewrite fold_match_step_refl, length_seq. reflexivity.
Qed.

Lemma js_div_self n : n ≠ 0%nat -> num_eq (js_div n n) (Num 1).
Proof.
  destruct n as [| k]; [congruence | intros _].
  unfold js_div, num_eq, Qeq. cbn [Qnum Qden].
  rewrite <- Pos.of_nat_succ, Zpos_P_of_succ_nat. lia.
Qed.

Lemma hamming_sym h1 h2 :
  calculateHammingDistance h1 h2 = calculateHammingDistance h2 h1.
Proof.
  unfold calculateHammingDistance.
  destruct (decide (String.length h1 = String.length h2)) as [E | N].
  - rewrite !bool_decide_eq_false_2 by (intros C; apply C; congruence).
    unfold count_matches. rewrite fold_match_step_sym, E. reflexivity.
  - rewrite !bool_decide_eq_true_2 by congruence. reflexivity.
Qed.

(** C9, the reading on the empty hash: no character is compared,
    [matches] stays 0 and [0 / 0] is [NaN], which is not [1.0]. *)
Lemma empty_hash_similarity_is_NaN :
  calculateHammingDistance "" "" = NaN /\
  ~ num_eq (calculateHammingDistance "" "") (Num 1).
Proof. split; [reflexivity | intros H; exact H]. Qed.

(** C9 (as amended): the similarity is symmetric on hashes of equal length,
    it is 1.0 on every non-empty hash compared with itself, and it is 0 on
    two hashes whose lengths differ. *)
Theorem hamming_similarity :
  (forall h1 h2, String.length h1 = String.length h2 ->
     calculateHammingDistance h1 h2 = calculateHammingDistance h2 h1) /\
  (forall h, h ≠ ""%string -> num_eq (calculateHammingDistance h h) (Num 1)) /\
  (forall h1 h2, String.length h1 ≠ String.length h2 ->
     calculateHammingDistance h1 h2 = Num 0).
Proof.
  split; [| split].
  - intros h1 h2 _. apply hamming_sym.
  - intros h Hne. unfold calculateHammingDistance.
    rewrite bool_decide_eq_false_2 by (intros C; apply C; reflexivity).
    rewrite count_matches_refl. apply js_div_self.
    destruct h; [congruence | discriminate].
  - intros h1 h2 Hlen. unfold calculateHammingDistance.
    rewrite bool_decide_eq_true_2 by assumption. reflexivity.
Qed.

Lemma hamming_similarity_witness :
  calculateHammingDistance "a3f0" "a3f1" = calculateHammingDistance "a3f1" "a3f0" /\
  num_eq (calculateHammingDistance "c0ffee" "c0ffee") (Num 1) /\
  calculateHammingDistance "a3" "a3f" = Num 0.
Proof.
  destruct hamming_similarity as (Hsym & Hrefl & Hlen).
  split; [apply Hsym; reflexivity | split].
  - apply Hrefl. discriminate.
  - apply Hlen. simpl. lia.
Defined.

End HashSimilarity.

(** ** The hash pre-filter *)

Section HashPrefilter.

Import Terms.

(** The first active row that reaches the threshold, in table order. *)
Lemma first_active_reaching h (table : list HashMatcher.HashDatabase) :
  Exists (fun r => HashMatcher.hd_active r = true /\ reaches h r = true)
         table ->
  exists before k after,
    table = before ++ k :: after /\
    HashMatcher.hd_active k = true /\
    reaches h k = true /\
    Forall (fun r => HashMatcher.hd_active r = true -> reaches h r = false)
           before.
Proof.
  induction table as [| r table IH]; intros Hex; [inversion Hex |].
  destruct (HashMatcher.hd_active r) eqn:Ha, (reaches h r) eqn:Hr.
  1: { exists [], r, table. repeat split; auto. }
  all: inversion Hex as [? ? [Ha' Hr'] | ? ? Htl]; subst; try congruence.
  all: destruct (IH Htl) as (before & k & after & -> & Hk & Hkr & Hbefore).
  all: exists (r :: before), k, after; repeat split; auto.
  all: constructor; [intros; congruence | exact Hbefore].
Qed.

(** The rows that are not active are not compared at all; of the active
    ones, the loop returns at the first that reaches the threshold. *)
Lemma match_loop_skips h before k after :
  Forall (fun r => HashMatcher.hd_active r = true -> reaches h r = false)
         before ->
  HashMatcher.hd_active k = true ->
  reaches h k = true ->
  HashMatcher.match_loop h
    (HashMatcher.findMany_active (before ++ k :: after)) = reported h k.
Proof.
  intros Hbefore Hk Hkr. unfold HashMatcher.findMany_active.
  induction Hbefore as [| r before Hr _ IH]; cbn [app].
  - rewrite filter_cons_True by exact Hk. cbn.
    unfold reaches in Hkr. rewrite Hkr. reflexivity.
  - destruct (HashMatcher.hd_active r) eqn:Ha.
    + rewrite filter_cons_True by exact Ha. cbn.
      specialize (Hr eq_refl). unfold reaches in Hr. rewrite Hr. exact IH.
    + rewrite filter_cons_False by congruence. exact IH.
Qed.

(** C7: when some row of the block list is active and reaches similarity
    0.95 with the computed hash, the row reported is the first row of the
    table that is active and reaches it: rows in front of it that are not
    active are skipped even when they reach it, and rows behind it are not
    looked at, however close.  The scan result is then flagged with
    confidence 1.0, method hash_match and no review, no request to a
    classifier having been made. *)
Theorem first_hash_match_wins (env : DetectionPipeline.ScanEnv) (h : string) :
  DetectionPipeline.computed env = Some h ->
  Exists (fun r => HashMatcher.hd_active r = true /\ reaches h r = true)
         (DetectionPipeline.table env) ->
  exists before k after,
    DetectionPipeline.table env = before ++ k :: after /\
    HashMatcher.hd_active k = true /\
    reaches h k = true /\
    Forall (fun r => HashMatcher.hd_active r = true -> reaches h r = false)
           before /\
    HashMatcher.checkHashMatch (DetectionPipeline.computed env)
      (DetectionPipeline.table env) = Some (reported h k) /\
    DetectionPipeline.scanImage env =
      (Some {| DetectionPipeline.flagged := true;
               DetectionPipeline.confidence := 1;
               DetectionPipeline.method := "hash_match";
               DetectionPipeline.requiresReview := false;
               DetectionPipeline.hash := h;
               DetectionPipeline.hashMatch := Some (reported h k);
               DetectionPipeline.apiDetection := None |},
       []).
Proof.
  intros Hc Hex.
  destruct (first_active_reaching h _ Hex)
    as (before & k & after & Hl & Hk & Hkr & Hb).
  exists before, k, after.
  split; [exact Hl |]. split; [exact Hk |]. split; [exact Hkr |].
  split; [exact Hb |]. split.
  - rewrite Hc. simpl. rewrite Hl, match_loop_skips; auto.
  - unfold DetectionPipeline.scanImage. rewrite Hc. simpl.
    rewrite Hl, match_loop_skips by auto. reflexivity.
Qed.

End HashPrefilter.

(** An exact copy that is not active stands in front, an active row that
    is far off follows, then an active row that agrees in 19 of 20
    positions, then an active exact copy: the third row is reported. *)
Lemma first_hash_match_wins_witness :
  let h := "0123456789abcdef0123"%string in
  let env :=
    Scenario.scan_of h
      [ Scenario.known "0123456789abcdef0123" false;
        Scenario.known "ffffffffffffffffffff" true;
        Scenario.known "0123456789abcdef0124" true;
        Scenario.known "0123456789abcdef0123" true ]
      (Scenario.cfg_sightengine (85 # 100) (70 # 100))
      (Scenario.sightengine_says 0) in
  HashMatcher.checkHashMatch (DetectionPipeline.computed env)
    (DetectionPipeline.table env)
    = Some {| HashMatcher.matched := true;
              HashMatcher.hash := h;
              HashMatcher.matchedHash := Some "0123456789abcdef0124"%string;
              HashMatcher.similarity := Some (Num (19 # 20)) |} /\
  exists before k after,
    DetectionPipeline.table env = before ++ k :: after /\
    HashMatcher.hd_active k = true /\
    Terms.reaches h k = true /\
    Forall (fun r => HashMatcher.hd_active r = true ->
                     Terms.reaches h r = false) before /\
    HashMatcher.checkHashMatch (DetectionPipeline.computed env)
      (DetectionPipeline.table env) = Some (Terms.reported h k) /\
    DetectionPipeline.scanImage env =
      (Some {| DetectionPipeline.flagged := true;
               DetectionPipeline.confidence := 1;
               DetectionPipeline.method := "hash_match";
               DetectionPipeline.requiresReview := false;
               DetectionPipeline.hash := h;
               DetectionPipeline.hashMatch := Some (Terms.reported h k);
               DetectionPipeline.apiDetection := None |},
       []).
Proof.
  intros h env.
  assert (Hex : Exists (fun r => HashMatcher.hd_active r = true /\
                                 Terms.reaches h r = true)
                  (DetectionPipeline.table env)).
  { apply Exists_cons_tl, Exists_cons_tl, Exists_cons_hd.
    split; reflexivity. }
  destruct (first_hash_match_wins env h eq_refl Hex)
    as (before & k & after & Hl & Hk & Hkr & Hb & Hm & Hs).
  split; [reflexivity |].
  exists before, k, after. repeat split; assumption.
Defined.

(** The entry reported is the first that reaches 0.95 (here 19 of 20
    characters), although an exact copy of the hash follows it; the
    inactive exact copy in front is not looked at. *)
Example first_match_not_best_match :
  HashMatcher.checkHashMatch (Some "0123456789abcdef0123"%string)
    [ Scenario.known "0123456789abcdef0123" false;
      Scenario.known "ffffffffffffffffffff" true;
      Scenario.known "0123456789abcdef0124" true;
      Scenario.known "0123456789abcdef0123" true ]
  = Some {| HashMatcher.matched := true;
            HashMatcher.hash := "0123456789abcdef0123";
            HashMatcher.matchedHash := Some "0123456789abcdef0124"%string;
            HashMatcher.similarity := Some (Num (19 # 20)) |}.
Proof. reflexivity. Qed.

(** ** The decision policy *)

Section DecisionPolicy.

Import Terms.

(** What [scanImage] returns once the hash pre-filter has not matched. *)
Lemma scanImage_classified env :
  no_hash_match env ->
  exists hm,
    HashMatcher.matched hm = false /\
    DetectionPipeline.scanImage env =
      let r := ApiDetector.detectWithAPI (DetectionPipeline.cfg env)
                 (DetectionPipeline.providers env) in
      let c := ApiDetector.confidence (fst r) in
      (Some {| DetectionPipeline.flagged := ApiDetector.detected (fst r);
               DetectionPipeline.confidence := c;
               DetectionPipeline.method := ApiDetector.provider (fst r);
               DetectionPipeline.requiresReview :=
                 Qgeb c (reviewThreshold (DetectionPipeline.cfg env)) &&
                 Qltb c (detectionThreshold (DetectionPipeline.cfg env));
               DetectionPipeline.hash := HashMatcher.hash hm;
               DetectionPipeline.hashMatch := Some hm;
               DetectionPipeline.apiDetection := Some (fst r) |},
       snd r).
Proof.
  intros (hm & Hhm & Hm). exists hm. split; [exact Hm |].
  unfold DetectionPipeline.scanImage. rewrite Hhm, Hm.
  destruct (ApiDetector.detectWithAPI _ _) as [r calls]. reflexivity.
Qed.

(** The bands of the policy as the Sightengine path computes them, for a
    confidence [c] against thresholds [dt] and [rt]: [detected] is
    [c > dt], [requiresReview] is [rt <= c < dt]. *)
Lemma sightengine_bands (c dt rt : Q) :
  let flagged := Qgtb c dt in
  let requiresReview := (Qgeb c rt && Qltb c dt)%bool in
  (dt < c -> flagged = true /\ requiresReview = false) /\
  (rt <= c -> c < dt -> flagged = false /\ requiresReview = true) /\
  (c < rt -> rt < dt -> flagged = false /\ requiresReview = false) /\
  (c == dt -> flagged = false /\ requiresReview = false).
Proof.
  cbn zeta. repeat split.
  - apply Qgtb_lt; assumption.
  - apply andb_false_iff. right. apply Qltb_false_le. apply Qlt_le_weak; assumption.
  - apply Qgtb_false_le. apply Qlt_le_weak; assumption.
  - apply andb_true_iff. split; [apply Qgeb_le | apply Qltb_lt]; assumption.
  - apply Qgtb_false_le. apply Qlt_le_weak. eapply Qlt_trans; eassumption.
  - apply andb_false_iff. left. apply Qgeb_false_lt. assumption.
  - apply Qgtb_false_le. rewrite H. apply Qle_refl.
  - apply andb_false_iff. right. apply Qltb_false_le. rewrite H. apply Qle_refl.
Qed.

(** The same bands on the scan itself, when Sightengine is the provider
    and answers: the two flags are the two tests above on the confidence
    returned, and they never hold together. *)
Lemma scanImage_sightengine env s data :
  no_hash_match env ->
  truthy (workerUrl (DetectionPipeline.cfg env)) = false ->
  sightengine (DetectionPipeline.cfg env) = Some s ->
  ApiDetector.sightengine_reply (DetectionPipeline.providers env)
    = Responded data ->
  exists r,
    fst (DetectionPipeline.scanImage env) = Some r /\
    DetectionPipeline.flagged r
      = Qgtb (DetectionPipeline.confidence r)
             (detectionThreshold (DetectionPipeline.cfg env)) /\
    DetectionPipeline.requiresReview r
      = (Qgeb (DetectionPipeline.confidence r)
              (reviewThreshold (DetectionPipeline.cfg env)) &&
         Qltb (DetectionPipeline.confidence r)
              (detectionThreshold (DetectionPipeline.cfg env)))%bool /\
    (DetectionPipeline.flagged r && DetectionPipeline.requiresReview r)%bool
      = false.
Proof.
  intros Hno Hu Hs Hr.
  destruct (scanImage_classified env Hno) as (hm & _ & Hscan).
  rewrite Hscan. cbn zeta. unfold ApiDetector.detectWithAPI.
  rewrite Hu, Hs. unfold ApiDetector.detectWithSightengine. rewrite Hs, Hr.
  cbn. eexists. split; [reflexivity |]. cbn.
  split; [reflexivity | split; [reflexivity |]].
  destruct (Qgtb _ _) eqn:E; [| reflexivity].
  apply Qgtb_lt in E. cbn. apply andb_false_iff. right.
  apply Qltb_false_le, Qlt_le_weak, E.
Qed.

(** C1, at the boundary: with the default thresholds 0.85 and 0.70 and
    Sightengine answering a score of exactly 0.85, the scan is neither
    flagged nor sent to review, where the policy puts a confidence equal
    to the detection threshold in the flagged band. *)
Theorem confidence_at_detection_threshold_passes :
  let env :=
    Scenario.scan_of "a3f0" []
      (Scenario.cfg_sightengine (85 # 100) (70 # 100))
      (Scenario.sightengine_says (85 # 100)) in
  exists r,
    fst (DetectionPipeline.scanImage env) = Some r /\
    DetectionPipeline.confidence r
      == detectionThreshold (DetectionPipeline.cfg env) /\
    DetectionPipeline.flagged r = false /\
    DetectionPipeline.requiresReview r = false.
Proof.
  cbn zeta. eexists. split; [reflexivity |]. repeat split.
Qed.

(** C2, where the provider's threshold and the configured one differ:
    with [detectionThreshold] set to 0.95 and [reviewThreshold] to 0.70,
    the service at [WORKER_URL] answers [detected: true] with confidence
    0.90 (worker/index.ts sets [detected] by its own constant 0.85).
    [detectWithCloudflareWorker] copies both fields and [scanImage] takes
    [flagged] from the one and [requiresReview] from the other: the scan
    result is flagged and requires review at once, and it is flagged below
    the configured detection threshold. *)
Theorem worker_result_flagged_and_review :
  let env :=
    Scenario.scan_of "a3f0" []
      (Scenario.cfg_worker (95 # 100) (70 # 100))
      (Scenario.worker_answers true (90 # 100)) in
  exists r,
    DetectionPipeline.scanImage env = (Some r, [ApiDetector.CallWorker]) /\
    DetectionPipeline.method r = "cloudflare-worker"%string /\
    DetectionPipeline.confidence r = 90 # 100 /\
    DetectionPipeline.flagged r = true /\
    DetectionPipeline.requiresReview r = true /\
    DetectionPipeline.confidence r
      < detectionThreshold (DetectionPipeline.cfg env).
Proof.
  cbn zeta. eexists. split; [reflexivity |]. repeat split.
Qed.

(** On the Sightengine path and on a hash match the two flags exclude each
    other. *)
Lemma sightengine_exclusive (c dt rt : Q) :
  (Qgtb c dt && (Qgeb c rt && Qltb c dt))%bool = false.
Proof.
  destruct (Qgtb c dt) eqn:E; [| reflexivity].
  apply Qgtb_lt in E. simpl. apply andb_false_iff. right.
  apply Qltb_false_le, Qlt_le_weak, E.
Qed.

End DecisionPolicy.

(** ** Provider failure *)

Section ProviderFailure.

Import Terms.

Lemma detectWithAPI_failed cfg p provider message :
  provider_fails cfg p provider message ->
  exists calls,
    ApiDetector.detectWithAPI cfg p =
      (ApiDetector.failed provider message, calls).
Proof.
  intros H. unfold ApiDetector.detectWithAPI.
  destruct H as [Hu Hk | m Hu Hk Hr | sg m Hu Hs Hr | Hu Hs]; rewrite Hu.
  - exists []. unfold ApiDetector.detectWithCloudflareWorker.
    rewrite Hu, Hk. reflexivity.
  - exists [ApiDetector.CallWorker].
    unfold ApiDetector.detectWithCloudflareWorker. rewrite Hu, Hk, Hr. reflexivity.
  - exists [ApiDetector.CallSightengine]. rewrite Hs.
    unfold ApiDetector.detectWithSightengine. rewrite Hs, Hr. reflexivity.
  - exists []. rewrite Hs. reflexivity.
Qed.

(** The message of a failure is empty only when the request itself threw
    an error whose message is empty. *)
Lemma provider_fails_empty cfg p provider :
  provider_fails cfg p provider "" ->
  ApiDetector.worker_reply p = Threw ""%string \/
  ApiDetector.sightengine_reply p = Threw ""%string.
Proof.
  intros H. inversion H; subst; auto.
Qed.

(** An error thrown with an empty message is passed on as it is: the
    [error] field of the result is then the empty string. *)
Example empty_failure_message_is_kept :
  ApiDetector.error
    (fst (ApiDetector.detectWithAPI
            (Scenario.cfg_worker (85 # 100) (70 # 100))
            (Scenario.worker_throws "")))
  = Some ""%string.
Proof. reflexivity. Qed.

(** C5, with the review threshold at 0: the worker's request times out,
    [classify] answers [detected = false], [confidence = 0] with the error
    message, and the scan result built from it requires review, since
    [0 >= reviewThreshold] and [0 < detectionThreshold]. *)
Lemma provider_failure_sent_to_review :
  let env :=
    Scenario.scan_of "a3f0" []
      (Scenario.cfg_worker (85 # 100) 0)
      (Scenario.worker_throws "timeout of 15000ms exceeded") in
  fst (ApiDetector.detectWithAPI (DetectionPipeline.cfg env)
         (DetectionPipeline.providers env))
    = ApiDetector.failed "cloudflare-worker" "timeout of 15000ms exceeded" /\
  exists r,
    fst (DetectionPipeline.scanImage env) = Some r /\
    DetectionPipeline.flagged r = false /\
    DetectionPipeline.requiresReview r = true.
Proof.
  cbn zeta. split; [reflexivity |].
  eexists. split; [reflexivity |]. split; reflexivity.
Qed.

(** C5 (as amended): when the selected provider fails, [classify] returns
    (it does not throw) a result with [detected = false], [confidence = 0]
    and the message of the failure in [error]: the fixed text when the
    provider is not configured, the message of the thrown error otherwise,
    which is empty only if that error's message is.  The scan result built
    from it is not flagged; it does not require review either when the
    configured review threshold is positive. *)
Theorem provider_failure_fails_open
    (env : DetectionPipeline.ScanEnv) (provider message : string) :
  provider_fails (DetectionPipeline.cfg env) (DetectionPipeline.providers env)
    provider message ->
  no_hash_match env ->
  let result :=
    fst (ApiDetector.detectWithAPI (DetectionPipeline.cfg env)
           (DetectionPipeline.providers env)) in
  ApiDetector.detected result = false /\
  ApiDetector.confidence result = 0 /\
  ApiDetector.error result = Some message /\
  (message = ""%string ->
   ApiDetector.worker_reply (DetectionPipeline.providers env)
     = Threw ""%string \/
   ApiDetector.sightengine_reply (DetectionPipeline.providers env)
     = Threw ""%string) /\
  exists r,
    fst (DetectionPipeline.scanImage env) = Some r /\
    DetectionPipeline.apiDetection r = Some result /\
    DetectionPipeline.flagged r = false /\
    DetectionPipeline.confidence r = 0 /\
    (0 < reviewThreshold (DetectionPipeline.cfg env) ->
     DetectionPipeline.requiresReview r = false).
Proof.
  intros Hfail Hno result.
  destruct (detectWithAPI_failed _ _ _ _ Hfail) as (calls & Hapi).
  destruct (scanImage_classified env Hno) as (hm & _ & Hscan).
  subst result. rewrite Hscan. cbn zeta. rewrite Hapi. cbn.
  repeat split; auto.
  - intros ->. eapply provider_fails_empty; eassumption.
  - eexists. split; [reflexivity |]. cbn. repeat split.
    intros Hrt. apply andb_false_iff. left. apply Qgeb_false_lt. exact Hrt.
Qed.

Lemma provider_failure_fails_open_witness :
  let env :=
    Scenario.scan_of "a3f0" []
      (Scenario.cfg_worker (85 # 100) (70 # 100))
      (Scenario.worker_throws "timeout of 15000ms exceeded") in
  ApiDetector.error
    (fst (ApiDetector.detectWithAPI (DetectionPipeline.cfg env)
            (DetectionPipeline.providers env)))
    = Some "timeout of 15000ms exceeded"%string /\
  exists r,
    fst (DetectionPipeline.scanImage env) = Some r /\
    DetectionPipeline.flagged r = false /\
    DetectionPipeline.requiresReview r = false.
Proof.
  intros env.
  assert (Hfail : provider_fails (DetectionPipeline.cfg env)
                    (DetectionPipeline.providers env)
                    "cloudflare-worker" "timeout of 15000ms exceeded").
  { apply worker_threw; reflexivity. }
  assert (Hno : no_hash_match env).
  { eexists. split; reflexivity. }
  destruct (provider_failure_fails_open env _ _ Hfail Hno)
    as (_ & _ & Herr & _ & r & Hr & _ & Hf & _ & Hrev).
  split; [exact Herr |]. exists r.
  split; [exact Hr |]. split; [exact Hf |]. apply Hrev. reflexivity.
Defined.

End ProviderFailure.

(** ** The scan scheduler *)

Section Scheduler.

Import DetectionQueue Terms.

Context {QueueItem : Type}.

Implicit Types (s : state QueueItem) (sys : system QueueItem).

Lemma processNext_cases (N : nat) s :
  processNext QueueItem N s = (s, None) \/
  exists item rest,
    queue _ s = item :: rest /\
    (processing _ s < Z.of_nat N)%Z /\
    processNext QueueItem N s =
      ({| queue := rest; processing := (processing _ s + 1)%Z |}, Some item).
Proof.
  unfold processNext.
  destruct (Z.leb_spec (Z.of_nat N) (processing _ s)) as [Hge | Hlt];
    [left; reflexivity |].
  destruct (queue _ s) as [| item rest] eqn:Hq; [left; reflexivity |].
  right. exists item, rest. auto.
Qed.

Lemma start_scan_inv (N : nat) s (ex sub adm : list QueueItem) :
  (length ex <= N)%nat ->
  processing _ s = Z.of_nat (length ex) ->
  sub = adm ++ queue _ s ->
  scheduler_inv N (start_scan _ (processNext _ N s) ex sub adm).
Proof.
  intros Hle Hp Hs.
  destruct (processNext_cases N s) as [-> | (item & rest & Hq & Hlt & ->)];
    unfold scheduler_inv, start_scan; cbn.
  - rewrite !app_nil_r. auto.
  - rewrite length_app. cbn. repeat split; [lia | lia |].
    rewrite Hs, Hq, <- app_assoc. reflexivity.
Qed.

Lemma step_inv (N : nat) sys sys' :
  scheduler_inv N sys -> step _ N sys sys' -> scheduler_inv N sys'.
Proof.
  intros (Hle & Hp & Hs) Hstep. destruct Hstep as [item sys | i item sys Hi].
  - apply start_scan_inv; cbn; auto.
    rewrite Hs, <- app_assoc. reflexivity.
  - apply lookup_lt_Some in Hi as Hlt.
    assert (Hlen : length (delete i (executing _ sys))
                   = (length (executing _ sys) - 1)%nat).
    { rewrite length_delete; [reflexivity | eauto]. }
    apply start_scan_inv; cbn; auto; lia.
Qed.

Lemma reachable_inv (N : nat) sys :
  reachable _ N sys -> scheduler_inv N sys.
Proof.
  unfold reachable. intros H.
  apply rtc_ind_r with (x := initial QueueItem)
    (P := fun y => scheduler_inv N y) in H; auto.
  - unfold scheduler_inv. cbn. repeat split; lia.
  - intros y z _ Hstep IH. eapply step_inv; eauto.
Qed.

Lemma step_admits_oldest (N : nat) sys sys' :
  scheduler_inv N sys -> step _ N sys sys' ->
  exists waiting,
    submitted _ sys' = admissions _ sys ++ waiting /\
    (admissions _ sys' = admissions _ sys /\ queue _ (q _ sys') = waiting \/
     exists item rest,
       waiting = item :: rest /\
       admissions _ sys' = admissions _ sys ++ [item] /\
       executing _ sys' <> [] /\
       queue _ (q _ sys') = rest).
Proof.
  intros (Hle & Hp & Hs) Hstep. destruct Hstep as [item sys | i item sys Hi].
  - exists (queue _ (q _ sys) ++ [item]). unfold start_scan, add. cbn.
    split; [rewrite Hs, <- app_assoc; reflexivity |].
    match goal with |- context [processNext _ N ?s] =>
      destruct (processNext_cases N s) as [-> | (it & rest & Hq & Hlt & ->)]
    end; cbn in *.
    + left. rewrite app_nil_r. auto.
    + right. exists it, rest. repeat split; auto.
      intros C. apply app_eq_nil in C as [_ C]. discriminate.
  - exists (queue _ (q _ sys)). unfold start_scan, settle. cbn.
    split; [exact Hs |].
    match goal with |- context [processNext _ N ?s] =>
      destruct (processNext_cases N s) as [-> | (it & rest & Hq & Hlt & ->)]
    end; cbn in *.
    + left. rewrite app_nil_r. auto.
    + right. exists it, rest. repeat split; auto.
      intros C. apply app_eq_nil in C as [_ C]. discriminate.
Qed.

(** C8: in every state the scheduler can reach, whatever the number of
    requests submitted, at most [maxConcurrentScans] scans are executing
    and the [processing] counter is their number; the requests admitted so
    far are, in order, the first of those submitted, the others waiting in
    the queue in submission order; and a step admits at most one request,
    the oldest one waiting. *)
Theorem scheduler_bound_and_fifo (maxConcurrentScans : nat) sys :
  reachable _ maxConcurrentScans sys ->
  (length (executing _ sys) <= maxConcurrentScans)%nat /\
  (processing _ (q _ sys) <= Z.of_nat maxConcurrentScans)%Z /\
  processing _ (q _ sys) = Z.of_nat (length (executing _ sys)) /\
  submitted _ sys = admissions _ sys ++ queue _ (q _ sys) /\
  forall sys', step _ maxConcurrentScans sys sys' ->
    exists waiting,
      submitted _ sys' = admissions _ sys ++ waiting /\
      (admissions _ sys' = admissions _ sys /\ queue _ (q _ sys') = waiting \/
       exists item rest,
         waiting = item :: rest /\
         admissions _ sys' = admissions _ sys ++ [item] /\
         executing _ sys' <> [] /\
         queue _ (q _ sys') = rest).
Proof.
  intros Hreach. pose proof (reachable_inv _ _ Hreach) as Hinv.
  destruct Hinv as (Hle & Hp & Hs). repeat split; auto; [lia |].
  intros sys' Hstep. apply (step_admits_oldest maxConcurrentScans sys sys');
    [repeat split; auto | exact Hstep].
Qed.

End Scheduler.

(** Three requests submitted with [maxConcurrentScans = 2]: two execute,
    the third waits. *)
Lemma scheduler_bound_and_fifo_witness :
  let sys :=
    {| DetectionQueue.q :=
         {| DetectionQueue.queue := ["c.png"%string];
            DetectionQueue.processing := 2 |};
       DetectionQueue.executing := ["a.png"; "b.png"]%string;
       DetectionQueue.submitted := ["a.png"; "b.png"; "c.png"]%string;
       DetectionQueue.admissions := ["a.png"; "b.png"]%string |} in
  DetectionQueue.reachable _ 2 sys /\
  (length (DetectionQueue.executing _ sys) <= 2)%nat /\
  DetectionQueue.submitted _ sys
    = DetectionQueue.admissions _ sys
      ++ DetectionQueue.queue _ (DetectionQueue.q _ sys).
Proof.
  intros sys.
  assert (Hreach : DetectionQueue.reachable _ 2 sys).
  { unfold DetectionQueue.reachable.
    eapply rtc_l; [apply (DetectionQueue.step_add _ 2 "a.png"%string) |].
    eapply rtc_l; [apply (DetectionQueue.step_add _ 2 "b.png"%string) |].
    eapply rtc_l; [apply (DetectionQueue.step_add _ 2 "c.png"%string) |].
    apply rtc_refl. }
  split; [exact Hreach |].
  destruct (scheduler_bound_and_fifo 2 sys Hreach) as (Hle & _ & _ & Hs & _).
  split; [exact Hle | exact Hs].
Defined.

(** ** Offense escalation *)

(** Unfolding of the handler monad, and the closing of the goals it
    leaves. *)
Ltac run :=
  unfold try_catch, bind, ret, throw, get, modify, emit, platform,
    guild_ban, user_update in *.

Ltac finish :=
  repeat split; intros;
  repeat match goal with
         | H : Some _ = Some _ |- _ => inversion H; subst; clear H
         | H : _ \/ _ |- _ => destruct H
         | H : exists _, _ |- _ => destruct H
         | H : _ /\ _ |- _ => destruct H
         end;
  subst; try congruence; try lia; try reflexivity.

Section Escalation.

Import Terms.

Local Close Scope Q_scope.

Lemma guilds_get_id client guildId g :
  guilds_get client guildId = Some g -> guild_id g = guildId.
Proof.
  unfold guilds_get. intros H. apply List.find_some in H as [_ H].
  apply bool_decide_eq_true in H. exact H.
Qed.

(** C3, on the review item: a user offends in one guild and then in
    another; the second offense brings the count to 2 and leaves a pending
    level-2 record, and the moderatorReview table is still empty. *)
Lemma second_offense_creates_no_review_item :
  let w1 := snd (BanManager.handleUserOffense "u" "g1" "CSAM detection"
                   Scenario.three_guilds Scenario.empty_world) in
  let w2 := snd (BanManager.handleUserOffense "u" "g3" "CSAM detection"
                   Scenario.three_guilds w1) in
  current_offenses w2 "u" = 2 /\
  bans w2 !! 1 =
    Some {| ban_userId := "u"; ban_guildId := "g3"; ban_level := 2;
            ban_reason := "CSAM detection"; banType := global_pending;
            ban_active := false |} /\
  reviews w2 = [].
Proof. cbn zeta. repeat split; vm_compute; reflexivity. Qed.

(** C3 (as amended): a confirmed offense adds one to the user's offense
    count and creates no moderatorReview row.  When it brings the count to
    exactly 1 and the ban in the originating guild goes through, it adds
    the one ban row of level 1, type server, active, for that guild, and
    bans there; when the guild is not cached or the ban request throws, it
    adds no row.  When it brings the count to 2 or more, it adds one ban
    row of level 2, type global_pending, not active, reports that
    moderator review is required and makes no ban request at all. *)
Theorem offense_escalation
    (userId guildId reason : string) (client : Client) (w : World) :
  let r := BanManager.handleUserOffense userId guildId reason client w in
  let w' := snd r in
  current_offenses w' userId = S (current_offenses w userId) /\
  reviews w' = reviews w /\
  (current_offenses w' userId = 1 ->
     (forall guild,
        guilds_get client guildId = Some guild ->
        members_ban guild userId = None ->
        fst r = Ok {| BanManager.success := true; BanManager.level := 1;
                      BanManager.requiresModeratorReview := false;
                      BanManager.message :=
                        "User banned from server (first offense)" |} /\
        bans w' = bans w ++
          [{| ban_userId := userId; ban_guildId := guildId; ban_level := 1;
              ban_reason := reason; banType := ban_server;
              ban_active := true |}] /\
        events w' = events w ++ [MembersBan guildId userId]) /\
     ((guilds_get client guildId = None \/
       exists guild e, guilds_get client guildId = Some guild /\
                       members_ban guild userId = Some e) ->
        bans w' = bans w /\ events w' = events w)) /\
  (2 <= current_offenses w' userId ->
     fst r = Ok {| BanManager.success := true; BanManager.level := 2;
                   BanManager.requiresModeratorReview := true;
                   BanManager.message :=
                     "User queued for global ban (requires moderator approval)" |} /\
     bans w' = bans w ++
       [{| ban_userId := userId; ban_guildId := guildId; ban_level := 2;
           ban_reason := reason; banType := global_pending;
           ban_active := false |}] /\
     events w' = events w /\
     attempts w' = attempts w).
Proof.
  cbn zeta. unfold BanManager.handleUserOffense, current_offenses. run. cbn.
  destruct (users w !! userId) as [u |] eqn:Hu; cbn;
    rewrite ?Hu, ?lookup_insert_eq; cbn.
  - destruct (Nat.eqb_spec (offenseCount u + 1) 1) as [E | E].
    + unfold BanManager.executeServerBan. run. cbn.
      destruct (guilds_get client guildId) as [g |] eqn:G; cbn.
      * pose proof (guilds_get_id _ _ _ G) as Hid.
        destruct (members_ban g userId) as [e |] eqn:B; cbn;
          rewrite lookup_insert_eq; cbn; finish.
      * rewrite lookup_insert_eq; cbn; finish.
    + unfold BanManager.queueForGlobalBan. run. cbn.
      rewrite lookup_insert_eq; cbn; finish.
  - rewrite ?lookup_insert_eq. cbn.
    unfold BanManager.executeServerBan. run. cbn.
    destruct (guilds_get client guildId) as [g |] eqn:G; cbn.
    + pose proof (guilds_get_id _ _ _ G) as Hid.
      destruct (members_ban g userId) as [e |] eqn:B; cbn;
        rewrite ?insert_insert_eq, ?lookup_insert_eq; cbn; finish.
    + rewrite ?insert_insert_eq, ?lookup_insert_eq; cbn; finish.
Qed.

Lemma offense_escalation_witness :
  let w1 := snd (BanManager.handleUserOffense "u" "g1" "CSAM detection"
                   Scenario.three_guilds Scenario.empty_world) in
  let w2 := snd (BanManager.handleUserOffense "u" "g3" "CSAM detection"
                   Scenario.three_guilds w1) in
  (current_offenses w1 "u" = 1 /\
   bans w1 = [{| ban_userId := "u"; ban_guildId := "g1"; ban_level := 1;
                 ban_reason := "CSAM detection"; banType := ban_server;
                 ban_active := true |}] /\
   reviews w1 = []) /\
  (current_offenses w2 "u" = 2 /\
   bans w2 = bans w1 ++
     [{| ban_userId := "u"; ban_guildId := "g3"; ban_level := 2;
         ban_reason := "CSAM detection"; banType := global_pending;
         ban_active := false |}] /\
   reviews w2 = [] /\
   attempts w2 = attempts w1).
Proof.
  intros w1 w2.
  destruct (offense_escalation "u" "g1" "CSAM detection"
              Scenario.three_guilds Scenario.empty_world)
    as (Hc1 & Hr1 & Hfirst & _).
  destruct (offense_escalation "u" "g3" "CSAM detection"
              Scenario.three_guilds w1)
    as (Hc2 & Hr2 & _ & Hsecond).
  fold w1 in Hc1, Hr1, Hfirst. fold w2 in Hc2, Hr2, Hsecond.
  assert (H1 : current_offenses w1 "u" = 1) by (rewrite Hc1; reflexivity).
  assert (H2 : current_offenses w2 "u" = 2) by (rewrite Hc2, H1; reflexivity).
  destruct (Hfirst H1) as (Hok & _).
  destruct (Hok (Scenario.guild_of "g1" None) eq_refl eq_refl) as (_ & Hb1 & _).
  destruct Hsecond as (_ & Hb2 & _ & Ha2); [rewrite H2; lia |].
  repeat split; auto.
Defined.

End Escalation.

(** ** Approval and rejection of a global ban *)

Section Moderation.

Import Terms.

Local Close Scope Q_scope.

Lemma set_events_nil w : set_events (fun l => l ++ []) w = w.
Proof. destruct w. unfold set_events. cbn. rewrite app_nil_r. reflexivity. Qed.

Lemma set_attempts_nil w : set_attempts (fun l => l ++ []) w = w.
Proof. destruct w. unfold set_attempts. cbn. rewrite app_nil_r. reflexivity. Qed.

(** The fan-out asks every guild of the list, in order, whatever the
    earlier requests came to. *)
Lemma ban_everywhere_spec guilds userId n w :
  BanManager.ban_everywhere guilds userId n w =
    (Ok (n + length (bans_done guilds userId)),
     set_events (fun l => l ++ bans_done guilds userId)
       (set_attempts (fun l => l ++ ban_attempts guilds userId) w)).
Proof.
  revert n w. induction guilds as [| g guilds IH]; intros n w.
  - cbn. unfold ret. rewrite set_events_nil, set_attempts_nil.
    f_equal. f_equal. lia.
  - cbn [BanManager.ban_everywhere]. unfold bind at 1. run.
    unfold bans_done, ban_attempts. cbn [omap list_omap map].
    fold (bans_done guilds userId). fold (ban_attempts guilds userId).
    destruct (members_ban g userId) as [e |]; cbn; rewrite IH;
      destruct w; unfold set_events, set_attempts; cbn;
      rewrite <- ?app_assoc; cbn; do 2 f_equal; lia.
Qed.

Lemma timeout_ban_everywhere :
  TimeoutManager.ban_everywhere = BanManager.ban_everywhere.
Proof. reflexivity. Qed.

Lemma moderation_channel_frame client w' w :
  botConfig w' = botConfig w ->
  TimeoutManager.moderation_channel client w'
    = TimeoutManager.moderation_channel client w.
Proof. unfold TimeoutManager.moderation_channel. intros ->. reflexivity. Qed.

(** Approving a pending global ban marks the record as the approved
    global ban, active, and the user as globally banned; a ban is then
    requested in every guild of the client's cache, in order, whether or
    not the earlier requests went through.  [approveGlobalBan] of
    banManager.ts, for a pending record whose user is on record, then
    reports success.  [approveGlobalBan] of timeoutManager.ts, for a user
    on record, approves all pending records of that user and no other
    row, and reports success exactly when its closing notice does not
    throw. *)
Lemma approval_fans_out :
  (forall banId moderatorId client w ban u,
     bans w !! banId = Some ban ->
     banType ban = global_pending ->
     users w !! ban_userId ban = Some u ->
     let r := BanManager.approveGlobalBan banId moderatorId client w in
     fst r = Ok true /\
     bans (snd r) !! banId = Some (approved ban) /\
     (forall i, i ≠ banId -> bans (snd r) !! i = bans w !! i) /\
     users (snd r) = <[ban_userId ban := globally_banned u]> (users w) /\
     attempts (snd r)
       = attempts w ++ ban_attempts (guilds_cache client) (ban_userId ban) /\
     events (snd r)
       = events w ++ bans_done (guilds_cache client) (ban_userId ban)) /\
  (forall userId moderatorId client w u,
     users w !! userId = Some u ->
     let r := TimeoutManager.approveGlobalBan userId moderatorId client w in
     fst r = Ok (negb (notice_throws client w)) /\
     length (timeouts (snd r)) = length (timeouts w) /\
     (forall i t,
        timeouts w !! i = Some t ->
        timeouts (snd r) !! i =
          Some (if (bool_decide (to_userId t = userId) &&
                    bool_decide (timeoutType t = pending_review))%bool
                then approved_timeout t else t)) /\
     users (snd r) = <[userId := globally_banned u]> (users w) /\
     attempts (snd r)
       = attempts w ++ ban_attempts (guilds_cache client) userId /\
     events (snd r)
       = events w ++ bans_done (guilds_cache client) userId
         ++ notice_events client w "Global Ban Approved").
Proof.
  split.
  - intros banId moderatorId client w ban u Hb Hpending Hu. cbn zeta.
    unfold BanManager.approveGlobalBan. run. cbn. rewrite Hb.
    rewrite bool_decide_eq_true_2 by exact Hpending. cbn. rewrite Hu. cbn.
    rewrite ban_everywhere_spec. cbn.
    repeat split.
    + rewrite list_lookup_alter, Hb. case_decide; [reflexivity | congruence].
    + intros i Hi. rewrite list_lookup_alter. case_decide; congruence.
  - intros userId moderatorId client w u Hu. cbn zeta.
    unfold TimeoutManager.approveGlobalBan. run. cbn. rewrite Hu. cbn.
    rewrite timeout_ban_everywhere, ban_everywhere_spec. cbn.
    rewrite !(moderation_channel_frame client _ w) by reflexivity.
    unfold notice_throws, notice_events in *.
    assert (Hrows : forall i t,
              timeouts w !! i = Some t ->
              TimeoutManager.updateMany_pending userId global_approved true
                (timeouts w) !! i =
                Some (if (bool_decide (to_userId t = userId) &&
                          bool_decide (timeoutType t = pending_review))%bool
                      then approved_timeout t else t)).
    { intros i t Hi. unfold TimeoutManager.updateMany_pending.
      rewrite list_lookup_fmap, Hi. reflexivity. }
    assert (Hlen : length (TimeoutManager.updateMany_pending userId
                             global_approved true (timeouts w))
                   = length (timeouts w)).
    { unfold TimeoutManager.updateMany_pending. apply length_map. }
    destruct (TimeoutManager.moderation_channel client w) as [[sid c] |]; cbn.
    + unfold TimeoutManager.channel_send. run.
      destruct (send c) as [e |]; cbn; rewrite <- ?app_assoc, ?app_nil_r;
        repeat split; auto.
    + rewrite app_nil_r. repeat split; auto.
Qed.

(** In timeoutManager.ts the value reported depends on the closing notice
    alone, never on what the ban requests came to; the tables are written
    before it in either case. *)
Lemma timeout_approval_reports userId moderatorId client w u :
  users w !! userId = Some u ->
  let r := TimeoutManager.approveGlobalBan userId moderatorId client w in
  fst r = Ok (negb (notice_throws client w)) /\
  timeouts (snd r)
    = TimeoutManager.updateMany_pending userId global_approved true
        (timeouts w) /\
  users (snd r) = <[userId := globally_banned u]> (users w) /\
  attempts (snd r) = attempts w ++ ban_attempts (guilds_cache client) userId.
Proof.
  intros Hu. cbn zeta.
  unfold TimeoutManager.approveGlobalBan. run. cbn. rewrite Hu. cbn.
  rewrite timeout_ban_everywhere, ban_everywhere_spec. cbn.
  rewrite !(moderation_channel_frame client _ w) by reflexivity.
  unfold notice_throws.
  destruct (TimeoutManager.moderation_channel client w) as [[sid c] |]; cbn.
  - unfold TimeoutManager.channel_send. run.
    destruct (send c) as [e |]; cbn; repeat split.
  - repeat split.
Qed.

Lemma approval_fans_out_witness :
  let w := Scenario.offender_world in
  let r := BanManager.approveGlobalBan 1 "moderator" Scenario.three_guilds w in
  let r' :=
    TimeoutManager.approveGlobalBan "u" "moderator" Scenario.three_guilds w in
  (fst r = Ok true /\
   bans (snd r) !! 1 =
     Some {| ban_userId := "u"; ban_guildId := "g3"; ban_level := 2;
             ban_reason := "CSAM detection"; banType := ban_global;
             ban_active := true |} /\
   attempts (snd r) = [TryBan "g1" "u"; TryBan "g2" "u"; TryBan "g3" "u"] /\
   events (snd r) = [MembersBan "g1" "u"; MembersBan "g3" "u"]) /\
  (fst r' = Ok true /\
   timeouts (snd r') !! 1 =
     Some {| to_userId := "u"; to_guildId := "g3"; to_level := 2;
             to_reason := "CSAM detection"; timeoutType := global_approved;
             to_active := true; expiresAt := 604800001 |} /\
   attempts (snd r') = [TryBan "g1" "u"; TryBan "g2" "u"; TryBan "g3" "u"]).
Proof.
  intros w r r'. destruct approval_fans_out as [Hban Htimeout].
  split.
  - destruct (Hban 1 "moderator" Scenario.three_guilds w
                {| ban_userId := "u"; ban_guildId := "g3"; ban_level := 2;
                   ban_reason := "CSAM detection"; banType := global_pending;
                   ban_active := false |}
                Scenario.offender eq_refl eq_refl eq_refl)
      as (Hok & Hrec & _ & _ & Hatt & Hev).
    split; [exact Hok | split; [exact Hrec | split; [exact Hatt | exact Hev]]].
  - destruct (Htimeout "u" "moderator" Scenario.three_guilds w
                Scenario.offender eq_refl)
      as (Hok & _ & Hrows & _ & Hatt & _).
    split; [exact Hok | split; [| exact Hatt]].
    exact (Hrows 1%nat
             {| to_userId := "u"; to_guildId := "g3"; to_level := 2;
                to_reason := "CSAM detection"; timeoutType := pending_review;
                to_active := false; expiresAt := 604800001 |} eq_refl).
Defined.

(** C4, in timeoutManager.ts when the closing notice cannot be posted: the
    user "u" has a pending_review record, the bot serves three guilds (in
    the second it may not ban) and the moderation channel refuses the
    post.  [approveGlobalBan] sets the user's flag, approves the pending
    record and asks all three guilds for the ban, two of which go
    through, and returns false.  [approveGlobalBan] of banManager.ts on
    the same store and guilds returns true, and so does the call itself
    when the channel takes the post. *)
Theorem approval_reported_as_failed :
  let w := Scenario.offender_world in
  let r := TimeoutManager.approveGlobalBan "u" "moderator"
             Scenario.three_guilds_muted w in
  fst r = Ok false /\
  users (snd r) !! "u"%string =
    Some {| username := "Unknown"; discriminator := "0000";
            offenseCount := 2; globallyBanned := true |} /\
  timeouts (snd r) =
    [ {| to_userId := "u"; to_guildId := "g1"; to_level := 1;
         to_reason := "CSAM detection"; timeoutType := timeout_server;
         to_active := true; expiresAt := 604800000 |};
      {| to_userId := "u"; to_guildId := "g3"; to_level := 2;
         to_reason := "CSAM detection"; timeoutType := global_approved;
         to_active := true; expiresAt := 604800001 |} ] /\
  attempts (snd r) = [TryBan "g1" "u"; TryBan "g2" "u"; TryBan "g3" "u"] /\
  events (snd r) = [MembersBan "g1" "u"; MembersBan "g3" "u"] /\
  fst (BanManager.approveGlobalBan 1 "moderator"
         Scenario.three_guilds_muted w) = Ok true /\
  fst (TimeoutManager.approveGlobalBan "u" "moderator"
         Scenario.three_guilds w) = Ok true.
Proof. cbn zeta. repeat split; vm_compute; reflexivity. Qed.

Lemma updateMany_pending_lookup userId ty a table i t :
  table !! i = Some t ->
  TimeoutManager.updateMany_pending userId ty a table !! i =
    Some (if (bool_decide (to_userId t = userId) &&
              bool_decide (timeoutType t = pending_review))%bool
          then {| to_userId := to_userId t; to_guildId := to_guildId t;
                  to_level := to_level t; to_reason := to_reason t;
                  timeoutType := ty; to_active := a;
                  expiresAt := expiresAt t |}
          else t).
Proof.
  intros H. unfold TimeoutManager.updateMany_pending.
  rewrite list_lookup_fmap, H. reflexivity.
Qed.

Lemma updateMany_rejected_twice userId table :
  TimeoutManager.updateMany_pending userId global_rejected false
    (TimeoutManager.updateMany_pending userId global_rejected false table)
  = TimeoutManager.updateMany_pending userId global_rejected false table.
Proof.
  unfold TimeoutManager.updateMany_pending. rewrite List.map_map.
  apply List.map_ext. intros t.
  destruct (bool_decide (to_userId t = userId)
            && bool_decide (timeoutType t = pending_review))%bool eqn:E;
    [cbn | rewrite E; reflexivity].
  rewrite andb_false_r. reflexivity.
Qed.

Lemma notice_events_no_sanction client w title :
  Forall (fun e => is_sanction e = false) (notice_events client w title).
Proof.
  unfold notice_events.
  destruct (TimeoutManager.moderation_channel client w) as [[sid c] |];
    [destruct (send c) |]; repeat constructor.
Qed.

Lemma reject_timeouts userId moderatorId notes client w :
  let r := TimeoutManager.rejectGlobalBan userId moderatorId notes client w in
  timeouts (snd r)
    = TimeoutManager.updateMany_pending userId global_rejected false
        (timeouts w) /\
  users (snd r) = users w /\
  bans (snd r) = bans w /\
  botConfig (snd r) = botConfig w /\
  attempts (snd r) = attempts w /\
  events (snd r) = events w ++ notice_events client w "Global Ban Rejected".
Proof.
  cbn zeta. unfold TimeoutManager.rejectGlobalBan,
    TimeoutManager.closing_notice. run. cbn.
  rewrite !(moderation_channel_frame client _ w) by reflexivity.
  unfold notice_events.
  destruct (TimeoutManager.moderation_channel client w) as [[sid c] |]; cbn.
  - unfold TimeoutManager.channel_send. run.
    destruct (send c) as [e |]; cbn; rewrite ?app_nil_r; repeat split.
  - rewrite app_nil_r. repeat split.
Qed.

(** C6: rejecting a pending global ban leaves the record with the rejected
    kind and not active, requests no ban or timeout, and leaves the users
    table, so every offense count, as it was; a second rejection changes
    nothing in the tables.  In banManager.ts the record is the one named
    by [banId], whatever its kind was; in timeoutManager.ts the records are the pending ones of
    the user, and the only requests made are the notices to the moderation
    channel. *)
Theorem rejection_is_idempotent :
  (forall banId moderatorId notes w ban,
     bans w !! banId = Some ban ->
     let r1 := BanManager.rejectGlobalBan banId moderatorId notes w in
     let r2 := BanManager.rejectGlobalBan banId moderatorId notes (snd r1) in
     fst r1 = Ok true /\
     bans (snd r1) !! banId = Some (rejected ban) /\
     (forall i, i ≠ banId -> bans (snd r1) !! i = bans w !! i) /\
     users (snd r1) = users w /\
     events (snd r1) = events w /\
     attempts (snd r1) = attempts w /\
     fst r2 = Ok true /\
     snd r2 = snd r1) /\
  (forall userId moderatorId notes client w,
     let r1 :=
       TimeoutManager.rejectGlobalBan userId moderatorId notes client w in
     let r2 :=
       TimeoutManager.rejectGlobalBan userId moderatorId notes client
         (snd r1) in
     (forall i t,
        timeouts w !! i = Some t ->
        timeouts (snd r1) !! i =
          Some (if (bool_decide (to_userId t = userId) &&
                    bool_decide (timeoutType t = pending_review))%bool
                then rejected_timeout t else t)) /\
     users (snd r1) = users w /\
     attempts (snd r1) = attempts w /\
     (exists notices,
        events (snd r1) = events w ++ notices /\
        Forall (fun e => is_sanction e = false) notices) /\
     timeouts (snd r2) = timeouts (snd r1) /\
     users (snd r2) = users w /\
     bans (snd r2) = bans w /\
     attempts (snd r2) = attempts w /\
     (exists notices,
        events (snd r2) = events (snd r1) ++ notices /\
        Forall (fun e => is_sanction e = false) notices)).
Proof.
  split.
  - intros banId moderatorId notes w ban Hb. cbn zeta.
    unfold BanManager.rejectGlobalBan. run. cbn. rewrite Hb. cbn.
    assert (Hrec : alter (fun b =>
                      {| ban_userId := ban_userId b;
                         ban_guildId := ban_guildId b;
                         ban_level := ban_level b;
                         ban_reason := ban_reason b;
                         banType := ban_global_rejected;
                         ban_active := false |}) banId (bans w) !! banId
                   = Some (rejected ban)).
    { rewrite list_lookup_alter, Hb. case_decide; [reflexivity | congruence]. }
    rewrite Hrec. cbn. repeat split; auto.
    + intros i Hi. rewrite list_lookup_alter. case_decide; congruence.
    + destruct w. unfold set_bans. cbn. f_equal.
      apply list_eq. intros i. rewrite !list_lookup_alter.
      case_decide; [| reflexivity]. subst i.
      rewrite decide_True by reflexivity.
      destruct (bans0 !! banId); reflexivity.
  - intros userId moderatorId notes client w. cbn zeta.
    destruct (reject_timeouts userId moderatorId notes client w)
      as (Ht1 & Hu1 & Hb1 & Hc1 & Ha1 & He1).
    destruct (reject_timeouts userId moderatorId notes client
                (snd (TimeoutManager.rejectGlobalBan userId moderatorId
                        notes client w)))
      as (Ht2 & Hu2 & Hb2 & Hc2 & Ha2 & He2).
    repeat split; try congruence.
    + intros i t Hi. rewrite Ht1.
      apply updateMany_pending_lookup. exact Hi.
    + eexists. split; [exact He1 | apply notice_events_no_sanction].
    + rewrite Ht2, Ht1. apply updateMany_rejected_twice.
    + eexists. split; [exact He2 | apply notice_events_no_sanction].
Qed.

Lemma rejection_is_idempotent_witness :
  let w := Scenario.offender_world in
  let r1 := BanManager.rejectGlobalBan 1 "moderator" "no" w in
  let r2 := BanManager.rejectGlobalBan 1 "moderator" "no" (snd r1) in
  bans (snd r1) !! 1 =
    Some {| ban_userId := "u"; ban_guildId := "g3"; ban_level := 2;
            ban_reason := "CSAM detection"; banType := ban_global_rejected;
            ban_active := false |} /\
  users (snd r1) = users w /\
  snd r2 = snd r1.
Proof.
  intros w r1 r2. destruct rejection_is_idempotent as [Hban _].
  destruct (Hban 1 "moderator" "no" w
              {| ban_userId := "u"; ban_guildId := "g3"; ban_level := 2;
                 ban_reason := "CSAM detection"; banType := global_pending;
                 ban_active := false |} eq_refl)
    as (_ & Hrec & _ & Hu & _ & _ & _ & Hsame).
  split; [exact Hrec | split; [exact Hu | exact Hsame]].
Defined.

End Moderation.

(** ** Dispatch on the detection result *)

Section Dispatch.

Import Terms.

Local Close Scope Q_scope.

Variable toFixed2 : Q -> string.

#[local] Arguments MessageCreate.findFirst_newest : simpl never.
#[local] Arguments MessageCreate.handleReviewRequired : simpl never.
#[local] Arguments MessageCreate.handleFlaggedContent : simpl never.

Lemma findFirst_newest_last messageId (table : list Detection) d :
  det_messageId d = messageId ->
  MessageCreate.findFirst_newest messageId (table ++ [d])
    = Some (length table).
Proof.
  intros Hd. unfold MessageCreate.findFirst_newest.
  rewrite length_app. cbn [length]. rewrite Nat.add_1_r, seq_S, rev_unit.
  cbn [List.find plus]. rewrite list_lookup_middle by reflexivity.
  rewrite bool_decide_eq_true_2 by exact Hd. reflexivity.
Qed.

Lemma alert_channel_frame guild w' w :
  guildTable w' = guildTable w ->
  ModeratorAlert.alert_channel guild w' = ModeratorAlert.alert_channel guild w.
Proof. unfold ModeratorAlert.alert_channel. intros ->. reflexivity. Qed.

Lemma review_notice_frame guild w' w :
  guildTable w' = guildTable w -> review_notice guild w' = review_notice guild w.
Proof.
  intros H. unfold review_notice. rewrite (alert_channel_frame _ _ _ H).
  reflexivity.
Qed.

Lemma review_notice_no_sanction guild w :
  Forall (fun e => is_sanction e = false) (review_notice guild w).
Proof.
  unfold review_notice.
  destruct (ModeratorAlert.alert_channel guild w) as [c |];
    [destruct (send c) |]; repeat constructor.
Qed.

(** What the review path does to the store and to the log. *)
Lemma handleReviewRequired_spec message detection w (table : list Detection) d :
  detections w = table ++ [d] ->
  det_messageId d = MessageCreate.message_id message ->
  let w' := snd (MessageCreate.handleReviewRequired message detection w) in
  users w' = users w /\ bans w' = bans w /\ timeouts w' = timeouts w /\
  attempts w' = attempts w /\ detections w' = detections w /\
  match MessageCreate.message_react message with
  | Some _ => reviews w' = reviews w /\ events w' = events w
  | None =>
      reviews w' = reviews w ++
        [{| detectionId := length table; status := review_pending |}] /\
      events w' = events w ++
        MessageReact (MessageCreate.message_id message)
        :: review_notice (MessageCreate.guild message) w
  end.
Proof.
  intros Ht Hd. cbn zeta.
  unfold MessageCreate.handleReviewRequired. run.
  destruct (MessageCreate.message_react message) as [e |]; cbn;
    [repeat split |].
  rewrite Ht, findFirst_newest_last by exact Hd. cbn.
  unfold ModeratorAlert.notifyModeratorOfPendingReview. run. cbn.
  rewrite !(alert_channel_frame _ _ w) by reflexivity.
  unfold review_notice.
  destruct (ModeratorAlert.alert_channel (MessageCreate.guild message) w)
    as [c |]; cbn.
  - unfold ModeratorAlert.channel_send. run.
    destruct (send c) as [e |]; cbn; rewrite <- ?app_assoc;
      repeat split; auto.
  - repeat split; auto.
Qed.

(** What the dispatch does with a result that requires review or is not
    flagged. *)
Lemma processImageAttachment_review
    (message : MessageCreate.Message)
    (detection : DetectionPipeline.DetectionResult)
    (guildConfig : GuildConfig) (client : Client) (w : World) :
  let w' :=
    snd (MessageCreate.processImageAttachment toFixed2 message
           (Responded detection) guildConfig client w) in
  (DetectionPipeline.requiresReview detection = true \/
   DetectionPipeline.flagged detection = false ->
     users w' = users w /\ bans w' = bans w /\ timeouts w' = timeouts w /\
     attempts w' = attempts w /\
     exists done,
       events w' = events w ++ done /\
       Forall (fun e => is_sanction e = false) done) /\
  (DetectionPipeline.requiresReview detection = true ->
   MessageCreate.message_react message = None ->
     reviews w' = reviews w ++
       [{| detectionId := length (detections w); status := review_pending |}] /\
     events w' = events w ++
       MessageReact (MessageCreate.message_id message)
       :: review_notice (MessageCreate.guild message) w).
Proof.
  cbn zeta. unfold MessageCreate.processImageAttachment. run. cbn.
  match goal with |- context [set_detections ?f w] =>
    pose proof (handleReviewRequired_spec message detection
                  (set_detections f w) (detections w) _ eq_refl eq_refl)
      as Hreview
  end.
  cbn in Hreview. destruct Hreview as (Hu & Hb & Ht & Ha & _ & Hrest).
  rewrite (review_notice_frame _ _ w) in Hrest by reflexivity.
  destruct (DetectionPipeline.requiresReview detection) eqn:Hrev.
  - rewrite andb_false_r.
    match goal with |- context [MessageCreate.handleReviewRequired ?m ?d ?x] =>
      destruct (MessageCreate.handleReviewRequired m d x) as [[a | e] w1]
    end; cbn in *.
    all: split; [intros _ | intros _ Hreact].
    all: try (rewrite Hreact in Hrest; destruct Hrest as (Hr & He);
              split; [exact Hr | exact He]).
    all: repeat split; try assumption.
    all: destruct (MessageCreate.message_react message);
      destruct Hrest as (_ & He); rewrite He.
    all: try (exists []; rewrite app_nil_r; split; [reflexivity | constructor]).
    all: eexists; split; [reflexivity |];
      constructor; [reflexivity | apply review_notice_no_sanction].
  - destruct (DetectionPipeline.flagged detection) eqn:Hfl; cbn.
    + split; [intros [C | C]; discriminate | intros C; discriminate].
    + split; [intros _ | intros C; discriminate].
      repeat split. exists []. rewrite app_nil_r. split; [reflexivity | constructor].
Qed.

Lemma channels_get_id g channelId c :
  channels_get g channelId = Some c -> channel_id c = channelId.
Proof.
  unfold channels_get. intros H. apply List.find_some in H as [_ H].
  apply bool_decide_eq_true in H. exact H.
Qed.

(** C10 (as amended): a detection that requires review, flagged or not,
    goes to the review path and not to the sanction path: no user row, ban
    row or timeout row changes, no ban is requested and nothing that is a
    sanction or a deletion is done.  When the warning reaction on the
    message goes through, one pending moderatorReview row is created for
    the detection row just written; the notice "Review Required" is then
    posted in the guild's alert channel when the guild's row names one
    that is in the cache and takes the post, and nothing is posted when
    the guild has no row or its row names no alert channel.  The same
    absence of deletion and escalation holds of a detection that is not
    flagged: they can run only for a detection that is flagged and does
    not require review. *)
Theorem review_takes_precedence
    (message : MessageCreate.Message)
    (detection : DetectionPipeline.DetectionResult)
    (guildConfig : GuildConfig) (client : Client) (w : World) :
  let w' :=
    snd (MessageCreate.processImageAttachment toFixed2 message
           (Responded detection) guildConfig client w) in
  let g := MessageCreate.guild message in
  (DetectionPipeline.requiresReview detection = true \/
   DetectionPipeline.flagged detection = false ->
     users w' = users w /\ bans w' = bans w /\ timeouts w' = timeouts w /\
     attempts w' = attempts w /\
     exists done,
       events w' = events w ++ done /\
       Forall (fun e => is_sanction e = false) done) /\
  (DetectionPipeline.requiresReview detection = true ->
   MessageCreate.message_react message = None ->
     reviews w' = reviews w ++
       [{| detectionId := length (detections w); status := review_pending |}] /\
     (forall row channelId c,
        guildTable w !! guild_id g = Some row ->
        alertChannelId row = Some channelId ->
        channelId ≠ ""%string ->
        channels_get g channelId = Some c ->
        send c = None ->
        events w' = events w ++
          [ MessageReact (MessageCreate.message_id message);
            ChannelSend (guild_id g) channelId "Review Required" ]) /\
     (guildTable w !! guild_id g = None \/
      (exists row, guildTable w !! guild_id g = Some row /\
                   alertChannelId row = None) ->
        events w' = events w ++
          [ MessageReact (MessageCreate.message_id message) ])).
Proof.
  cbn zeta.
  destruct (processImageAttachment_review message detection guildConfig
              client w) as [Hframe Hreview].
  split; [exact Hframe |].
  intros Hrev Hreact. destruct (Hreview Hrev Hreact) as [Hr He].
  split; [exact Hr |]. rewrite He. unfold review_notice,
    ModeratorAlert.alert_channel. split.
  - intros row channelId c Hrow Hid Hne Hc Hsend.
    rewrite Hrow, Hid. cbn [truthy].
    rewrite bool_decide_eq_false_2 by exact Hne. cbn [negb].
    rewrite Hc, Hsend, (channels_get_id _ _ _ Hc). reflexivity.
  - intros [Hnone | (row & Hrow & Hid)].
    + rewrite Hnone. reflexivity.
    + rewrite Hrow, Hid. reflexivity.
Qed.

End Dispatch.

(** A result that is flagged and requires review at once (as the worker
    path can produce) is handled as a review. *)
Lemma review_takes_precedence_witness :
  let w := Scenario.moderated_world in
  let w' :=
    snd (MessageCreate.processImageAttachment (fun _ => "90.00"%string)
           Scenario.message_in_g1
           (Responded (Scenario.detection_with true true))
           Scenario.guild_defaults Scenario.three_guilds w) in
  users w' = users w /\
  bans w' = [] /\
  attempts w' = [] /\
  reviews w' = [{| detectionId := 0; status := review_pending |}] /\
  events w' = [MessageReact "m1"; ChannelSend "g1" "alerts" "Review Required"].
Proof.
  intros w w'.
  destruct (review_takes_precedence (fun _ => "90.00"%string)
              Scenario.message_in_g1 (Scenario.detection_with true true)
              Scenario.guild_defaults Scenario.three_guilds w)
    as (Hframe & Hreview).
  destruct (Hframe (or_introl eq_refl)) as (Hu & Hb & _ & Ha & _).
  destruct (Hreview eq_refl eq_refl) as (Hr & He & _).
  split; [exact Hu | split; [exact Hb | split; [exact Ha |
    split; [exact Hr |]]]].
  refine (He {| detectionEnabled := true; autoDelete := true;
                autoBan := true; alertChannelId := Some "alerts"%string;
                moderatorRoleIds := "" |}
             "alerts"%string
             {| channel_id := "alerts"; isTextBased := true; send := None |}
             eq_refl eq_refl _ eq_refl eq_refl).
  discriminate.
Defined.

(** C10, where the claim fails: a result that requires review, in a guild
    whose row names no alert channel, gets its review item and the
    reaction, and no moderator is notified; and when the bot may not add
    the reaction, neither the review item nor the notice is made, although
    the guild has an alert channel. *)
Lemma review_result_without_notice :
  let w1 :=
    snd (MessageCreate.processImageAttachment (fun _ => "90.00"%string)
           Scenario.message_in_g1
           (Responded (Scenario.detection_with false true))
           Scenario.guild_defaults Scenario.three_guilds
           Scenario.unalerted_world) in
  let w2 :=
    snd (MessageCreate.processImageAttachment (fun _ => "90.00"%string)
           Scenario.message_no_reaction
           (Responded (Scenario.detection_with false true))
           Scenario.guild_defaults Scenario.three_guilds
           Scenario.moderated_world) in
  (reviews w1 = [{| detectionId := 0; status := review_pending |}] /\
   events w1 = [MessageReact "m1"]) /\
  (length (detections w2) = 1%nat /\ reviews w2 = [] /\ events w2 = []).
Proof. cbn zeta. repeat split; vm_compute; reflexivity. Qed.

(** The sanction path, for comparison: flagged and no review required. *)
Example flagged_is_deleted_and_escalated :
  let w' :=
    snd (MessageCreate.processImageAttachment (fun _ => "90.00"%string)
           Scenario.message_in_g1
           (Responded (Scenario.detection_with true false))
           Scenario.guild_defaults Scenario.three_guilds
           Scenario.moderated_world) in
  Terms.current_offenses w' "u" = 1%nat /\
  reviews w' = [] /\
  events w' =
    [ MessageDelete "m1"; MembersBan "g1" "u";
      ChannelSend "g1" "alerts" "Content Detection Alert";
      ChannelSend "g1" "alerts" "Immediate action taken on detected content.";
      UserSend "u" ].
Proof. cbn zeta. repeat split; vm_compute; reflexivity. Qed.

(** timeoutManager.ts escalates in the same way: a timeout for the first
    offense, a pending_review record for the second, and no
    moderatorReview row for either. *)
Example timeout_manager_escalation :
  let w1 := snd (TimeoutManager.handleUserOffense "u" "g1" "CSAM detection"
                   Scenario.three_guilds (Some Scenario.three_guilds) 0
                   Scenario.moderated_world) in
  let w2 := snd (TimeoutManager.handleUserOffense "u" "g3" "CSAM detection"
                   Scenario.three_guilds (Some Scenario.three_guilds) 1 w1) in
  Terms.current_offenses w2 "u" = 2%nat /\
  timeouts w2 =
    [ {| to_userId := "u"; to_guildId := "g1"; to_level := 1;
         to_reason := "CSAM detection"; timeoutType := timeout_server;
         to_active := true; expiresAt := 604800000 |};
      {| to_userId := "u"; to_guildId := "g3"; to_level := 2;
         to_reason := "CSAM detection"; timeoutType := pending_review;
         to_active := false; expiresAt := 604800001 |} ] /\
  reviews w2 = [] /\
  events w2 =
    [ MemberTimeout "g1" "u" 604800000;
      ChannelSend "g1" "alerts" "Detection Alert - Level 1";
      ChannelSend "g1" "alerts" "Detection Alert - Level 2" ].
Proof. cbn zeta. repeat split; vm_compute; reflexivity. Qed.

(** * Further properties of the code *)

(** ** The block list and the similarity measure *)

Section BlockList.

Import Terms.

Lemma fold_match_step_le h1 h2 (l : list nat) (m : nat) :
  (fold_left (HashMatcher.match_step h1 h2) l m <= m + length l)%nat.
Proof.
  revert m. induction l as [| i l IH]; intros m; simpl; [lia |].
  specialize (IH (HashMatcher.match_step h1 h2 m i)).
  unfold HashMatcher.match_step in *.
  destruct (HashMatcher.char_eqb _ _); lia.
Qed.

Lemma count_matches_le h1 h2 :
  (HashMatcher.count_matches h1 h2 <= String.length h1)%nat.
Proof.
  unfold HashMatcher.count_matches.
  pose proof (fold_match_step_le h1 h2 (seq 0 (String.length h1)) 0) as H.
  rewrite length_seq in H. exact H.
Qed.

Lemma Zpos_of_nat_S k : Z.pos (Pos.of_nat (S k)) = Z.of_nat (S k).
Proof. rewrite <- Pos.of_nat_succ, Zpos_P_of_succ_nat. lia. Qed.

Lemma string_length_0 (s : string) : String.length s = 0%nat -> s = ""%string.
Proof. destruct s; [reflexivity | discriminate]. Qed.

(** What [calculateHammingDistance] returns, by cases on the lengths. *)
Lemma hamming_cases h1 h2 :
  (String.length h1 ≠ String.length h2 /\
   HashMatcher.calculateHammingDistance h1 h2 = Num 0) \/
  (h1 = ""%string /\ h2 = ""%string /\
   HashMatcher.calculateHammingDistance h1 h2 = NaN) \/
  (exists k, String.length h1 = S k /\ String.length h2 = S k /\
     HashMatcher.calculateHammingDistance h1 h2 =
       Num (Z.of_nat (HashMatcher.count_matches h1 h2) # Pos.of_nat (S k))).
Proof.
  unfold HashMatcher.calculateHammingDistance.
  destruct (decide (String.length h1 = String.length h2)) as [E | N].
  - rewrite bool_decide_eq_false_2 by (intros C; apply C; exact E).
    destruct (String.length h1) as [| k] eqn:L.
    + right; left. apply string_length_0 in L. symmetry in E.
      apply string_length_0 in E. subst. repeat split.
    + right; right. exists k. repeat split; auto.
  - left. rewrite bool_decide_eq_true_2 by exact N. split; auto.
Qed.

(** The similarity of two hashes is a number between 0 and 1, except for
    two empty hashes, where it is NaN. *)
Theorem similarity_range (h1 h2 : string) :
  (h1 = ""%string /\ h2 = ""%string /\
   HashMatcher.calculateHammingDistance h1 h2 = NaN) \/
  (exists q, HashMatcher.calculateHammingDistance h1 h2 = Num q /\
             0 <= q /\ q <= 1).
Proof.
  destruct (hamming_cases h1 h2) as [(_ & ->) | [H | (k & L1 & L2 & ->)]].
  - right. exists 0. repeat split; unfold Qle; cbn; lia.
  - left. exact H.
  - right. eexists. split; [reflexivity |].
    pose proof (count_matches_le h1 h2) as Hle. rewrite L1 in Hle.
    unfold Qle. cbn [Qnum Qden]. rewrite Zpos_of_nat_S. split; lia.
Qed.

(** A known hash is matched exactly when it has the length of the computed
    hash, that length is not 0, and the two agree in at least 19 of every
    20 positions. *)
Theorem match_threshold (h : string) (r : HashMatcher.HashDatabase) :
  reaches h r = true <->
  String.length h = String.length (HashMatcher.hd_hash r) /\
  String.length h ≠ 0%nat /\
  (19 * String.length h
   <= 20 * HashMatcher.count_matches h (HashMatcher.hd_hash r))%nat.
Proof.
  unfold reaches.
  destruct (hamming_cases h (HashMatcher.hd_hash r))
    as [(N & ->) | [(-> & E & ->) | (k & L1 & L2 & ->)]]; cbn [num_geb].
  - split; [intros C; discriminate C | intros (E & _); contradiction].
  - split; [intros C; discriminate C | intros (_ & C & _); contradiction].
  - rewrite Qle_bool_iff. unfold Qle. cbn [Qnum Qden].
    rewrite Zpos_of_nat_S, L1, L2. split.
    + intros H. repeat split; lia.
    + intros (_ & _ & H). lia.
Qed.

Lemma reaches_self h sev act :
  h ≠ ""%string ->
  reaches h {| HashMatcher.hd_hash := h; HashMatcher.hd_severity := sev;
               HashMatcher.hd_active := act |} = true.
Proof.
  intros Hne. unfold reaches. cbn [HashMatcher.hd_hash].
  destruct (hamming_cases h h) as [(N & _) | [(E & _) | (k & L1 & _ & ->)]];
    [congruence | congruence |].
  cbn [num_geb]. rewrite Qle_bool_iff. unfold Qle. cbn [Qnum Qden].
  rewrite Zpos_of_nat_S, count_matches_refl, L1. lia.
Qed.

Lemma match_loop_matched h (l : list HashMatcher.HashDatabase) :
  HashMatcher.matched (HashMatcher.match_loop h l) = true <->
  Exists (fun r => reaches h r = true) l.
Proof.
  induction l as [| r l IH]; cbn.
  - split; [discriminate | intros C; inversion C].
  - fold (reaches h r). destruct (reaches h r) eqn:Hr; cbn.
    + split; [intros _; apply Exists_cons_hd; exact Hr | reflexivity].
    + rewrite IH. split; [apply Exists_cons_tl |].
      intros C. inversion C; subst; [congruence | assumption].
Qed.

Lemma findMany_active_app t1 t2 :
  HashMatcher.findMany_active (t1 ++ t2)
  = HashMatcher.findMany_active t1 ++ HashMatcher.findMany_active t2.
Proof. unfold HashMatcher.findMany_active. apply filter_app. Qed.

(** A hash that has been added to the block list is found again: the scan
    of an image with that (non-empty) hash is a hash match, flagged with
    confidence 1.0, whatever else the list holds and whichever classifier
    is configured. *)
Theorem added_hash_is_matched
    (h source : string) (severity : HashMatcher.Severity)
    (env : DetectionPipeline.ScanEnv) :
  h ≠ ""%string ->
  DetectionPipeline.computed env = Some h ->
  let env' :=
    {| DetectionPipeline.computed := DetectionPipeline.computed env;
       DetectionPipeline.table :=
         HashStore.addKnownHash h source severity (DetectionPipeline.table env);
       DetectionPipeline.cfg := DetectionPipeline.cfg env;
       DetectionPipeline.providers := DetectionPipeline.providers env |} in
  exists r,
    DetectionPipeline.scanImage env' = (Some r, []) /\
    DetectionPipeline.flagged r = true /\
    DetectionPipeline.requiresReview r = false /\
    DetectionPipeline.confidence r = 1 /\
    DetectionPipeline.method r = "hash_match"%string.
Proof.
  intros Hne Hc env'.
  assert (Hm : HashMatcher.matched
                 (HashMatcher.match_loop h
                    (HashMatcher.findMany_active (DetectionPipeline.table env')))
               = true).
  { apply match_loop_matched. cbn. unfold HashStore.addKnownHash.
    rewrite findMany_active_app. apply Exists_app. right.
    cbn. apply Exists_cons_hd. apply reaches_self. exact Hne. }
  unfold DetectionPipeline.scanImage, HashMatcher.checkHashMatch.
  cbn [DetectionPipeline.computed env']. rewrite Hc, Hm.
  eexists. split; [reflexivity |]. repeat split.
Qed.

Lemma added_hash_is_matched_witness :
  let env :=
    Scenario.scan_of "0123456789abcdef" [Scenario.known "ffff" true]
      (Scenario.cfg_sightengine (85 # 100) (70 # 100))
      (Scenario.sightengine_says 0) in
  exists r,
    DetectionPipeline.scanImage
      {| DetectionPipeline.computed := DetectionPipeline.computed env;
         DetectionPipeline.table :=
           HashStore.addKnownHash "0123456789abcdef" "report" HashMatcher.high
             (DetectionPipeline.table env);
         DetectionPipeline.cfg := DetectionPipeline.cfg env;
         DetectionPipeline.providers := DetectionPipeline.providers env |}
      = (Some r, []) /\
    DetectionPipeline.flagged r = true /\
    DetectionPipeline.requiresReview r = false /\
    DetectionPipeline.confidence r = 1 /\
    DetectionPipeline.method r = "hash_match"%string.
Proof.
  intros env.
  apply (added_hash_is_matched "0123456789abcdef" "report" HashMatcher.high env).
  - discriminate.
  - reflexivity.
Defined.

Lemma removeHash_active (h : string) (table : list HashMatcher.HashDatabase) :
  HashMatcher.findMany_active (HashStore.removeHash h table)
  = HashMatcher.findMany_active
      (List.filter (fun r => negb (bool_decide (HashMatcher.hd_hash r = h)))
         table).
Proof.
  unfold HashMatcher.findMany_active, HashStore.removeHash.
  induction table as [| r table IH]; [reflexivity |].
  cbn [map List.filter].
  destruct (bool_decide (HashMatcher.hd_hash r = h)) eqn:E; cbn [negb].
  - rewrite filter_cons_False by (cbn; discriminate). exact IH.
  - rewrite !filter_cons. rewrite IH. reflexivity.
Qed.

(** [removeHash] deletes logically: no row is dropped and no hash or
    severity is rewritten, and from then on every look-up behaves as if
    the rows carrying that hash were not in the table. *)
Theorem removeHash_logical_delete
    (h : string) (table : list HashMatcher.HashDatabase) :
  length (HashStore.removeHash h table) = length table /\
  map HashMatcher.hd_hash (HashStore.removeHash h table)
    = map HashMatcher.hd_hash table /\
  map HashMatcher.hd_severity (HashStore.removeHash h table)
    = map HashMatcher.hd_severity table /\
  (forall r, In r (HashMatcher.findMany_active (HashStore.removeHash h table)) ->
     HashMatcher.hd_hash r ≠ h) /\
  (forall computed,
     HashMatcher.checkHashMatch computed (HashStore.removeHash h table)
     = HashMatcher.checkHashMatch computed
         (List.filter (fun r => negb (bool_decide (HashMatcher.hd_hash r = h)))
            table)).
Proof.
  repeat split.
  - unfold HashStore.removeHash. apply length_map.
  - unfold HashStore.removeHash. rewrite List.map_map. apply List.map_ext.
    intros r. destruct (bool_decide _); reflexivity.
  - unfold HashStore.removeHash. rewrite List.map_map. apply List.map_ext.
    intros r. destruct (bool_decide _); reflexivity.
  - intros r. rewrite removeHash_active.
    unfold HashMatcher.findMany_active. rewrite <- list_elem_of_In.
    rewrite list_elem_of_filter, list_elem_of_In, List.filter_In.
    intros (_ & _ & Hr). apply negb_true_iff, bool_decide_eq_false in Hr.
    exact Hr.
  - intros [c |]; [| reflexivity]. cbn. rewrite removeHash_active. reflexivity.
Qed.

End BlockList.

(** ** The scan, the classifier adapter and the worker *)

Section Classifier.

Import Terms.

Lemma detectWithAPI_shape cfg p :
  let r := ApiDetector.detectWithAPI cfg p in
  (length (snd r) <= 1)%nat /\
  (ApiDetector.provider (fst r) = "cloudflare-worker"%string \/
   ApiDetector.provider (fst r) = "sightengine"%string \/
   ApiDetector.provider (fst r) = "none"%string).
Proof.
  cbn zeta. unfold ApiDetector.detectWithAPI,
    ApiDetector.detectWithCloudflareWorker, ApiDetector.detectWithSightengine.
  destruct (truthy (workerUrl cfg)); cbn.
  - destruct (truthy (workerApiKey cfg)); cbn; [| split; [lia | auto]].
    destruct (ApiDetector.worker_reply p); cbn; split; auto.
  - destruct (sightengine cfg); cbn; [| split; [lia | auto]].
    destruct (ApiDetector.sightengine_reply p); cbn; split; auto.
Qed.

(** A scan throws exactly when the perceptual hash cannot be computed, and
    then no classifier is asked.  Otherwise it returns a result that
    carries the computed hash, after at most one classifier request, with
    one of the four methods hash_match, cloudflare-worker, sightengine and
    none; the method hash_match goes with no request at all. *)
Theorem scan_outcomes (env : DetectionPipeline.ScanEnv) :
  match DetectionPipeline.computed env with
  | None => DetectionPipeline.scanImage env = (None, [])
  | Some h =>
      exists r calls,
        DetectionPipeline.scanImage env = (Some r, calls) /\
        DetectionPipeline.hash r = h /\
        (length calls <= 1)%nat /\
        ((DetectionPipeline.method r = "hash_match"%string /\ calls = [] /\
          DetectionPipeline.apiDetection r = None) \/
         (DetectionPipeline.method r = "cloudflare-worker"%string \/
          DetectionPipeline.method r = "sightengine"%string \/
          DetectionPipeline.method r = "none"%string) /\
         DetectionPipeline.apiDetection r
           = Some (fst (ApiDetector.detectWithAPI (DetectionPipeline.cfg env)
                          (DetectionPipeline.providers env))))
  end.
Proof.
  unfold DetectionPipeline.scanImage, HashMatcher.checkHashMatch.
  destruct (DetectionPipeline.computed env) as [h |]; [| reflexivity].
  assert (Hh : forall l, HashMatcher.hash (HashMatcher.match_loop h l) = h).
  { induction l as [| r l IH]; cbn; [reflexivity |].
    destruct (num_geb _ _); [reflexivity | exact IH]. }
  destruct (HashMatcher.matched _) eqn:Hm.
  - eexists _, _. split; [reflexivity |]. cbn. rewrite Hh.
    repeat split; auto.
  - pose proof (detectWithAPI_shape (DetectionPipeline.cfg env)
                  (DetectionPipeline.providers env)) as Hs. cbn zeta in Hs.
    destruct (ApiDetector.detectWithAPI _ _) as [r calls]. cbn in Hs.
    destruct Hs as (Hlen & Hp).
    eexists _, _. split; [reflexivity |]. cbn. rewrite Hh.
    repeat split; auto.
Qed.

(** One provider per request and no fallback: when a worker URL is
    configured the Sightengine service is never asked, not even when the
    worker fails or lacks its key, and its answer has no bearing on the
    result; at most one request is made. *)
Theorem worker_has_no_fallback
    (cfg : DetectionConfig) (p p' : ApiDetector.Providers) :
  truthy (workerUrl cfg) = true ->
  ApiDetector.worker_reply p' = ApiDetector.worker_reply p ->
  ApiDetector.detectWithAPI cfg p' = ApiDetector.detectWithAPI cfg p /\
  ApiDetector.provider (fst (ApiDetector.detectWithAPI cfg p))
    = "cloudflare-worker"%string /\
  ~ In ApiDetector.CallSightengine (snd (ApiDetector.detectWithAPI cfg p)) /\
  (length (snd (ApiDetector.detectWithAPI cfg p)) <= 1)%nat.
Proof.
  intros Hu Hr. unfold ApiDetector.detectWithAPI,
    ApiDetector.detectWithCloudflareWorker. rewrite Hu, Hr. cbn.
  destruct (truthy (workerApiKey cfg)); cbn.
  - destruct (ApiDetector.worker_reply p); cbn; repeat split; auto;
      intros [C | C]; [discriminate C | exact C | discriminate C | exact C].
  - repeat split; auto.
Qed.

(** The worker is down while Sightengine would have answered 0.99: the
    result is the worker's failure. *)
Lemma worker_has_no_fallback_witness :
  let cfg :=
    {| workerUrl := Some "https://worker.example"%string;
       workerApiKey := Some "key"%string;
       sightengine := Some {| apiUser := "user"; apiSecret := "secret" |};
       detectionThreshold := 85 # 100; reviewThreshold := 70 # 100;
       maxConcurrentScans := 2; imageMaxSizeMB := 10 |} in
  let p :=
    {| ApiDetector.worker_reply := Threw "Network Error";
       ApiDetector.sightengine_reply :=
         Responded {| ApiDetector.sexual_activity := Some (99 # 100);
                      ApiDetector.sexual_display := None;
                      ApiDetector.offensive_prob := None |} |} in
  ApiDetector.detectWithAPI cfg p
    = (ApiDetector.failed "cloudflare-worker" "Network Error",
       [ApiDetector.CallWorker]).
Proof.
  intros cfg p.
  destruct (worker_has_no_fallback cfg
              {| ApiDetector.worker_reply := Threw "Network Error";
                 ApiDetector.sightengine_reply := Scenario.no_reply |}
              p eq_refl eq_refl) as (Hsame & _).
  rewrite Hsame. reflexivity.
Defined.

Lemma Math_max_cases a b :
  (a <= b /\ ApiDetector.Math_max a b = b) \/
  (b < a /\ ApiDetector.Math_max a b = a).
Proof.
  unfold ApiDetector.Math_max. destruct (Qle_bool a b) eqn:E.
  - left. split; [apply Qle_bool_iff; exact E | reflexivity].
  - right. split; [| reflexivity].
    apply Qnot_le_lt. intros C. apply Qle_bool_iff in C. congruence.
Qed.

(** The confidence Sightengine's answer is turned into: the larger of the
    nudity score and the offensive score, where the nudity score is
    [sexual_activity] unless that is missing or 0, and only then
    [sexual_display]; a larger [sexual_display] beside a non-zero
    [sexual_activity] does not count.  The result is detected exactly when
    that confidence is above the configured detection threshold. *)
Theorem sightengine_confidence
    (cfg : DetectionConfig) (p : ApiDetector.Providers)
    (s : Sightengine) (data : ApiDetector.SightengineData) :
  sightengine cfg = Some s ->
  ApiDetector.sightengine_reply p = Responded data ->
  let r := fst (ApiDetector.detectWithSightengine cfg p) in
  let offensive := ApiDetector.num_or (ApiDetector.offensive_prob data) 0 in
  ApiDetector.error r = None /\
  offensive <= ApiDetector.confidence r /\
  (forall a, ApiDetector.sexual_activity data = Some a -> ~ a == 0 ->
     a <= ApiDetector.confidence r /\
     (ApiDetector.confidence r = a \/ ApiDetector.confidence r = offensive)) /\
  ((ApiDetector.sexual_activity data = None \/
    exists a, ApiDetector.sexual_activity data = Some a /\ a == 0) ->
     ApiDetector.confidence r
       = ApiDetector.Math_max
           (ApiDetector.num_or (ApiDetector.sexual_display data) 0)
           offensive) /\
  (ApiDetector.detected r = true <->
   detectionThreshold cfg < ApiDetector.confidence r).
Proof.
  intros Hs Hr. cbn zeta. unfold ApiDetector.detectWithSightengine.
  rewrite Hs, Hr. cbn.
  set (offensive := ApiDetector.num_or (ApiDetector.offensive_prob data) 0).
  repeat split.
  - destruct (Math_max_cases
                (ApiDetector.num_or (ApiDetector.sexual_activity data)
                   (ApiDetector.num_or (ApiDetector.sexual_display data) 0))
                offensive) as [(H & ->) | (H & ->)];
      [apply Qle_refl | apply Qlt_le_weak; exact H].
  - rewrite H.
    assert (E : Qeq_bool a 0 = false).
    { destruct (Qeq_bool a 0) eqn:E; [| reflexivity].
      apply Qeq_bool_iff in E. contradiction. }
    cbn [ApiDetector.num_or]. rewrite E.
    destruct (Math_max_cases a offensive) as [(Hle & ->) | (Hlt & ->)];
      [exact Hle | apply Qle_refl].
  - rewrite H.
    assert (E : Qeq_bool a 0 = false).
    { destruct (Qeq_bool a 0) eqn:E; [| reflexivity].
      apply Qeq_bool_iff in E. contradiction. }
    cbn [ApiDetector.num_or]. rewrite E.
    destruct (Math_max_cases a offensive) as [(Hle & ->) | (Hlt & ->)]; auto.
  - intros [-> | (a & -> & Ha)]; cbn [ApiDetector.num_or]; [reflexivity |].
    apply Qeq_bool_iff in Ha. rewrite Ha. reflexivity.
  - apply Qgtb_lt.
  - apply Qgtb_lt.
Qed.

Lemma sightengine_confidence_witness :
  let cfg := Scenario.cfg_sightengine (85 # 100) (70 # 100) in
  let p :=
    {| ApiDetector.worker_reply := Scenario.no_reply;
       ApiDetector.sightengine_reply :=
         Responded {| ApiDetector.sexual_activity := Some (10 # 100);
                      ApiDetector.sexual_display := Some (95 # 100);
                      ApiDetector.offensive_prob := Some (5 # 100) |} |} in
  let r := fst (ApiDetector.detectWithSightengine cfg p) in
  ApiDetector.confidence r = 10 # 100 \/ ApiDetector.confidence r = 5 # 100.
Proof.
  intros cfg p r.
  destruct (sightengine_confidence cfg p
              {| apiUser := "user"; apiSecret := "secret" |}
              {| ApiDetector.sexual_activity := Some (10 # 100);
                 ApiDetector.sexual_display := Some (95 # 100);
                 ApiDetector.offensive_prob := Some (5 # 100) |}
              eq_refl eq_refl) as (_ & _ & Hact & _).
  destruct (Hact (10 # 100) eq_refl) as (_ & Hc); [discriminate |].
  exact Hc.
Defined.

Lemma filter_head_find {A} (f : A -> bool) (l : list A) :
  hd_error (List.filter f l) = List.find f l.
Proof.
  induction l as [| x l IH]; [reflexivity |]. cbn.
  destruct (f x); [reflexivity | exact IH].
Qed.

(** The worker's verdict rests on the first NSFW-like label of the model's
    answer alone: the confidence is that label's score (0 when there is
    none), whatever the later labels score, and the image is detected
    exactly when that score is above 0.85.  When the image cannot be
    fetched or the model's request fails, the answer carries the error and
    is not detected, with confidence 0. *)
Theorem worker_verdict (env : Worker.Env) :
  let r := Worker.detectImage env in
  match Worker.image_ok env, Worker.ai_reply env with
  | true, Responded result =>
      Worker.error r = None /\
      Worker.confidence r
        = match List.find Worker.is_nsfw result with
          | Some first => Worker.score first
          | None => 0
          end /\
      (Worker.detected r = true <-> 85 # 100 < Worker.confidence r)
  | _, _ =>
      Worker.error r ≠ None /\
      Worker.detected r = false /\
      Worker.confidence r = 0
  end.
Proof.
  cbn zeta. unfold Worker.detectImage.
  destruct (Worker.image_ok env); cbn; [| repeat split; discriminate].
  destruct (Worker.ai_reply env) as [result | e]; cbn;
    [| repeat split; discriminate].
  rewrite <- filter_head_find.
  destruct (List.filter Worker.is_nsfw result); cbn;
    repeat split; apply Qgtb_lt.
Qed.

(** The worker runs a detection, and answers with one, only for a POST
    that carries the configured API key, not empty, and a non-empty
    [imageUrl]; every such answer has status 200.  A request without the
    key gets 401 whatever its body; only the OPTIONS pre-flight is answered
    without it, with an empty body. *)
Theorem worker_requires_key
    (request : WorkerHandler.Request) (API_KEY : string)
    (network : string -> Worker.Env) :
  let response := WorkerHandler.fetch request API_KEY network in
  (forall result,
     WorkerHandler.payload response = WorkerHandler.detection_body result ->
     WorkerHandler.status response = 200%nat /\
     WorkerHandler.method request = "POST"%string /\
     WorkerHandler.x_api_key request = Some API_KEY /\
     API_KEY ≠ ""%string /\
     exists imageUrl,
       WorkerHandler.body request = Responded (Some imageUrl) /\
       imageUrl ≠ ""%string /\
       result = Worker.detectImage (network imageUrl)) /\
  (WorkerHandler.method request = "POST"%string ->
   WorkerHandler.x_api_key request ≠ Some API_KEY ->
   response = {| WorkerHandler.status := 401;
                 WorkerHandler.payload :=
                   WorkerHandler.error_body "Unauthorized" None |}) /\
  (WorkerHandler.method request = "OPTIONS"%string ->
   response = {| WorkerHandler.status := 200;
                 WorkerHandler.payload := WorkerHandler.no_body |}).
Proof.
  cbn zeta. unfold WorkerHandler.fetch. repeat split.
  - revert H. repeat case_bool_decide; cbn; try discriminate.
    all: destruct (WorkerHandler.x_api_key request) as [k |]; cbn;
      try discriminate.
    all: destruct (WorkerHandler.body request) as [u | e]; cbn;
      repeat (case_bool_decide; cbn); try discriminate.
    all: destruct u as [u |]; cbn; repeat (case_bool_decide; cbn);
      try discriminate; reflexivity.
  - revert H. repeat case_bool_decide; cbn; try discriminate; auto.
    all: destruct (WorkerHandler.x_api_key request) as [k |]; cbn;
      repeat (case_bool_decide; cbn); try discriminate.
    all: destruct (WorkerHandler.body request) as [[u |] | e]; cbn;
      repeat (case_bool_decide; cbn); discriminate.
  - revert H. repeat case_bool_decide; cbn; try discriminate; auto.
    all: destruct (WorkerHandler.x_api_key request) as [k |]; cbn;
      repeat (case_bool_decide; cbn); try discriminate; try congruence.
    all: destruct (WorkerHandler.body request) as [[u |] | e]; cbn;
      repeat (case_bool_decide; cbn); try discriminate; congruence.
  - revert H. repeat case_bool_decide; cbn; try discriminate.
    all: destruct (WorkerHandler.x_api_key request) as [k |]; cbn;
      repeat (case_bool_decide; cbn); try discriminate; try congruence.
    all: destruct (WorkerHandler.body request) as [[u |] | e]; cbn;
      repeat (case_bool_decide; cbn); try discriminate; congruence.
  - revert H. repeat case_bool_decide; cbn; try discriminate.
    all: destruct (WorkerHandler.x_api_key request) as [k |]; cbn;
      repeat (case_bool_decide; cbn); try discriminate.
    all: destruct (WorkerHandler.body request) as [[u |] | e]; cbn;
      repeat (case_bool_decide; cbn); try discriminate.
    all: intros [= <-]; exists u; repeat split; auto.
  - intros Hm Hk. rewrite Hm. cbn.
    rewrite (bool_decide_eq_false_2 _ Hk), orb_true_r. reflexivity.
  - intros ->. reflexivity.
Qed.

End Classifier.

(** ** The scan scheduler, continued *)

Section SchedulerMore.

Import DetectionQueue Terms.

Context {QueueItem : Type}.

Implicit Types (s : state QueueItem) (sys : system QueueItem).

Lemma step_keeps_busy (N : nat) sys sys' :
  scheduler_inv N sys ->
  (queue _ (q _ sys) ≠ [] -> length (executing _ sys) = N) ->
  step _ N sys sys' ->
  queue _ (q _ sys') ≠ [] -> length (executing _ sys') = N.
Proof.
  intros (Hle & Hp & Hs) Hbusy Hstep.
  destruct Hstep as [item sys | i item sys Hi]; unfold start_scan, add, settle.
  - match goal with |- context [processNext _ N ?s] =>
      destruct (processNext_cases N s) as [E | (it & rest & Hq & Hlt & E)];
        rewrite E
    end; cbn in *.
    + unfold processNext in E. cbn in E.
      destruct (Z.leb_spec (Z.of_nat N) (processing _ (q _ sys))) as [Hge | Hlt].
      * intros _. rewrite app_nil_r. lia.
      * rewrite length_app in E. cbn in E.
        replace (length (queue _ (q _ sys)) + 1 =? 0)%nat with false in E
          by (symmetry; apply Nat.eqb_neq; lia).
        cbn in E. destruct (queue _ (q _ sys) ++ [item]) eqn:Hq;
          [apply app_eq_nil in Hq as [_ C]; discriminate C |].
        inversion E.
    + intros Hrest. rewrite length_app. cbn.
      destruct (queue _ (q _ sys)) as [| x xs] eqn:Hqs.
      * cbn in Hq. inversion Hq; subst. contradiction.
      * assert (length (executing _ sys) = N) by (apply Hbusy; discriminate).
        lia.
  - apply lookup_lt_Some in Hi as Hlt.
    assert (Hlen : length (delete i (executing _ sys))
                   = (length (executing _ sys) - 1)%nat).
    { rewrite length_delete; [reflexivity | eauto]. }
    match goal with |- context [processNext _ N ?s] =>
      destruct (processNext_cases N s) as [E | (it & rest & Hq & Hlt' & E)];
        rewrite E
    end; cbn in *.
    + intros Hne. specialize (Hbusy Hne).
      unfold processNext in E. cbn in E.
      destruct (Z.leb_spec (Z.of_nat N) (processing _ (q _ sys) - 1)) as [Hge | Hl];
        [lia |].
      destruct (queue _ (q _ sys)) as [| x xs]; [contradiction |].
      cbn in E. inversion E.
    + intros _. rewrite length_app, Hlen. cbn.
      assert (length (executing _ sys) = N)
        by (apply Hbusy; rewrite Hq; discriminate).
      lia.
Qed.

Lemma reachable_busy (N : nat) sys :
  reachable _ N sys ->
  queue _ (q _ sys) ≠ [] -> length (executing _ sys) = N.
Proof.
  unfold reachable. intros H.
  apply rtc_ind_r with (x := initial QueueItem)
    (P := fun y => scheduler_inv N y /\
                   (queue _ (q _ y) ≠ [] -> length (executing _ y) = N)) in H.
  - apply H.
  - split; [unfold scheduler_inv; cbn; repeat split; lia |].
    cbn. intros C. contradiction.
  - intros y z _ Hstep (Hinv & Hbusy). split.
    + eapply step_inv; eauto.
    + eapply step_keeps_busy; eauto.
Qed.

(** The scheduler never idles while a request waits: in every state it
    can reach, a non-empty queue means that all [maxConcurrentScans] slots
    are taken.  A request therefore waits only behind as many executing
    scans as the bound allows. *)
Theorem scheduler_never_idles (maxConcurrentScans : nat) sys :
  reachable _ maxConcurrentScans sys ->
  queue _ (q _ sys) ≠ [] ->
  length (executing _ sys) = maxConcurrentScans /\
  processing _ (q _ sys) = Z.of_nat maxConcurrentScans.
Proof.
  intros Hreach Hq. pose proof (reachable_busy _ _ Hreach Hq) as Hbusy.
  destruct (reachable_inv _ _ Hreach) as (_ & Hp & _).
  split; [exact Hbusy | rewrite Hp, Hbusy; reflexivity].
Qed.

Lemma zero_slots_inv sys :
  reachable _ 0 sys ->
  admissions _ sys = [] /\ executing _ sys = [] /\
  queue _ (q _ sys) = submitted _ sys /\ processing _ (q _ sys) = 0%Z.
Proof.
  unfold reachable. intros H.
  apply rtc_ind_r with (x := initial QueueItem)
    (P := fun y => admissions _ y = [] /\ executing _ y = [] /\
                   queue _ (q _ y) = submitted _ y /\
                   processing _ (q _ y) = 0%Z) in H.
  - exact H.
  - repeat split.
  - intros y z _ Hstep (Ha & He & Hq & Hp).
    destruct Hstep as [item sys' | i item sys' Hi].
    + unfold start_scan, add, processNext. cbn. rewrite Hp. cbn.
      rewrite Ha, He, Hq. repeat split.
    + rewrite He in Hi. discriminate Hi.
Qed.

(** With [maxConcurrentScans] set to 0 no scan is ever started: whatever
    is submitted stays in the queue, in order, and nothing executes. *)
Theorem zero_slots_start_nothing sys :
  reachable _ 0 sys ->
  admissions _ sys = [] /\ executing _ sys = [] /\
  queue _ (q _ sys) = submitted _ sys.
Proof.
  intros H. destruct (zero_slots_inv sys H) as (Ha & He & Hq & _). auto.
Qed.

End SchedulerMore.

Lemma scheduler_never_idles_witness :
  let sys :=
    {| DetectionQueue.q :=
         {| DetectionQueue.queue := ["c.png"%string];
            DetectionQueue.processing := 2 |};
       DetectionQueue.executing := ["a.png"; "b.png"]%string;
       DetectionQueue.submitted := ["a.png"; "b.png"; "c.png"]%string;
       DetectionQueue.admissions := ["a.png"; "b.png"]%string |} in
  length (DetectionQueue.executing _ sys) = 2%nat /\
  DetectionQueue.processing _ (DetectionQueue.q _ sys) = 2%Z.
Proof.
  intros sys. apply (scheduler_never_idles 2 sys).
  - unfold DetectionQueue.reachable.
    eapply rtc_l; [apply (DetectionQueue.step_add _ 2 "a.png"%string) |].
    eapply rtc_l; [apply (DetectionQueue.step_add _ 2 "b.png"%string) |].
    eapply rtc_l; [apply (DetectionQueue.step_add _ 2 "c.png"%string) |].
    apply rtc_refl.
  - discriminate.
Defined.

Lemma zero_slots_start_nothing_witness :
  let sys :=
    {| DetectionQueue.q :=
         {| DetectionQueue.queue := ["a.png"; "b.png"]%string;
            DetectionQueue.processing := 0 |};
       DetectionQueue.executing := [];
       DetectionQueue.submitted := ["a.png"; "b.png"]%string;
       DetectionQueue.admissions := [] |} in
  DetectionQueue.admissions _ sys = [] /\
  DetectionQueue.executing _ sys = [] /\
  DetectionQueue.queue _ (DetectionQueue.q _ sys)
    = DetectionQueue.submitted _ sys.
Proof.
  intros sys. apply (zero_slots_start_nothing sys).
  unfold DetectionQueue.reachable.
  eapply rtc_l; [apply (DetectionQueue.step_add _ 0 "a.png"%string) |].
  eapply rtc_l; [apply (DetectionQueue.step_add _ 0 "b.png"%string) |].
  apply rtc_refl.
Defined.

(** ** Approval, rejection and enforcement on join, continued *)

Section ModerationMore.

Import Terms.

Local Close Scope Q_scope.

(** The world a successful approval leaves. *)
Lemma approveGlobalBan_run banId moderatorId client w ban u :
  bans w !! banId = Some ban ->
  banType ban = global_pending ->
  users w !! ban_userId ban = Some u ->
  BanManager.approveGlobalBan banId moderatorId client w =
    (Ok true,
     set_events (fun l => l ++ bans_done (guilds_cache client) (ban_userId ban))
       (set_attempts
          (fun l => l ++ ban_attempts (guilds_cache client) (ban_userId ban))
          (set_users (insert (ban_userId ban) (globally_banned u))
             (set_bans (alter approved banId) w)))).
Proof.
  intros Hb Hpending Hu.
  unfold BanManager.approveGlobalBan. run. cbn. rewrite Hb.
  rewrite bool_decide_eq_true_2 by exact Hpending. cbn. rewrite Hu. cbn.
  rewrite ban_everywhere_spec. reflexivity.
Qed.

Lemma approveGlobalBan_refused banId moderatorId client w :
  (bans w !! banId = None \/
   exists ban, bans w !! banId = Some ban /\ banType ban ≠ global_pending) ->
  BanManager.approveGlobalBan banId moderatorId client w = (Ok false, w).
Proof.
  intros H. unfold BanManager.approveGlobalBan. run. cbn.
  destruct H as [-> | (ban & -> & Hk)]; [reflexivity |].
  rewrite bool_decide_eq_false_2 by exact Hk. reflexivity.
Qed.

Lemma checkAndEnforceGlobalBan_run userId guild w :
  BanManager.checkAndEnforceGlobalBan userId guild w =
    match users w !! userId with
    | Some user =>
        if globallyBanned user
        then match members_ban guild userId with
             | None =>
                 (Ok true,
                  set_events (fun l => l ++ [MembersBan (guild_id guild) userId])
                    (set_attempts
                       (fun l => l ++ [TryBan (guild_id guild) userId]) w))
             | Some _ =>
                 (Ok false,
                  set_attempts
                    (fun l => l ++ [TryBan (guild_id guild) userId]) w)
             end
        else (Ok false, w)
    | None => (Ok false, w)
    end.
Proof.
  unfold BanManager.checkAndEnforceGlobalBan. run. cbn.
  destruct (users w !! userId) as [user |]; [| reflexivity].
  destruct (globallyBanned user); [| reflexivity]. cbn.
  destruct (members_ban guild userId); reflexivity.
Qed.

(** Only a pending record can be approved, and only once.  Approving an
    id that names no record, or a record that is not pending, returns
    false and changes nothing; so does a second approval after a
    successful one: no table is written and no ban is requested again.
    Rejecting an id that names no record returns false and changes
    nothing. *)
Theorem approval_only_of_pending
    (banId : nat) (moderatorId notes : string) (client : Client) (w : World) :
  ((bans w !! banId = None \/
    exists ban, bans w !! banId = Some ban /\ banType ban ≠ global_pending) ->
   BanManager.approveGlobalBan banId moderatorId client w = (Ok false, w)) /\
  (forall ban u,
     bans w !! banId = Some ban ->
     banType ban = global_pending ->
     users w !! ban_userId ban = Some u ->
     let w' := snd (BanManager.approveGlobalBan banId moderatorId client w) in
     BanManager.approveGlobalBan banId moderatorId client w' = (Ok false, w')) /\
  (bans w !! banId = None ->
   BanManager.rejectGlobalBan banId moderatorId notes w = (Ok false, w)).
Proof.
  split; [apply approveGlobalBan_refused | split].
  - intros ban u Hb Hp Hu. cbn zeta.
    rewrite (approveGlobalBan_run _ _ _ _ _ _ Hb Hp Hu). cbn [snd].
    apply approveGlobalBan_refused. right. exists (approved ban). split.
    + cbn. rewrite list_lookup_alter, Hb.
      case_decide; [reflexivity | congruence].
    + discriminate.
  - intros Hb. unfold BanManager.rejectGlobalBan. run. cbn. rewrite Hb.
    reflexivity.
Qed.

Lemma approval_only_of_pending_witness :
  let w := Scenario.offender_world in
  let w' :=
    snd (BanManager.approveGlobalBan 1 "moderator" Scenario.three_guilds w) in
  BanManager.approveGlobalBan 0 "moderator" Scenario.three_guilds w
    = (Ok false, w) /\
  BanManager.approveGlobalBan 1 "moderator" Scenario.three_guilds w'
    = (Ok false, w') /\
  BanManager.rejectGlobalBan 7 "moderator" "no" w = (Ok false, w).
Proof.
  intros w w'.
  destruct (approval_only_of_pending 0 "moderator" "no"
              Scenario.three_guilds w) as (Hrefused & _ & _).
  destruct (approval_only_of_pending 1 "moderator" "no"
              Scenario.three_guilds w) as (_ & Honce & _).
  destruct (approval_only_of_pending 7 "moderator" "no"
              Scenario.three_guilds w) as (_ & _ & Hmissing).
  split; [| split].
  - apply Hrefused. right. eexists. split; [reflexivity | discriminate].
  - apply (Honce
             {| ban_userId := "u"; ban_guildId := "g3"; ban_level := 2;
                ban_reason := "CSAM detection"; banType := global_pending;
                ban_active := false |} Scenario.offender);
      reflexivity.
  - apply Hmissing. reflexivity.
Defined.

(** Enforcement on join: a ban is requested in the guild exactly when the
    joining user is on record as globally banned; the call reports
    whether that request went through, never throws, and writes to no
    table. *)
Theorem join_enforcement (userId : string) (guild : Guild) (w : World) :
  let r := BanManager.checkAndEnforceGlobalBan userId guild w in
  let banned :=
    match users w !! userId with
    | Some user => globallyBanned user
    | None => false
    end in
  users (snd r) = users w /\ bans (snd r) = bans w /\
  timeouts (snd r) = timeouts w /\
  attempts (snd r)
    = attempts w ++ (if banned then [TryBan (guild_id guild) userId] else []) /\
  fst r = Ok (banned && bool_decide (members_ban guild userId = None)) /\
  events (snd r)
    = events w ++
      (if banned && bool_decide (members_ban guild userId = None)
       then [MembersBan (guild_id guild) userId] else []).
Proof.
  cbn zeta. rewrite checkAndEnforceGlobalBan_run.
  destruct (users w !! userId) as [user |]; cbn;
    [| rewrite !app_nil_r; repeat split].
  destruct (globallyBanned user); cbn; [| rewrite !app_nil_r; repeat split].
  destruct (members_ban guild userId); cbn; rewrite ?app_nil_r; repeat split.
Qed.

(** Once a global ban is approved the user is banned on joining any guild,
    also one the fan-out did not reach or failed in. *)
Theorem approved_ban_enforced_on_join
    (banId : nat) (moderatorId : string) (client : Client) (w : World)
    (ban : Ban) (u : User) (guild : Guild) :
  bans w !! banId = Some ban ->
  banType ban = global_pending ->
  users w !! ban_userId ban = Some u ->
  let w' := snd (BanManager.approveGlobalBan banId moderatorId client w) in
  let r := BanManager.checkAndEnforceGlobalBan (ban_userId ban) guild w' in
  attempts (snd r)
    = attempts w' ++ [TryBan (guild_id guild) (ban_userId ban)] /\
  fst r = Ok (bool_decide (members_ban guild (ban_userId ban) = None)).
Proof.
  intros Hb Hp Hu. cbn zeta.
  rewrite (approveGlobalBan_run _ _ _ _ _ _ Hb Hp Hu). cbn [snd].
  rewrite checkAndEnforceGlobalBan_run. cbn. rewrite lookup_insert_eq. cbn.
  destruct (members_ban guild (ban_userId ban)); cbn; repeat split.
Qed.

Lemma approved_ban_enforced_on_join_witness :
  let w' :=
    snd (BanManager.approveGlobalBan 1 "moderator" Scenario.three_guilds
           Scenario.offender_world) in
  let r :=
    BanManager.checkAndEnforceGlobalBan "u" (Scenario.guild_of "g4" None) w' in
  attempts (snd r) = attempts w' ++ [TryBan "g4" "u"] /\
  fst r = Ok true.
Proof.
  intros w' r.
  apply (approved_ban_enforced_on_join 1 "moderator" Scenario.three_guilds
           Scenario.offender_world
           {| ban_userId := "u"; ban_guildId := "g3"; ban_level := 2;
              ban_reason := "CSAM detection"; banType := global_pending;
              ban_active := false |}
           Scenario.offender (Scenario.guild_of "g4" None));
    reflexivity.
Defined.

(** Rejection does not undo an approval: rejecting a record that has been
    approved marks it rejected and not active, but the user stays on
    record as globally banned, no unban is requested, and the user is
    still banned on joining a guild. *)
Theorem rejection_after_approval
    (banId : nat) (moderatorId notes : string) (client : Client) (w : World)
    (ban : Ban) (u : User) (guild : Guild) :
  bans w !! banId = Some ban ->
  banType ban = global_pending ->
  users w !! ban_userId ban = Some u ->
  let w1 := snd (BanManager.approveGlobalBan banId moderatorId client w) in
  let r2 := BanManager.rejectGlobalBan banId moderatorId notes w1 in
  fst r2 = Ok true /\
  bans (snd r2) !! banId = Some (rejected ban) /\
  users (snd r2) !! ban_userId ban = Some (globally_banned u) /\
  events (snd r2) = events w1 /\
  attempts (snd r2) = attempts w1 /\
  attempts (snd (BanManager.checkAndEnforceGlobalBan (ban_userId ban) guild
                   (snd r2)))
    = attempts w1 ++ [TryBan (guild_id guild) (ban_userId ban)].
Proof.
  intros Hb Hp Hu. cbn zeta.
  rewrite (approveGlobalBan_run _ _ _ _ _ _ Hb Hp Hu). cbn [snd].
  unfold BanManager.rejectGlobalBan. run. cbn.
  assert (Hrec : alter approved banId (bans w) !! banId = Some (approved ban)).
  { rewrite list_lookup_alter, Hb. case_decide; [reflexivity | congruence]. }
  rewrite Hrec. cbn. repeat split.
  - rewrite list_lookup_alter, Hrec. case_decide; [reflexivity | congruence].
  - apply lookup_insert_eq.
  - rewrite checkAndEnforceGlobalBan_run. cbn. rewrite lookup_insert_eq. cbn.
    destruct (members_ban guild (ban_userId ban)); reflexivity.
Qed.

Lemma rejection_after_approval_witness :
  let w1 :=
    snd (BanManager.approveGlobalBan 1 "moderator" Scenario.three_guilds
           Scenario.offender_world) in
  let r2 := BanManager.rejectGlobalBan 1 "moderator" "mistake" w1 in
  fst r2 = Ok true /\
  users (snd r2) !! "u"
    = Some {| username := "Unknown"; discriminator := "0000";
              offenseCount := 2; globallyBanned := true |} /\
  attempts (snd r2) = attempts w1.
Proof.
  intros w1 r2.
  destruct (rejection_after_approval 1 "moderator" "mistake"
              Scenario.three_guilds Scenario.offender_world
              {| ban_userId := "u"; ban_guildId := "g3"; ban_level := 2;
                 ban_reason := "CSAM detection"; banType := global_pending;
                 ban_active := false |}
              Scenario.offender (Scenario.guild_of "g4" None)
              eq_refl eq_refl eq_refl)
    as (Hok & _ & Hu & _ & Ha & _).
  split; [exact Hok | split; [exact Hu | exact Ha]].
Defined.

End ModerationMore.

(** ** Offense escalation, continued *)

Section EscalationMore.

Import Terms.

Local Close Scope Q_scope.

Lemma handleUserOffense_later userId guildId reason client w u :
  users w !! userId = Some u ->
  1 <= offenseCount u ->
  BanManager.handleUserOffense userId guildId reason client w =
    (Ok {| BanManager.success := true; BanManager.level := 2;
           BanManager.requiresModeratorReview := true;
           BanManager.message :=
             "User queued for global ban (requires moderator approval)" |},
     set_bans (fun t => t ++
       [{| ban_userId := userId; ban_guildId := guildId; ban_level := 2;
           ban_reason := reason; banType := global_pending;
           ban_active := false |}])
       (set_users (insert userId
          {| username := username u; discriminator := discriminator u;
             offenseCount := offenseCount u + 1;
             globallyBanned := globallyBanned u |}) w)).
Proof.
  intros Hu Hc. unfold BanManager.handleUserOffense. run. cbn.
  rewrite Hu. cbn. rewrite Hu. cbn.
  destruct (Nat.eqb_spec (offenseCount u + 1) 1) as [E | E]; [lia |].
  unfold BanManager.queueForGlobalBan. run. reflexivity.
Qed.

(** Every offense after the first is queued, never sanctioned: for a user
    with at least one offense on record (globally banned or not), any
    series of further offenses adds one to the offense count and one
    pending level-2 record per offense, in order, requests no ban and
    leaves the user's global-ban flag as it was. *)
Theorem later_offenses_are_queued
    (userId reason : string) (client : Client) (guilds : list string)
    (w : World) (u : User) :
  users w !! userId = Some u ->
  1 <= offenseCount u ->
  let w' :=
    fold_left
      (fun w guildId =>
         snd (BanManager.handleUserOffense userId guildId reason client w))
      guilds w in
  users w' !! userId =
    Some {| username := username u; discriminator := discriminator u;
            offenseCount := offenseCount u + length guilds;
            globallyBanned := globallyBanned u |} /\
  bans w' = bans w ++
    map (fun guildId =>
           {| ban_userId := userId; ban_guildId := guildId; ban_level := 2;
              ban_reason := reason; banType := global_pending;
              ban_active := false |}) guilds /\
  events w' = events w /\
  attempts w' = attempts w.
Proof.
  cbn zeta. revert w u.
  induction guilds as [| g guilds IH]; intros w u Hu Hc.
  - cbn. rewrite Hu, app_nil_r, Nat.add_0_r. destruct u. repeat split.
  - cbn [fold_left]. rewrite (handleUserOffense_later _ _ _ _ _ _ Hu Hc).
    cbn [snd].
    match goal with |- context [fold_left _ guilds ?w1] =>
      destruct (IH w1
                  {| username := username u; discriminator := discriminator u;
                     offenseCount := offenseCount u + 1;
                     globallyBanned := globallyBanned u |})
        as (Hu' & Hb' & He' & Ha')
    end.
    + cbn. apply lookup_insert_eq.
    + cbn. lia.
    + cbn in *. rewrite Hu', Hb', He', Ha'. repeat split.
      * do 2 f_equal. cbn. lia.
      * rewrite <- app_assoc. reflexivity.
Qed.

Lemma later_offenses_are_queued_witness :
  let w' :=
    fold_left
      (fun w guildId =>
         snd (BanManager.handleUserOffense "u" guildId "CSAM detection"
                Scenario.three_guilds w))
      ["g1"; "g3"]%string Scenario.offender_world in
  users w' !! "u" =
    Some {| username := "Unknown"; discriminator := "0000";
            offenseCount := 4; globallyBanned := false |} /\
  length (bans w') = 4 /\
  attempts w' = [].
Proof.
  intros w'.
  destruct (later_offenses_are_queued "u" "CSAM detection"
              Scenario.three_guilds ["g1"; "g3"]%string
              Scenario.offender_world Scenario.offender eq_refl)
    as (Hu & Hb & _ & Ha); [cbn; lia |].
  split; [exact Hu | split; [| exact Ha]].
  fold w' in Hb. rewrite Hb. reflexivity.
Defined.

(** An offense touches one user and appends: the rows of all other users
    stay as they are, the user's global-ban flag is not changed, the ban
    table keeps every row it had and gains at most one, and the timeout,
    detection and review tables are not written.  The call itself never
    throws. *)
Theorem offense_is_local
    (userId guildId reason : string) (client : Client) (w : World) :
  let r := BanManager.handleUserOffense userId guildId reason client w in
  (exists result, fst r = Ok result) /\
  (forall other, other ≠ userId -> users (snd r) !! other = users w !! other) /\
  (exists u', users (snd r) !! userId = Some u' /\
     globallyBanned u'
       = match users w !! userId with
         | Some u => globallyBanned u
         | None => false
         end) /\
  (exists new, bans (snd r) = bans w ++ new /\ length new <= 1) /\
  timeouts (snd r) = timeouts w /\
  detections (snd r) = detections w /\
  reviews (snd r) = reviews w.
Proof.
  cbn zeta. unfold BanManager.handleUserOffense. run. cbn.
  destruct (users w !! userId) as [u |] eqn:Hu; cbn;
    rewrite ?Hu, ?lookup_insert_eq; cbn.
  - destruct (Nat.eqb_spec (offenseCount u + 1) 1) as [E | E].
    + unfold BanManager.executeServerBan. run. cbn.
      destruct (guilds_get client guildId) as [g |]; cbn;
        [destruct (members_ban g userId) as [e |]; cbn |].
      all: repeat split; eauto.
      all: try (intros other Ho; apply lookup_insert_ne; congruence).
      all: try (eexists; split; [apply lookup_insert_eq | reflexivity]).
      all: try (exists []; rewrite app_nil_r; split; [reflexivity | cbn; lia]).
      all: eexists; split; [reflexivity | cbn; lia].
    + unfold BanManager.queueForGlobalBan. run. cbn.
      repeat split; eauto.
      all: try (intros other Ho; apply lookup_insert_ne; congruence).
      all: try (eexists; split; [apply lookup_insert_eq | reflexivity]).
      all: try (eexists; split; [reflexivity | cbn; lia]).
  - unfold BanManager.executeServerBan. run. cbn.
    destruct (guilds_get client guildId) as [g |]; cbn;
      [destruct (members_ban g userId) as [e |]; cbn |].
    all: repeat split; eauto.
    all: try (intros other Ho; rewrite !lookup_insert_ne by congruence;
              reflexivity).
    all: try (eexists; split; [apply lookup_insert_eq | reflexivity]).
    all: try (exists []; rewrite app_nil_r; split; [reflexivity | cbn; lia]).
    all: eexists; split; [reflexivity | cbn; lia].
Qed.

(** timeoutManager.ts, first offense: the user is timed out for one week
    and a level-1 record expiring one week from now is written only when
    the guild is cached, the member is found and the timeout request goes
    through; in every other case no record is written and failure is
    reported.  The offense is counted in either case. *)
Theorem timeout_first_offense
    (userId guildId reason : string) (client : Client)
    (discordClient : option Client) (now : Z) (w : World) (guild : Guild) :
  current_offenses w userId = 0 ->
  guilds_get client guildId = Some guild ->
  let r := TimeoutManager.handleUserOffense userId guildId reason client
             discordClient now w in
  current_offenses (snd r) userId = 1 /\
  (exists result, fst r = Ok result /\
     TimeoutManager.level result = 1 /\
     TimeoutManager.requiresModeratorReview result = false /\
     (TimeoutManager.success result = true <->
      members_fetch guild userId = Responded true /\
      member_timeout guild userId = None)) /\
  (members_fetch guild userId = Responded true ->
   member_timeout guild userId = None ->
   timeouts (snd r) = timeouts w ++
     [{| to_userId := userId; to_guildId := guildId; to_level := 1;
         to_reason := reason; timeoutType := timeout_server;
         to_active := true; expiresAt := (now + 604800000)%Z |}] /\
   exists notices,
     events (snd r)
       = events w ++ MemberTimeout guildId userId 604800000 :: notices) /\
  ((members_fetch guild userId ≠ Responded true \/
    member_timeout guild userId ≠ None) ->
   timeouts (snd r) = timeouts w /\ events (snd r) = events w).
Proof.
  intros Hc Hg. cbn zeta.
  assert (Hnotify : forall lvl w0,
            exists notices,
              TimeoutManager.notifyModerationServer client lvl userId w0
              = (Ok tt, set_events (fun l => l ++ notices) w0)).
  { intros lvl w0. unfold TimeoutManager.notifyModerationServer. run.
    destruct (TimeoutManager.moderation_channel client w0) as [[sid c] |];
      cbn; [| exists []; rewrite set_events_nil; reflexivity].
    destruct (users_fetch client userId); cbn;
      [exists []; rewrite set_events_nil; reflexivity |].
    unfold TimeoutManager.channel_send. run.
    destruct (send c); cbn;
      [exists []; rewrite set_events_nil; reflexivity |].
    eexists [_]. reflexivity. }
  unfold TimeoutManager.handleUserOffense, current_offenses in *. run. cbn.
  assert (Hone : forall u0 : User, offenseCount u0 = 0 ->
                 (offenseCount u0 + 1 =? 1) = true)
    by (intros u0 ->; reflexivity).
  destruct (users w !! userId) as [u |] eqn:Hu; cbn;
    rewrite ?Hu, ?lookup_insert_eq; cbn; rewrite ?Hone by assumption;
    rewrite ?insert_insert_eq.
  all: unfold TimeoutManager.executeServerTimeout; run; rewrite Hg; cbn.
  all: destruct (members_fetch guild userId) as [[|] | e] eqn:Hf; cbn.
  all: try (destruct (member_timeout guild userId) as [e' |] eqn:Ht; cbn).
  all: try match goal with
           | |- context [TimeoutManager.notifyModerationServer ?c ?l ?x ?w0] =>
               destruct (Hnotify l w0) as (notices & ->); cbn
           end.
  all: rewrite ?lookup_insert_eq; cbn.
  all: repeat split; try lia; try congruence; eauto.
  all: try (eexists; split; [reflexivity |]; cbn; finish; fail).
  all: try (finish; fail).
  all: try (eexists; rewrite <- app_assoc; reflexivity).
Qed.

End EscalationMore.

(** ** timeoutManager.ts and moderatorAlert.ts, continued *)

Section TimeoutAndAlerts.

Import Terms.

Local Close Scope Q_scope.

Lemma timeout_first_offense_witness :
  let r :=
    TimeoutManager.handleUserOffense "u" "g1" "CSAM detection"
      Scenario.three_guilds None 1000 Scenario.empty_world in
  current_offenses (snd r) "u" = 1 /\
  timeouts (snd r) =
    [{| to_userId := "u"; to_guildId := "g1"; to_level := 1;
        to_reason := "CSAM detection"; timeoutType := timeout_server;
        to_active := true; expiresAt := 604801000 |}].
Proof.
  intros r.
  destruct (timeout_first_offense "u" "g1" "CSAM detection"
              Scenario.three_guilds None 1000 Scenario.empty_world
              (Scenario.guild_of "g1" None) eq_refl eq_refl)
    as (Hc & _ & Hok & _).
  destruct (Hok eq_refl eq_refl) as (Ht & _).
  split; [exact Hc | exact Ht].
Defined.

(** timeoutManager.ts, a later offense when the guild cannot be fetched for
    the notice: the error is thrown to the caller, but the offense has
    been counted and the pending record written, and they stay. *)
Theorem review_record_survives_notice_failure
    (userId guildId reason : string) (client discordClient : Client)
    (now : Z) (w : World) (u : User) (e : string) :
  users w !! userId = Some u ->
  1 <= offenseCount u ->
  guilds_fetch discordClient guildId = Threw e ->
  let r := TimeoutManager.handleUserOffense userId guildId reason client
             (Some discordClient) now w in
  fst r = Raise e /\
  current_offenses (snd r) userId = offenseCount u + 1 /\
  timeouts (snd r) = timeouts w ++
    [{| to_userId := userId; to_guildId := guildId; to_level := 2;
        to_reason := reason; timeoutType := pending_review;
        to_active := false; expiresAt := (now + 604800000)%Z |}] /\
  events (snd r) = events w.
Proof.
  intros Hu Hc Hf. cbn zeta.
  unfold TimeoutManager.handleUserOffense, current_offenses. run. cbn.
  rewrite Hu. cbn. rewrite Hu. cbn.
  destruct (Nat.eqb_spec (offenseCount u + 1) 1) as [E | E]; [lia |].
  unfold TimeoutManager.queueForReview. run. cbn. rewrite Hf. cbn.
  rewrite lookup_insert_eq. repeat split.
Qed.

Lemma review_record_survives_notice_failure_witness :
  let dc :=
    {| guilds_cache := [];
       guilds_fetch := fun _ => Threw "Unknown Guild";
       users_fetch := fun _ => None |} in
  let r :=
    TimeoutManager.handleUserOffense "u" "g3" "CSAM detection"
      Scenario.three_guilds (Some dc) 0 Scenario.offender_world in
  fst r = Raise "Unknown Guild" /\
  current_offenses (snd r) "u" = 3 /\
  length (timeouts (snd r)) = 3.
Proof.
  intros dc r.
  destruct (review_record_survives_notice_failure "u" "g3" "CSAM detection"
              Scenario.three_guilds dc 0 Scenario.offender_world
              Scenario.offender "Unknown Guild" eq_refl)
    as (Hr & Hc & Ht & _); [cbn; lia | reflexivity |].
  split; [exact Hr | split; [exact Hc |]].
  fold r in Ht. rewrite Ht. reflexivity.
Defined.

(** timeoutManager.ts, the reach of an approval: for a user that is not
    on record it returns false and changes nothing.  For a user on
    record it approves that user's pending records and no other record,
    whether or not there is any, leaves the rows of all other users as
    they are and sets the global-ban flag. *)
Theorem timeout_approval_reach
    (userId moderatorId : string) (client : Client) (w : World) :
  let r := TimeoutManager.approveGlobalBan userId moderatorId client w in
  match users w !! userId with
  | None => r = (Ok false, w)
  | Some u =>
      users (snd r) !! userId = Some (globally_banned u) /\
      (forall other, other ≠ userId ->
         users (snd r) !! other = users w !! other) /\
      length (timeouts (snd r)) = length (timeouts w) /\
      (forall i t, timeouts w !! i = Some t ->
         timeouts (snd r) !! i =
           Some (if (bool_decide (to_userId t = userId) &&
                     bool_decide (timeoutType t = pending_review))%bool
                 then approved_timeout t else t))
  end.
Proof.
  cbn zeta. destruct (users w !! userId) as [u |] eqn:Hu.
  - destruct (timeout_approval_reports userId moderatorId client w u Hu)
      as (_ & Ht & Hus & _).
    rewrite Ht, Hus. repeat split.
    + apply lookup_insert_eq.
    + intros other Ho. apply lookup_insert_ne. congruence.
    + unfold TimeoutManager.updateMany_pending. apply length_map.
    + intros i t Hi. apply updateMany_pending_lookup. exact Hi.
  - unfold TimeoutManager.approveGlobalBan. run. cbn. rewrite Hu. reflexivity.
Qed.

Lemma alertModerators_run guild detection w :
  exists sent,
    ModeratorAlert.alertModerators guild detection w
      = (Ok tt, set_events (fun l => l ++ sent) w) /\
    sent =
      match ModeratorAlert.alert_channel guild w with
      | Some c =>
          match send c with
          | None =>
              ChannelSend (guild_id guild) (channel_id c)
                "Content Detection Alert"
              :: (if (DetectionPipeline.flagged detection &&
                      negb (DetectionPipeline.requiresReview detection))%bool
                  then [ChannelSend (guild_id guild) (channel_id c)
                          "Immediate action taken on detected content."]
                  else if DetectionPipeline.requiresReview detection
                  then [ChannelSend (guild_id guild) (channel_id c)
                          "Content flagged for review - please check the dashboard."]
                  else [])
          | Some _ => []
          end
      | None => []
      end.
Proof.
  unfold ModeratorAlert.alertModerators. run.
  destruct (ModeratorAlert.alert_channel guild w) as [c |]; cbn;
    [| exists []; rewrite set_events_nil; split; reflexivity].
  unfold ModeratorAlert.channel_send. run.
  destruct (send c) as [e |]; cbn;
    [exists []; rewrite set_events_nil; split; reflexivity |].
  destruct (DetectionPipeline.flagged detection &&
            negb (DetectionPipeline.requiresReview detection))%bool; cbn.
  - eexists. split; [| reflexivity]. destruct w. unfold set_events. cbn.
    rewrite <- app_assoc. reflexivity.
  - destruct (DetectionPipeline.requiresReview detection); cbn.
    + eexists. split; [| reflexivity]. destruct w. unfold set_events. cbn.
      rewrite <- app_assoc. reflexivity.
    + eexists. split; reflexivity.
Qed.

Lemma sendDMAlert_run userId user_send w :
  ModeratorAlert.sendDMAlert userId user_send w =
    (Ok tt,
     set_events (fun l => l ++ match user_send with
                               | None => [UserSend userId]
                               | Some _ => []
                               end) w).
Proof.
  unfold ModeratorAlert.sendDMAlert. run.
  destruct user_send; cbn; [rewrite set_events_nil |]; reflexivity.
Qed.

(** The moderator alert never throws and writes to no table.  It posts
    nothing when the guild has no row, when its row names no alert
    channel or an empty one, when the channel named is not in the cache,
    and when the channel refuses the post.  Otherwise it posts the alert
    in that channel, followed by the line that mentions the moderators:
    "Immediate action taken" for a result that is flagged and needs no
    review, "Content flagged for review" for one that needs review, and
    no line for a result that is neither. *)
Theorem alert_is_best_effort
    (guild : Guild) (detection : DetectionPipeline.DetectionResult)
    (w : World) :
  let r := ModeratorAlert.alertModerators guild detection w in
  let post channelId text := ChannelSend (guild_id guild) channelId text in
  fst r = Ok tt /\
  users (snd r) = users w /\ bans (snd r) = bans w /\
  timeouts (snd r) = timeouts w /\ detections (snd r) = detections w /\
  reviews (snd r) = reviews w /\ attempts (snd r) = attempts w /\
  (guildTable w !! guild_id guild = None \/
   (exists row,
      guildTable w !! guild_id guild = Some row /\
      (alertChannelId row = None \/
       alertChannelId row = Some ""%string \/
       exists channelId,
         alertChannelId row = Some channelId /\
         channels_get guild channelId = None)) ->
   events (snd r) = events w) /\
  (forall row channelId c,
     guildTable w !! guild_id guild = Some row ->
     alertChannelId row = Some channelId ->
     channelId ≠ ""%string ->
     channels_get guild channelId = Some c ->
     (send c ≠ None -> events (snd r) = events w) /\
     (send c = None ->
      (DetectionPipeline.flagged detection = true ->
       DetectionPipeline.requiresReview detection = false ->
       events (snd r) = events w ++
         [ post channelId "Content Detection Alert";
           post channelId "Immediate action taken on detected content." ]) /\
      (DetectionPipeline.requiresReview detection = true ->
       events (snd r) = events w ++
         [ post channelId "Content Detection Alert";
           post channelId
             "Content flagged for review - please check the dashboard." ]) /\
      (DetectionPipeline.flagged detection = false ->
       DetectionPipeline.requiresReview detection = false ->
       events (snd r) = events w ++
         [ post channelId "Content Detection Alert" ]))).
Proof.
  cbn zeta. destruct (alertModerators_run guild detection w) as (sent & -> & Hs).
  cbn. do 7 (split; [reflexivity |]).
  unfold ModeratorAlert.alert_channel in Hs. split.
  - intros [Hnone | (row & Hrow & [Hid | [Hid | (channelId & Hid & Hc)]])].
    + rewrite Hnone in Hs. subst sent. apply app_nil_r.
    + rewrite Hrow, Hid in Hs. subst sent. apply app_nil_r.
    + rewrite Hrow, Hid in Hs. cbn in Hs. subst sent. apply app_nil_r.
    + rewrite Hrow, Hid in Hs. destruct (truthy (Some channelId));
        [rewrite Hc in Hs |]; subst sent; apply app_nil_r.
  - intros row channelId c Hrow Hid Hne Hc.
    rewrite Hrow, Hid in Hs. cbn [truthy] in Hs.
    rewrite bool_decide_eq_false_2 in Hs by exact Hne. cbn [negb] in Hs.
    rewrite Hc, (channels_get_id _ _ _ Hc) in Hs. split.
    + intros Hsend. destruct (send c); [| congruence].
      subst sent. apply app_nil_r.
    + intros Hsend. rewrite Hsend in Hs. subst sent. split; [| split].
      * intros -> ->. reflexivity.
      * intros ->. rewrite andb_false_r. reflexivity.
      * intros -> ->. reflexivity.
Qed.

Lemma alert_is_best_effort_witness :
  let w := Scenario.moderated_world in
  events (snd (ModeratorAlert.alertModerators (Scenario.guild_of "g1" None)
                 (Scenario.detection_with true false) w))
  = [ ChannelSend "g1" "alerts" "Content Detection Alert";
      ChannelSend "g1" "alerts" "Immediate action taken on detected content." ].
Proof.
  intros w.
  destruct (alert_is_best_effort (Scenario.guild_of "g1" None)
              (Scenario.detection_with true false) w)
    as (_ & _ & _ & _ & _ & _ & _ & _ & Hposts).
  destruct (Hposts
              {| detectionEnabled := true; autoDelete := true;
                 autoBan := true; alertChannelId := Some "alerts"%string;
                 moderatorRoleIds := "" |}
              "alerts"%string
              {| channel_id := "alerts"; isTextBased := true; send := None |}
              eq_refl eq_refl ltac:(discriminate) eq_refl)
    as (_ & Hsent).
  destruct (Hsent eq_refl) as (Hflagged & _).
  exact (Hflagged eq_refl eq_refl).
Defined.

End TimeoutAndAlerts.

(** ** The message handler, continued *)

Section MessageHandling.

Import Terms.

Local Close Scope Q_scope.

Variable toFixed2 : Q -> string.

#[local] Arguments MessageCreate.handleReviewRequired : simpl never.
#[local] Arguments MessageCreate.handleFlaggedContent : simpl never.
#[local] Arguments BanManager.handleUserOffense : simpl never.
#[local] Arguments ModeratorAlert.alertModerators : simpl never.
#[local] Arguments ModeratorAlert.sendDMAlert : simpl never.

Lemma processImageAttachment_ok message scan guildConfig client w :
  fst (MessageCreate.processImageAttachment toFixed2 message scan
         guildConfig client w) = Ok tt.
Proof.
  unfold MessageCreate.processImageAttachment, try_catch.
  match goal with |- context [match ?m w with _ => _ end] =>
    destruct (m w) as [[[] | e] w1]
  end; reflexivity.
Qed.

(** A failed scan is no action: when the scan throws (download, size,
    hashing), nothing is written, deleted, sent or sanctioned; and
    whatever the scan comes to, processing an attachment never throws. *)
Theorem failed_scan_is_no_action
    (message : MessageCreate.Message) (guildConfig : GuildConfig)
    (client : Client) (w : World) :
  (forall e,
     MessageCreate.processImageAttachment toFixed2 message (Threw e)
       guildConfig client w = (Ok tt, w)) /\
  (forall scan,
     fst (MessageCreate.processImageAttachment toFixed2 message scan
            guildConfig client w) = Ok tt).
Proof.
  split.
  - intros e. unfold MessageCreate.processImageAttachment. run. reflexivity.
  - intros scan. apply processImageAttachment_ok.
Qed.

(** What one offense comes to, as the message handler uses it. *)
Lemma handleUserOffense_summary userId guildId reason client w :
  exists result w1,
    BanManager.handleUserOffense userId guildId reason client w
      = (Ok result, w1) /\
    BanManager.level result
      = (if Nat.eqb (current_offenses w userId) 0 then 1 else 2) /\
    current_offenses w1 userId = S (current_offenses w userId) /\
    detections w1 = detections w /\ reviews w1 = reviews w /\
    guildTable w1 = guildTable w.
Proof.
  unfold BanManager.handleUserOffense, current_offenses. run. cbn.
  destruct (users w !! userId) as [u |] eqn:Hu; cbn;
    rewrite ?Hu, ?lookup_insert_eq; cbn.
  - destruct (Nat.eqb_spec (offenseCount u + 1) 1) as [E | E].
    + unfold BanManager.executeServerBan. run. cbn.
      destruct (guilds_get client guildId) as [g |]; cbn;
        [destruct (members_ban g userId) as [e |]; cbn |].
      all: eexists _, _; split; [reflexivity |]; cbn;
        rewrite lookup_insert_eq; cbn.
      all: replace (offenseCount u) with 0 by lia; repeat split.
    + unfold BanManager.queueForGlobalBan. run. cbn.
      eexists _, _. split; [reflexivity |]. cbn. rewrite lookup_insert_eq. cbn.
      destruct (Nat.eqb_spec (offenseCount u) 0) as [Z | Z]; [lia |].
      repeat split. lia.
  - unfold BanManager.executeServerBan. run. cbn.
    destruct (guilds_get client guildId) as [g |]; cbn;
      [destruct (members_ban g userId) as [e |]; cbn |].
    all: eexists _, _; split; [reflexivity |]; cbn;
      rewrite lookup_insert_eq; cbn; repeat split.
Qed.

Lemma updateMany_action_twice messageId a b (table : list Detection) :
  MessageCreate.updateMany_action messageId b
    (MessageCreate.updateMany_action messageId a table)
  = MessageCreate.updateMany_action messageId b table.
Proof.
  unfold MessageCreate.updateMany_action. rewrite List.map_map.
  apply List.map_ext. intros d.
  destruct (bool_decide (det_messageId d = messageId)) eqn:E; cbn;
    rewrite E; reflexivity.
Qed.

(** When the message cannot be deleted nothing else is done for it: with
    [autoDelete] on and the delete request failing, the flagged content is
    neither recorded as deleted nor counted as an offense, nobody is
    banned and no alert or notice is sent. *)
Theorem failed_delete_stops_handling
    (message : MessageCreate.Message)
    (detection : DetectionPipeline.DetectionResult)
    (guildConfig : GuildConfig) (client : Client) (w : World) (e : string) :
  autoDelete guildConfig = true ->
  MessageCreate.message_delete message = Some e ->
  MessageCreate.handleFlaggedContent toFixed2 message detection guildConfig
    client w = (Ok tt, w).
Proof.
  intros Ha Hd. unfold MessageCreate.handleFlaggedContent. run.
  rewrite Ha, Hd. reflexivity.
Qed.

Lemma alert_sent_no_sanction guild detection w sent :
  ModeratorAlert.alertModerators guild detection w
    = (Ok tt, set_events (fun l => l ++ sent) w) ->
  Forall (fun e => is_sanction e = false) sent.
Proof.
  destruct (alertModerators_run guild detection w) as (sent' & Heq & Hs).
  rewrite Heq. intros [= Hw].
  assert (E : sent' = sent).
  { apply app_inv_head in Hw. exact Hw. }
  rewrite <- E, Hs.
  destruct (ModeratorAlert.alert_channel guild w) as [c |];
    [destruct (send c) |]; try constructor; try reflexivity.
  destruct (DetectionPipeline.flagged detection &&
            negb (DetectionPipeline.requiresReview detection))%bool;
    [| destruct (DetectionPipeline.requiresReview detection)];
    repeat constructor.
Qed.

Lemma handleFlaggedContent_escalates
    (message : MessageCreate.Message)
    (detection : DetectionPipeline.DetectionResult)
    (guildConfig : GuildConfig) (client : Client) (w : World) :
  autoBan guildConfig = true ->
  (autoDelete guildConfig = false \/
   MessageCreate.message_delete message = None) ->
  let w' :=
    snd (MessageCreate.handleFlaggedContent toFixed2 message detection
           guildConfig client w) in
  let author := MessageCreate.author_id message in
  current_offenses w' author = S (current_offenses w author) /\
  detections w' =
    MessageCreate.updateMany_action (MessageCreate.message_id message)
      (action_deleted_and_banned_level
         (if Nat.eqb (current_offenses w author) 0 then 1 else 2))
      (detections w) /\
  reviews w' = reviews w.
Proof.
  intros Hban Hdel. cbn zeta.
  unfold MessageCreate.handleFlaggedContent. run. rewrite Hban.
  assert (Hgoal : forall w1,
            users w1 = users w -> detections w1 = detections w ->
            reviews w1 = reviews w ->
            forall reason result w3,
              BanManager.handleUserOffense (MessageCreate.author_id message)
                (guild_id (MessageCreate.guild message)) reason client
                (set_detections
                   (MessageCreate.updateMany_action
                      (MessageCreate.message_id message) action_deleted) w1)
              = (Ok result, w3) ->
              BanManager.level result
                = (if Nat.eqb (current_offenses w (MessageCreate.author_id message)) 0
                   then 1 else 2) /\
              current_offenses w3 (MessageCreate.author_id message)
                = S (current_offenses w (MessageCreate.author_id message)) /\
              detections w3
                = MessageCreate.updateMany_action
                    (MessageCreate.message_id message) action_deleted
                    (detections w) /\
              reviews w3 = reviews w).
  { intros w1 Hu1 Hd1 Hr1 reason result w3 Heq.
    match type of Heq with
    | BanManager.handleUserOffense ?u ?g ?rs ?c ?w2 = _ =>
        destruct (handleUserOffense_summary u g rs c w2)
          as (result' & w3' & Heq' & Hlevel & Hcount & Hd3 & Hr3 & _)
    end.
    rewrite Heq in Heq'. injection Heq' as <- <-.
    unfold current_offenses in *. cbn in *. rewrite Hu1 in *.
    rewrite Hlevel, Hcount, Hd3, Hr3, Hd1, Hr1. repeat split. }
  destruct Hdel as [Hd | Hd]; rewrite Hd; cbn;
    [| destruct (autoDelete guildConfig); cbn].
  all: match goal with
       | |- context [BanManager.handleUserOffense ?u ?g ?rs ?c ?w2] =>
           destruct (BanManager.handleUserOffense u g rs c w2)
             as [[result | err] w3] eqn:Heq;
             [| destruct (handleUserOffense_summary u g rs c w2)
                  as (? & ? & C & _); rewrite Heq in C; discriminate C]
       end.
  all: apply Hgoal in Heq; try reflexivity;
    destruct Heq as (Hlevel & Hcount & Hd3 & Hr3).
  all: cbn.
  all: match goal with
       | |- context [ModeratorAlert.alertModerators ?g ?d ?w4] =>
           destruct (alertModerators_run g d w4) as (sent & -> & _)
       end.
  all: cbn; rewrite sendDMAlert_run; cbn.
  all: unfold current_offenses in *; cbn.
  all: rewrite Hcount, Hd3, Hr3, Hlevel, updateMany_action_twice.
  all: repeat split.
Qed.

Lemma updateMany_action_lookup messageId a (table : list Detection) i d :
  table !! i = Some d ->
  MessageCreate.updateMany_action messageId a table !! i =
    Some (if bool_decide (det_messageId d = messageId)
          then marked a d else d).
Proof.
  intros H. unfold MessageCreate.updateMany_action.
  rewrite list_lookup_fmap, H. reflexivity.
Qed.

Lemma updateMany_action_length messageId a (table : list Detection) :
  length (MessageCreate.updateMany_action messageId a table) = length table.
Proof. unfold MessageCreate.updateMany_action. apply length_map. Qed.

(** Flagged content with [autoBan] on: unless the delete request fails,
    the author's offense count goes up by one and the detection table
    changes in the rows of this message and in no other: each of them
    gets the action deleted-and-banned with the level the offense came
    to, 1 for a first offense and 2 for a later one, also when
    [autoDelete] is off and when the ban itself did not go through. *)
Theorem flagged_content_is_escalated
    (message : MessageCreate.Message)
    (detection : DetectionPipeline.DetectionResult)
    (guildConfig : GuildConfig) (client : Client) (w : World) :
  autoBan guildConfig = true ->
  (autoDelete guildConfig = false \/
   MessageCreate.message_delete message = None) ->
  let w' :=
    snd (MessageCreate.handleFlaggedContent toFixed2 message detection
           guildConfig client w) in
  let author := MessageCreate.author_id message in
  let level := if Nat.eqb (current_offenses w author) 0 then 1 else 2 in
  current_offenses w' author = S (current_offenses w author) /\
  length (detections w') = length (detections w) /\
  (forall i d,
     detections w !! i = Some d ->
     detections w' !! i =
       Some (if bool_decide (det_messageId d = MessageCreate.message_id message)
             then marked (action_deleted_and_banned_level level) d
             else d)) /\
  reviews w' = reviews w.
Proof.
  intros Hban Hdel. cbn zeta.
  destruct (handleFlaggedContent_escalates message detection guildConfig
              client w Hban Hdel) as (Hc & Hd & Hr).
  split; [exact Hc |]. rewrite Hd.
  split; [apply updateMany_action_length |].
  split; [| exact Hr].
  intros i d Hi. apply updateMany_action_lookup. exact Hi.
Qed.

(** What the handler does with flagged content when [autoBan] is off. *)
Lemma handleFlaggedContent_no_ban
    (message : MessageCreate.Message)
    (detection : DetectionPipeline.DetectionResult)
    (guildConfig : GuildConfig) (client : Client) (w : World) :
  autoBan guildConfig = false ->
  (autoDelete guildConfig = false \/
   MessageCreate.message_delete message = None) ->
  let w' :=
    snd (MessageCreate.handleFlaggedContent toFixed2 message detection
           guildConfig client w) in
  users w' = users w /\ bans w' = bans w /\ attempts w' = attempts w /\
  detections w' =
    MessageCreate.updateMany_action (MessageCreate.message_id message)
      action_deleted (detections w) /\
  exists notices,
    events w' =
      events w ++
      (if autoDelete guildConfig
       then [MessageDelete (MessageCreate.message_id message)] else [])
      ++ notices /\
    Forall (fun e => is_sanction e = false) notices.
Proof.
  intros Hban Hdel. cbn zeta.
  unfold MessageCreate.handleFlaggedContent. run. rewrite Hban.
  assert (Hsent : forall w4 sent,
            ModeratorAlert.alertModerators (MessageCreate.guild message)
              detection w4 = (Ok tt, set_events (fun l => l ++ sent) w4) ->
            Forall (fun e => is_sanction e = false)
              (sent ++ match MessageCreate.author_send message with
                       | None => [UserSend (MessageCreate.author_id message)]
                       | Some _ => []
                       end)).
  { intros w4 sent H. apply Forall_app. split.
    - eapply alert_sent_no_sanction; eassumption.
    - destruct (MessageCreate.author_send message); repeat constructor. }
  destruct Hdel as [Hd | Hd]; rewrite Hd; cbn.
  - match goal with
    | |- context [ModeratorAlert.alertModerators ?g ?d ?w4] =>
        destruct (alertModerators_run g d w4) as (sent & Heq & _);
          pose proof (Hsent _ _ Heq) as HF; rewrite Heq
    end.
    cbn. rewrite sendDMAlert_run. cbn. repeat split.
    eexists. split; [rewrite <- app_assoc; reflexivity | exact HF].
  - destruct (autoDelete guildConfig); cbn.
    all: match goal with
         | |- context [ModeratorAlert.alertModerators ?g ?d ?w4] =>
             destruct (alertModerators_run g d w4) as (sent & Heq & _);
               pose proof (Hsent _ _ Heq) as HF; rewrite Heq
         end.
    all: cbn; rewrite sendDMAlert_run; cbn; repeat split.
    all: eexists; split; [rewrite <- ?app_assoc; reflexivity | exact HF].
Qed.

(** Flagged content with [autoBan] off: no offense is counted and nobody
    is banned.  Unless the delete request fails, the detection table
    changes in the rows of this message and in no other: each of them
    gets the action deleted, and that also when [autoDelete] is off, in
    which case no delete request is made at all. *)
Theorem flagged_content_without_ban
    (message : MessageCreate.Message)
    (detection : DetectionPipeline.DetectionResult)
    (guildConfig : GuildConfig) (client : Client) (w : World) :
  autoBan guildConfig = false ->
  (autoDelete guildConfig = false \/
   MessageCreate.message_delete message = None) ->
  let w' :=
    snd (MessageCreate.handleFlaggedContent toFixed2 message detection
           guildConfig client w) in
  users w' = users w /\ bans w' = bans w /\ attempts w' = attempts w /\
  length (detections w') = length (detections w) /\
  (forall i d,
     detections w !! i = Some d ->
     detections w' !! i =
       Some (if bool_decide (det_messageId d = MessageCreate.message_id message)
             then marked action_deleted d else d)) /\
  exists notices,
    events w' =
      events w ++
      (if autoDelete guildConfig
       then [MessageDelete (MessageCreate.message_id message)] else [])
      ++ notices /\
    Forall (fun e => is_sanction e = false) notices.
Proof.
  intros Hban Hdel. cbn zeta.
  destruct (handleFlaggedContent_no_ban message detection guildConfig
              client w Hban Hdel) as (Hu & Hb & Ha & Hd & He).
  split; [exact Hu |]. split; [exact Hb |]. split; [exact Ha |].
  rewrite Hd. split; [apply updateMany_action_length |].
  split; [| exact He].
  intros i d Hi. apply updateMany_action_lookup. exact Hi.
Qed.

Variable scan : string -> HttpOutcome DetectionPipeline.DetectionResult.

Lemma filter_none {A} (f : A -> bool) (l : list A) :
  Forall (fun a => f a = false) l -> List.filter f l = [].
Proof.
  induction 1 as [| a l Ha _ IH]; [reflexivity |]. cbn. rewrite Ha. exact IH.
Qed.

Lemma filter_all {A} (f : A -> bool) (l : list A) :
  Forall (fun a => f a = true) l -> List.filter f l = l.
Proof.
  induction 1 as [| a l Ha _ IH]; [reflexivity |]. cbn. rewrite Ha, IH.
  reflexivity.
Qed.

(** Messages the handler leaves alone: a message written by a bot, one
    outside a guild, one in a guild that has no configuration row or has
    detection switched off, and one without an attachment of a supported
    image type are not scanned, and nothing is written or sent. *)
Theorem ignored_messages
    (incoming : MessageEvents.Incoming) (client : Client) (w : World) :
  MessageEvents.author_bot incoming = true \/
  MessageEvents.has_guild incoming = false \/
  guildTable w !! guild_id (MessageCreate.guild (MessageEvents.message incoming))
    = None \/
  (exists guildConfig,
     guildTable w
       !! guild_id (MessageCreate.guild (MessageEvents.message incoming))
       = Some guildConfig /\ detectionEnabled guildConfig = false) \/
  Forall (fun a => MessageEvents.is_supported a = false)
    (MessageEvents.attachments incoming) ->
  MessageEvents.handleMessageCreate toFixed2 scan incoming client w
    = (Ok tt, w).
Proof.
  unfold MessageEvents.handleMessageCreate. run.
  intros [-> | [H | [H | [(c & H & Hc) | H]]]]; [reflexivity | | | |].
  - rewrite H. destruct (MessageEvents.author_bot incoming); reflexivity.
  - destruct (MessageEvents.author_bot incoming); [reflexivity |].
    destruct (MessageEvents.has_guild incoming); [| reflexivity].
    cbn. rewrite H. reflexivity.
  - destruct (MessageEvents.author_bot incoming); [reflexivity |].
    destruct (MessageEvents.has_guild incoming); [| reflexivity].
    cbn. rewrite H, Hc. reflexivity.
  - destruct (MessageEvents.author_bot incoming); [reflexivity |].
    destruct (MessageEvents.has_guild incoming); [| reflexivity].
    cbn. destruct (guildTable w !! _) as [c |]; [| reflexivity].
    destruct (detectionEnabled c); [| reflexivity]. cbn.
    rewrite (filter_none _ _ H). reflexivity.
Qed.

Lemma flagged_attachment_counts message d guildConfig client w :
  DetectionPipeline.flagged d = true ->
  DetectionPipeline.requiresReview d = false ->
  autoDelete guildConfig = false ->
  autoBan guildConfig = true ->
  exists w',
    MessageCreate.processImageAttachment toFixed2 message (Responded d)
      guildConfig client w = (Ok tt, w') /\
    current_offenses w' (MessageCreate.author_id message)
      = S (current_offenses w (MessageCreate.author_id message)).
Proof.
  intros Hf Hr Hdel Hban.
  pose proof (processImageAttachment_ok message (Responded d) guildConfig
                client w) as Hok.
  destruct (MessageCreate.processImageAttachment toFixed2 message
              (Responded d) guildConfig client w) as [res w'] eqn:Heq.
  cbn in Hok. subst res. exists w'. split; [reflexivity |].
  unfold MessageCreate.processImageAttachment in Heq. run.
  cbn in Heq. rewrite Hf, Hr in Heq. cbn in Heq.
  match type of Heq with
  | context [MessageCreate.handleFlaggedContent ?t ?m ?dd ?g ?c ?w0] =>
      pose proof (handleFlaggedContent_escalates m dd g c w0 Hban
                    (or_introl Hdel)) as (Hc & _);
        destruct (MessageCreate.handleFlaggedContent t m dd g c w0)
          as [[[] | e] w1]
  end; cbn in *; injection Heq as <-; exact Hc.
Qed.

(** Offenses are counted per attachment, not per message: with
    [autoDelete] off and [autoBan] on, a message whose image attachments
    are all flagged raises its author's offense count by the number of
    those attachments, so that a first message with two such images
    already puts the author in the queue for a global ban. *)
Theorem offenses_count_per_attachment
    (incoming : MessageEvents.Incoming) (client : Client) (w : World)
    (guildConfig : GuildConfig) :
  MessageEvents.author_bot incoming = false ->
  MessageEvents.has_guild incoming = true ->
  guildTable w !! guild_id (MessageCreate.guild (MessageEvents.message incoming))
    = Some guildConfig ->
  detectionEnabled guildConfig = true ->
  autoDelete guildConfig = false ->
  autoBan guildConfig = true ->
  Forall (fun a =>
            MessageEvents.is_supported a = true /\
            exists d, scan (MessageEvents.url a) = Responded d /\
                      DetectionPipeline.flagged d = true /\
                      DetectionPipeline.requiresReview d = false)
    (MessageEvents.attachments incoming) ->
  let r := MessageEvents.handleMessageCreate toFixed2 scan incoming client w in
  let author := MessageCreate.author_id (MessageEvents.message incoming) in
  fst r = Ok tt /\
  current_offenses (snd r) author
    = current_offenses w author + length (MessageEvents.attachments incoming).
Proof.
  intros Hbot Hguild Hcfg Hen Hdel Hban Hall. cbn zeta.
  unfold MessageEvents.handleMessageCreate. run.
  rewrite Hbot, Hguild. cbn. rewrite Hcfg, Hen. cbn.
  rewrite filter_all
    by (eapply Forall_impl; [exact Hall | intros a (Ha & _); exact Ha]).
  assert (Hloop : forall l w0,
            Forall (fun a =>
                      MessageEvents.is_supported a = true /\
                      exists d, scan (MessageEvents.url a) = Responded d /\
                                DetectionPipeline.flagged d = true /\
                                DetectionPipeline.requiresReview d = false) l ->
            exists w1,
              MessageEvents.process_all toFixed2 scan
                (MessageEvents.message incoming) l guildConfig client w0
                = (Ok tt, w1) /\
              current_offenses w1
                (MessageCreate.author_id (MessageEvents.message incoming))
              = current_offenses w0
                  (MessageCreate.author_id (MessageEvents.message incoming))
                + length l).
  { induction l as [| a l IH]; intros w0 Hl.
    - exists w0. split; [reflexivity | cbn; lia].
    - inversion Hl as [| ? ? (Ha & d & Hs & Hf & Hr) Hl']; subst.
      cbn [MessageEvents.process_all]. run. rewrite Hs.
      destruct (flagged_attachment_counts (MessageEvents.message incoming)
                  d guildConfig client w0 Hf Hr Hdel Hban)
        as (w1 & -> & Hc1).
      destruct (IH w1 Hl') as (w2 & -> & Hc2).
      exists w2. split; [reflexivity |]. rewrite Hc2, Hc1. cbn. lia. }
  destruct (Hloop (MessageEvents.attachments incoming) w Hall)
    as (w1 & Heq & Hc).
  destruct (MessageEvents.attachments incoming) as [| a l] eqn:Hatt.
  - cbn. split; [reflexivity | lia].
  - cbn [length Nat.eqb]. rewrite Heq. cbn. split; [reflexivity | exact Hc].
Qed.

End MessageHandling.

Lemma failed_delete_stops_handling_witness :
  MessageCreate.handleFlaggedContent (fun _ => "90.00"%string)
    {| MessageCreate.message_id := "m1";
       MessageCreate.author_id := "u";
       MessageCreate.guild := Scenario.guild_of "g1" None;
       MessageCreate.message_delete := Some "Missing Permissions"%string;
       MessageCreate.message_react := None;
       MessageCreate.author_send := None |}
    (Scenario.detection_with true false)
    Scenario.guild_defaults Scenario.three_guilds Scenario.moderated_world
  = (Ok tt, Scenario.moderated_world).
Proof.
  apply (failed_delete_stops_handling _ _ _ _ _ _ "Missing Permissions");
    reflexivity.
Defined.


(** A third offense: the row of the message is marked with level 2; the
    row of the earlier message keeps its level 1. *)
Lemma flagged_content_is_escalated_witness :
  let w' :=
    snd (MessageCreate.handleFlaggedContent (fun _ => "90.00"%string)
           Scenario.message_in_g1 (Scenario.detection_with true false)
           Scenario.guild_defaults Scenario.three_guilds
           Scenario.recorded_world) in
  Terms.current_offenses w' "u" = 3%nat /\
  length (detections w') = 2%nat /\
  detections w' !! 0%nat =
    Some (Scenario.detection_row "m0" (action_deleted_and_banned_level 1)) /\
  detections w' !! 1%nat =
    Some (Scenario.detection_row "m1" (action_deleted_and_banned_level 2)) /\
  reviews w' = [].
Proof.
  intros w'.
  destruct (flagged_content_is_escalated (fun _ => "90.00"%string)
              Scenario.message_in_g1 (Scenario.detection_with true false)
              Scenario.guild_defaults Scenario.three_guilds
              Scenario.recorded_world eq_refl (or_intror eq_refl))
    as (Hc & Hl & Hrows & Hr).
  split; [exact Hc |]. split; [exact Hl |].
  split; [| split; [| exact Hr]].
  - exact (Hrows 0%nat _ eq_refl).
  - exact (Hrows 1%nat _ eq_refl).
Defined.

Lemma flagged_content_without_ban_witness :
  let guildConfig :=
    {| detectionEnabled := true; autoDelete := false; autoBan := false;
       alertChannelId := None; moderatorRoleIds := "" |} in
  let w' :=
    snd (MessageCreate.handleFlaggedContent (fun _ => "90.00"%string)
           Scenario.message_in_g1 (Scenario.detection_with true false)
           guildConfig Scenario.three_guilds Scenario.recorded_world) in
  users w' = users Scenario.recorded_world /\
  bans w' = bans Scenario.recorded_world /\
  attempts w' = [] /\
  detections w' !! 0%nat =
    Some (Scenario.detection_row "m0" (action_deleted_and_banned_level 1)) /\
  detections w' !! 1%nat =
    Some (Scenario.detection_row "m1" action_deleted).
Proof.
  intros guildConfig w'.
  destruct (flagged_content_without_ban (fun _ => "90.00"%string)
              Scenario.message_in_g1 (Scenario.detection_with true false)
              guildConfig Scenario.three_guilds
              Scenario.recorded_world eq_refl (or_introl eq_refl))
    as (Hu & Hb & Ha & _ & Hrows & _).
  split; [exact Hu |]. split; [exact Hb |]. split; [exact Ha |]. split.
  - exact (Hrows 0%nat _ eq_refl).
  - exact (Hrows 1%nat _ eq_refl).
Defined.

(** ** Logging and configuration *)

Section LoggerAndConfig.

Local Close Scope Q_scope.

Lemma string_length_append (s1 s2 : string) :
  String.length (s1 ++ s2) = String.length s1 + String.length s2.
Proof.
  induction s1 as [| c s1 IH]; [reflexivity |].
  change (S (String.length (s1 ++ s2))
          = S (String.length s1 + String.length s2)).
  f_equal. exact IH.
Qed.

Lemma substring_split (n : nat) (s : string) :
  n <= String.length s ->
  s = (String.substring 0 n s ++ Logger.substring_from n s)%string /\
  String.length (String.substring 0 n s) = n.
Proof.
  revert s. induction n as [| n IH]; intros s Hn.
  - destruct s; cbn; split; reflexivity.
  - destruct s as [| c s]; cbn in *; [lia |].
    destruct (IH s) as (Hs & Hl); [lia |].
    split; [| f_equal; exact Hl].
    change (String c s
            = String c (String.substring 0 n s ++ Logger.substring_from n s)%string).
    f_equal. exact Hs.
Qed.

Lemma substring_from_length (n : nat) (s : string) :
  String.length (Logger.substring_from n s) = String.length s - n.
Proof.
  revert s. induction n as [| n IH]; intros s; cbn; [lia |].
  destruct s as [| c s]; cbn; [reflexivity | apply IH].
Qed.

Lemma substring_from_add (n m : nat) (s : string) :
  Logger.substring_from (n + m) s
  = Logger.substring_from m (Logger.substring_from n s).
Proof.
  revert s. induction n as [| n IH]; intros s; cbn; [reflexivity |].
  destruct s as [| c s]; cbn; [destruct m; reflexivity | apply IH].
Qed.

(** A masked user id shows the first four and the last four characters of
    the id and nothing of what lies between them, and an id of fewer than
    eight characters is masked whole; the mask has 3 or 11 characters
    whatever the length of the id. *)
Theorem masked_user_id (userId : string) :
  (String.length userId < 8 ->
   Logger.maskUserId userId = "***"%string) /\
  (8 <= String.length userId ->
   exists first middle last,
     userId = (first ++ middle ++ last)%string /\
     String.length first = 4 /\ String.length last = 4 /\
     Logger.maskUserId userId = (first ++ "***" ++ last)%string) /\
  (String.length (Logger.maskUserId userId) = 3 \/
   String.length (Logger.maskUserId userId) = 11).
Proof.
  unfold Logger.maskUserId.
  destruct (Nat.ltb_spec (String.length userId) 8) as [Hlt | Hge].
  - split; [reflexivity | split; [lia | left; reflexivity]].
  - destruct (substring_split 4 userId) as (Hs & Hl4); [lia |].
    set (rest := Logger.substring_from 4 userId) in *.
    assert (Hrest : String.length rest = String.length userId - 4)
      by apply substring_from_length.
    destruct (substring_split (String.length userId - 8) rest)
      as (Hs' & _); [lia |].
    assert (Hlast : Logger.substring_from (String.length userId - 4) userId
                    = Logger.substring_from (String.length userId - 8) rest).
    { replace (String.length userId - 4)
        with (4 + (String.length userId - 8)) by lia.
      apply substring_from_add. }
    assert (Hl : String.length
                   (Logger.substring_from (String.length userId - 8) rest) = 4).
    { rewrite substring_from_length. lia. }
    split; [lia | split].
    + intros _. eexists _, _, _. rewrite Hlast.
      split; [| split; [exact Hl4 | split; [exact Hl | reflexivity]]].
      rewrite <- Hs'. exact Hs.
    + right. rewrite Hlast, !string_length_append, Hl4, Hl. reflexivity.
Qed.

Lemma masked_user_id_witness :
  Logger.maskUserId "123456789012345678" = "1234***5678"%string /\
  Logger.maskUserId "1234567" = "***"%string.
Proof.
  destruct (masked_user_id "1234567") as (Hshort & _).
  split; [reflexivity | apply Hshort; cbn; lia].
Defined.

(** Reading a variable of the environment: a value that is set and not
    empty always wins over the default; a value that is unset or empty
    gives the default; and when there is no default either, or it is
    empty, the call throws.  What it returns is never the empty string. *)
Theorem getEnvVar_cases
    (env : gmap string string) (key : string) (defaultValue : option string) :
  match Config.getEnvVar env key defaultValue with
  | Ok v =>
      v ≠ ""%string /\
      (env !! key = Some v \/
       (env !! key = None \/ env !! key = Some ""%string) /\
       defaultValue = Some v)
  | Raise _ =>
      (env !! key = None \/ env !! key = Some ""%string) /\
      (defaultValue = None \/ defaultValue = Some ""%string)
  end.
Proof.
  unfold Config.getEnvVar, truthy.
  destruct (env !! key) as [v |]; destruct defaultValue as [d |]; cbn;
    repeat case_bool_decide; cbn; subst; auto.
Qed.

(** [validateConfig] accepts a configuration exactly when the bot token is
    not empty and the JWT secret and the encryption key have at least 32
    characters each.  It does not look at the detection settings: a
    review threshold at or above the detection threshold is accepted. *)
Theorem validateConfig_accepts (config : Config.AppConfig) :
  (Config.validateConfig config = Ok tt <->
   Config.discord_token config ≠ ""%string /\
   32 <= String.length (Config.jwtSecret config) /\
   32 <= String.length (Config.encryptionKey config)) /\
  (forall detection,
     Config.validateConfig
       {| Config.discord_token := Config.discord_token config;
          Config.jwtSecret := Config.jwtSecret config;
          Config.encryptionKey := Config.encryptionKey config;
          Config.detection := detection |}
     = Config.validateConfig config).
Proof.
  unfold Config.validateConfig, truthy. cbn. split; [| reflexivity].
  case_bool_decide; cbn.
  - split; [discriminate | intros (C & _); contradiction].
  - destruct (Nat.leb_spec (String.length (Config.jwtSecret config)) 31);
      [split; [discriminate | lia] |].
    destruct (Nat.leb_spec (String.length (Config.encryptionKey config)) 31);
      [split; [discriminate | lia] |].
    split; [intros _; repeat split; [assumption | lia | lia] | reflexivity].
Qed.

End LoggerAndConfig.

Lemma ignored_messages_witness :
  MessageEvents.handleMessageCreate (fun _ => "90.00"%string)
    (fun _ => Responded (Scenario.detection_with true false))
    {| MessageEvents.author_bot := true;
       MessageEvents.has_guild := true;
       MessageEvents.message := Scenario.message_in_g1;
       MessageEvents.attachments :=
         [{| MessageEvents.url := "a.png";
             MessageEvents.contentType := Some "image/png"%string |}] |}
    Scenario.three_guilds Scenario.moderated_world
  = (Ok tt, Scenario.moderated_world).
Proof.
  apply (ignored_messages (fun _ => "90.00"%string)
           (fun _ => Responded (Scenario.detection_with true false))).
  left. reflexivity.
Defined.

(** One first message with two flagged images, in a guild that bans but
    does not delete: the author ends with two offenses. *)
Lemma offenses_count_per_attachment_witness :
  let guildConfig :=
    {| detectionEnabled := true; autoDelete := false; autoBan := true;
       alertChannelId := None; moderatorRoleIds := "" |} in
  let w :=
    {| users := ∅; bans := []; timeouts := []; detections := [];
       reviews := []; guildTable := {[ "g1"%string := guildConfig ]};
       botConfig := None; events := []; attempts := [] |} in
  let incoming :=
    {| MessageEvents.author_bot := false;
       MessageEvents.has_guild := true;
       MessageEvents.message := Scenario.message_in_g1;
       MessageEvents.attachments :=
         [{| MessageEvents.url := "a.png";
             MessageEvents.contentType := Some "image/png"%string |};
          {| MessageEvents.url := "b.jpg";
             MessageEvents.contentType := Some "image/jpeg"%string |}] |} in
  let r :=
    MessageEvents.handleMessageCreate (fun _ => "90.00"%string)
      (fun _ => Responded (Scenario.detection_with true false))
      incoming Scenario.three_guilds w in
  fst r = Ok tt /\ Terms.current_offenses (snd r) "u" = 2%nat.
Proof.
  intros guildConfig w incoming r.
  apply (offenses_count_per_attachment (fun _ => "90.00"%string)
           (fun _ => Responded (Scenario.detection_with true false))
           incoming Scenario.three_guilds w guildConfig);
    try reflexivity.
  repeat constructor; eexists; repeat split.
Defined.
